(** * Orange widgets: background tasks, commits, settings migration

    A shallow embedding of the widget code of
      Orange/widgets/data/owoutliers.py
      Orange/widgets/data/owdatasampler.py
      Orange/widgets/unsupervised/owdistances.py
      Orange/widgets/unsupervised/owmanifoldlearning.py
      Orange/widgets/visualize/owfreeviz.py
    Python floats are rendered as exact rationals [Q]; a function that
    talks to a [TaskState] is a computation in the monad [Task.M], which
    threads the task state and propagates exceptions. *)

From stdpp Require Import gmap strings list pretty sorting.
From Stdlib Require Import QArith Qabs Qround ZArith Lia Lqa.

Set Warnings "-register-all".
Close Scope Q_scope.
Set Default Proof Using "Type".

(* ===================================================================== *)
(** ** Exceptions and the task monad *)
(* ===================================================================== *)

Module Task.

(** The Python exceptions the modelled code raises or handles. *)
Inductive exn : Type :=
| Exception
| InterruptException
| ValueError (msg : string)
| MemoryError
| LinAlgError
| AssertionError
| TypeError
| KeyError
| IndexError.

#[global] Instance exn_eq_dec : EqDecision exn.
Proof. solve_decision. Defined.

Inductive outcome (A : Type) : Type :=
| Return (a : A)
| Raise (e : exn).
Arguments Return {A} a.
Arguments Raise {A} e.

(** What a task does that the outside can observe, in program order:
    the calls on its [TaskState] and the calls into the numerical
    libraries ([Step], labelled by the callee). *)
Inductive event (R : Type) : Type :=
| SetStatus (s : string)
| SetProgressValue (v : Q)
| SetPartialResult (r : R)
| PollInterruption (answer : bool)
| Step (callee : string).
Arguments SetStatus {R} s.
Arguments SetProgressValue {R} v.
Arguments SetPartialResult {R} r.
Arguments PollInterruption {R} answer.
Arguments Step {R} callee.

(** Modelled from the spec: [TaskState] of Orange.widgets.utils.concurrent
    is not under src/; the task functions use four of its methods
    (set_status, set_progress_value, set_partial_result,
    is_interruption_requested). The GUI thread may request interruption
    at any moment, so what the [k]-th call of is_interruption_requested
    answers is given by [interruption k]; [polls] counts the calls made
    so far and [trace] records every call, oldest first. *)
Record TaskState (R : Type) : Type := mkTaskState {
  interruption : nat -> bool;
  polls : nat;
  trace : list (event R)
}.
Arguments mkTaskState {R} interruption polls trace.
Arguments interruption {R} t _.
Arguments polls {R} t.
Arguments trace {R} t.

Definition M (R A : Type) : Type := TaskState R -> TaskState R * outcome A.

Definition ret {R A} (a : A) : M R A := fun st => (st, Return a).

Definition raise {R A} (e : exn) : M R A := fun st => (st, Raise e).

Definition bind {R A B} (c : M R A) (f : A -> M R B) : M R B :=
  fun st =>
    match c st with
    | (st', Return a) => f a st'
    | (st', Raise e) => (st', Raise e)
    end.

Definition lift {R A} (o : outcome A) : M R A := fun st => (st, o).

Definition emit {R} (e : event R) : M R unit :=
  fun st => (mkTaskState (interruption st) (polls st) (trace st ++ [e]), Return tt).

Definition set_status {R} (s : string) : M R unit := emit (SetStatus s).

Definition set_progress_value {R} (v : Q) : M R unit := emit (SetProgressValue v).

Definition set_partial_result {R} (r : R) : M R unit := emit (SetPartialResult r).

Definition step {R} (callee : string) : M R unit := emit (Step callee).

Definition is_interruption_requested {R} : M R bool :=
  fun st =>
    let b := interruption st (polls st) in
    (mkTaskState (interruption st) (S (polls st)) (trace st ++ [PollInterruption b]),
     Return b).

(** A task state on which nothing has happened yet. *)
Definition fresh {R} (intr : nat -> bool) : TaskState R := mkTaskState intr 0 [].

Definition never : nat -> bool := fun _ => false.

(** Interruption is requested from the [k]-th poll on. *)
Definition from_poll (k : nat) : nat -> bool := fun i => k <=? i.

End Task.

Import Task.

Declare Scope task_scope.
Delimit Scope task_scope with task.
Notation "x <- c ;; k" := (Task.bind c (fun x => k))
  (at level 100, c at next level, right associativity) : task_scope.
Notation "c ;;; k" := (Task.bind c (fun _ => k))
  (at level 100, right associativity) : task_scope.
Local Open Scope task_scope.

(** Python's [for x in xs: body(x)] inside a task. *)
Fixpoint for_each {R A} (body : A -> M R unit) (xs : list A) : M R unit :=
  match xs with
  | [] => ret tt
  | x :: xs' => body x ;;; for_each body xs'
  end.

(* ===================================================================== *)
(** ** Python values, tables, widget effects *)
(* ===================================================================== *)

(** Modelled from the spec: Orange.data.Table and Orange.data.Domain are
    not under src/. A table is a list of rows over the variables of its
    domain (attributes, then class variables, then metas); the code under
    src/ uses its length, its truth value (non-empty), [get_column] and
    indexing with an array of row numbers or with one row number. *)
Record Domain : Type := mkDomain {
  attributes : list string;
  class_vars : list string;
  metas : list string
}.

Record Table : Type := mkTable {
  domain : Domain;
  rows : list (list Q)
}.

Definition variables (d : Domain) : list string :=
  attributes d ++ class_vars d ++ metas d.

Definition len (t : Table) : nat := length (rows t).

(** [bool(data)] for [data] that may be [None]. *)
Definition truthy (data : option Table) : bool :=
  match data with
  | None => false
  | Some t => negb (len t =? 0)
  end.

Fixpoint index_of (x : string) (xs : list string) : option nat :=
  match xs with
  | [] => None
  | y :: ys => if String.eqb x y then Some 0 else S <$> index_of x ys
  end.

Definition get_column (var : string) (t : Table) : outcome (list Q) :=
  match index_of var (variables (domain t)) with
  | None => Raise (ValueError var)
  | Some j => Return (map (fun r => nth j r 0%Q) (rows t))
  end.

(** [t[ind]] for an array of row numbers. *)
Definition take_rows (ind : list nat) (t : Table) : outcome Table :=
  match mapM (fun i => rows t !! i) ind with
  | Some rs => Return (mkTable (domain t) rs)
  | None => Raise IndexError
  end.

(** [t[i]] for an integer: the values of row [i], which the library wraps
    into a row instance over the table's domain. *)
Definition take_row (i : nat) (t : Table) : outcome (list Q) :=
  match rows t !! i with
  | Some r => Return r
  | None => Raise IndexError
  end.

(** [np.where(col == v)[0]]: the positions holding [v], ascending. *)
Fixpoint where_from (k : nat) (v : Q) (col : list Q) : list nat :=
  match col with
  | [] => []
  | x :: xs =>
      if Qeq_bool x v then k :: where_from (S k) v xs else where_from (S k) v xs
  end.

Definition np_where_eq (col : list Q) (v : Q) : list nat := where_from 0 v col.

(** Modelled from the spec: Orange.misc.DistMatrix is not under src/; only
    its identity as a type matters to the code under src/. *)
Record DistMatrix : Type := mkDistMatrix {
  dist_axis : Z;
  dist_cells : list (list Q)
}.

(** The Python values that travel through settings dictionaries, keyword
    arguments and widget channels. *)
Inductive pyval : Type :=
| PyNone
| PyBool (b : bool)
| PyInt (z : Z)
| PyFloat (q : Q)
| PyStr (s : string)
| PyDict (d : gmap string pyval)
| PyTable (t : Table)
| PyDistMatrix (m : DistMatrix)
| PyInstance (d : Domain) (values : list Q).

Definition of_option_table (o : option Table) : pyval :=
  match o with
  | None => PyNone
  | Some t => PyTable t
  end.

Definition is_none (v : pyval) : bool :=
  match v with PyNone => true | _ => false end.

(** The classes widget channels are declared with. *)
Inductive pytype : Type :=
| TyTable
| TyDistMatrix.

Definition isinstance (v : pyval) (ty : pytype) : bool :=
  match ty, v with
  | TyTable, PyTable _ => true
  | TyDistMatrix, PyDistMatrix _ => true
  | _, _ => false
  end.


(** Python truth value. *)
Definition py_truth (v : pyval) : bool :=
  match v with
  | PyNone => false
  | PyBool b => b
  | PyInt z => negb (z =? 0)%Z
  | PyFloat q => negb (Qeq_bool q 0)
  | PyStr s => negb (String.eqb s "")
  | PyDict d => negb (bool_decide (dom d = ∅))
  | PyTable t => negb (len t =? 0)
  | PyDistMatrix m => negb (length (dist_cells m) =? 0)
  | PyInstance d _ => negb (length (attributes d) + length (class_vars d) =? 0)
  end.

(** The integer a value stands for in a comparison or as an index
    ([bool] is a subclass of [int]). *)
Definition as_int (v : pyval) : option Z :=
  match v with
  | PyInt z => Some z
  | PyBool b => Some (Z.b2z b)
  | _ => None
  end.

(** [l[i]] for a list: negative indexes count from the end, anything
    outside raises IndexError. *)
Definition py_index {A} (l : list A) (i : Z) : outcome A :=
  let n := Z.of_nat (length l) in
  let j := if (i <? 0)%Z then (i + n)%Z else i in
  if (j <? 0)%Z then Raise IndexError
  else match l !! Z.to_nat j with
       | Some x => Return x
       | None => Raise IndexError
       end.

(** [d.get(k, default)] *)
Definition get_default (k : string) (default : pyval) (d : gmap string pyval) : pyval :=
  match d !! k with
  | Some v => v
  | None => default
  end.

(** [version is None or version < n] *)
Definition older_than (version : option Z) (n : Z) : bool :=
  match version with
  | None => true
  | Some v => (v <? n)%Z
  end.

(** What a widget method asks of the widget framework and of the numerical
    libraries, in program order. [T] is the type of task descriptions:
    [Start t] is [self.start(f, *args)] of the concurrent mixin, [Cancel]
    is [self.cancel()], [Send c v] is [self.Outputs.c.send(v)], [Call f]
    is a synchronous call of a projector or sampler inside the method,
    [Message m] shows the error or warning named [m], [ClearMessage m]
    clears it and [ClearMessages] clears all of them. Pure Qt layout calls (show, hide, setText, setEnabled) are left
    out. *)
Inductive effect (T : Type) : Type :=
| Cancel
| Start (task : T)
| Send (channel : string) (v : pyval)
| Call (callee : string)
| Message (m : string)
| ClearMessage (m : string)
| ClearMessages.
Arguments Cancel {T}.
Arguments Start {T} task.
Arguments Send {T} channel v.
Arguments Call {T} callee.
Arguments Message {T} m.
Arguments ClearMessage {T} m.
Arguments ClearMessages {T}.

Definition is_start {T} (e : effect T) : bool :=
  match e with Start _ => true | _ => false end.

Definition is_send {T} (e : effect T) : bool :=
  match e with Send _ _ => true | _ => false end.

Definition is_call {T} (e : effect T) : bool :=
  match e with Call _ => true | _ => false end.

(** The values sent on channel [c], oldest first. *)
Fixpoint sent_on {T} (c : string) (es : list (effect T)) : list pyval :=
  match es with
  | [] => []
  | Send c' v :: es' => if String.eqb c c' then v :: sent_on c es' else sent_on c es'
  | _ :: es' => sent_on c es'
  end.

(** Scripts of the library calls that take a progress callback: a learner,
    a fitted model or a distance reports progress some number of times
    around its own computation, and an exception the callback raises
    passes through the library call to its caller. *)
Inductive action : Type :=
| Report (i : Q) (status : string)
| Compute (callee : string).

Definition run_script {R} (callback : Q -> string -> M R unit)
    (script : list action) : M R unit :=
  for_each (fun a => match a with
                     | Report i status => callback i status
                     | Compute callee => step callee
                     end) script.

(** Modelled from the spec: Orange.util.wrap_callback is not under src/;
    it rescales the progress of a callback linearly into [start, end] and
    passes the other arguments through. *)
Definition wrap_callback {R} (callback : Q -> string -> M R unit)
    (start end_ : Q) : Q -> string -> M R unit :=
  fun progress status => callback (start + progress * (end_ - start))%Q status.

(* ===================================================================== *)
(** ** Deferred commits *)
(* ===================================================================== *)

Module gui.

(** Modelled from the spec: the decorator [gui.deferred] and the button
    [gui.auto_apply] belong to the widget base package, which is not
    under src/. A decorated [commit] is called as [commit.now()], which
    runs it at once and clears the mark of uncommitted changes, or as
    [commit.deferred()], which does the same when the widget's
    auto-commit setting is on and otherwise only marks the widget as
    having uncommitted changes; pressing the apply button runs it and
    clears the mark. [W] is the widget state and [E] what a
    run of the commit produces. *)
Section deferred.
Context {W E : Type}.
Context (auto_commit : W -> bool) (set_dirty : bool -> W -> W).
Context (commit : W -> outcome (W * list E)).

Definition do_commit (w : W) : outcome (W * list E) :=
  match commit w with
  | Return (w', es) => Return (set_dirty false w', es)
  | Raise e => Raise e
  end.

Definition now (w : W) : outcome (W * list E) := do_commit w.

Definition deferred (w : W) : outcome (W * list E) :=
  if auto_commit w then do_commit w else Return (set_dirty true w, []).

Definition apply_clicked (w : W) : outcome (W * list E) := do_commit w.

End deferred.

(** A handler run [n] times in a row, the effects concatenated. *)
Fixpoint repeat_handler {W E} (h : W -> outcome (W * list E)) (n : nat) (w : W)
  : outcome (W * list E) :=
  match n with
  | 0 => Return (w, [])
  | S n' =>
      match h w with
      | Return (w', es) =>
          match repeat_handler h n' w' with
          | Return (w'', es') => Return (w'', es ++ es')
          | Raise e => Raise e
          end
      | Raise e => Raise e
      end
  end.

End gui.

(** Modelled from the spec: the decorator [check_sql_input] of
    [Orange.widgets.utils.sql], which is not under src/. It clears the
    error [download_sql_data] and then runs the handler; a table held
    in a database would first be downloaded or replaced by [None], an
    in-memory table or [None] is passed on as it is. The handlers it
    decorates here receive in-memory tables only. *)
Definition check_sql_input {W D T}
    (f : D -> W -> outcome (W * list (effect T))) (data : D) (w : W)
  : outcome (W * list (effect T)) :=
  match f data w with
  | Return (w', es) => Return (w', ClearMessage "download_sql_data" :: es)
  | Raise ex => Raise ex
  end.

(* ===================================================================== *)
(** ** Orange/widgets/data/owoutliers.py *)
(* ===================================================================== *)

Module owoutliers.

Record Results : Type := mkResults {
  inliers : option Table;
  outliers : option Table;
  annotated_data : option Table
}.

(** A fitted outlier model: called on data with a progress callback. *)
Record Model : Type := mkModel {
  predict_script : list action;
  predict : Table -> outcome Table;
  outlier_var : string
}.

(** A learner: called on data with a progress callback, gives a model. *)
Record Learner : Type := mkLearner {
  fit_script : list action;
  fit : Table -> outcome Model
}.

Definition call_learner {R} (learner : Learner) (data : Table)
    (callback : Q -> string -> M R unit) : M R Model :=
  run_script callback (fit_script learner) ;;; lift (fit learner data).

Definition call_model {R} (model : Model) (data : Table)
    (callback : Q -> string -> M R unit) : M R Table :=
  run_script callback (predict_script model) ;;; lift (predict model data).

Definition callback (i : Q) (status : string) : M unit unit :=
  set_progress_value (i * 100)%Q ;;;
  (if String.eqb status "" then ret tt else set_status status) ;;;
  b <- is_interruption_requested ;;
  if b then raise Exception else ret tt.

Definition run (data : option Table) (learner : Learner) : M unit Results :=
  let results := mkResults None None None in
  match data with
  | None => ret results
  | Some data =>
      if len data =? 0 then ret results else
      callback 0%Q "初始化..." ;;;
      model <- call_learner learner data (wrap_callback callback 0 (6 # 10)) ;;
      pred <- call_model model data (wrap_callback callback (6 # 10) (99 # 100)) ;;
      col <- lift (get_column (outlier_var model) pred) ;;
      let inliers_ind := np_where_eq col 1 in
      let outliers_ind := np_where_eq col 0 in
      inl <- lift (take_rows inliers_ind data) ;;
      outl <- lift (take_rows outliers_ind data) ;;
      callback 1%Q "" ;;;
      ret (mkResults (Some inl) (Some outl) (Some pred))
  end.

(** *** The widget *)

Record SVMEditor : Type := mkSVMEditor { nu : Z; gamma : Q }.

Record CovarianceEditor : Type := mkCovarianceEditor {
  cov_cont : Z;
  empirical_covariance : bool;
  support_fraction : Q
}.

Record LocalOutlierFactorEditor : Type := mkLocalOutlierFactorEditor {
  n_neighbors : Z;
  lof_cont : Z;
  metric_index : Z
}.

Record IsolationForestEditor : Type := mkIsolationForestEditor {
  isf_cont : Z;
  replicable : bool
}.

Definition METRICS : list string :=
  ["euclidean"; "manhattan"; "cosine"; "jaccard"; "hamming"; "minkowski"].

Definition percent (z : Z) : Q := (inject_Z z / 100)%Q.

Definition SVMEditor_get_parameters (e : SVMEditor) : outcome (gmap string pyval) :=
  Return (<["nu" := PyFloat (percent (nu e))]> (<["gamma" := PyFloat (gamma e)]> ∅)).

Definition CovarianceEditor_get_parameters (e : CovarianceEditor)
  : outcome (gmap string pyval) :=
  let fraction := if empirical_covariance e then PyFloat (support_fraction e) else PyNone in
  Return (<["contamination" := PyFloat (percent (cov_cont e))]>
            (<["support_fraction" := fraction]> ∅)).

Definition LocalOutlierFactorEditor_get_parameters (e : LocalOutlierFactorEditor)
  : outcome (gmap string pyval) :=
  match py_index METRICS (metric_index e) with
  | Raise ex => Raise ex
  | Return m =>
      Return (<["n_neighbors" := PyInt (n_neighbors e)]>
                (<["contamination" := PyFloat (percent (lof_cont e))]>
                   (<["algorithm" := PyStr "brute"]>
                      (<["metric" := PyStr m]> ∅))))
  end.

Definition IsolationForestEditor_get_parameters (e : IsolationForestEditor)
  : outcome (gmap string pyval) :=
  Return (<["contamination" := PyFloat (percent (isf_cont e))]>
            (<["random_state" := if replicable e then PyInt 42 else PyNone]> ∅)).

(** [OneClassSVM, Covariance, LOF, IsolationForest = range(4)] *)
Definition OneClassSVM : Z := 0.
Definition Covariance : Z := 1.
Definition LOF : Z := 2.
Definition IsolationForest : Z := 3.

Definition METHODS : list string :=
  ["OneClassSVMLearner"; "EllipticEnvelopeLearner";
   "LocalOutlierFactorLearner"; "IsolationForestLearner"].

Definition MAX_FEATURES : nat := 1500.

(** The arguments of [self.start(run, self.data, learner)]: the learner is
    the class [learner_class] built with [kwargs]. *)
Record task : Type := mkTask {
  task_data : option Table;
  learner_class : string;
  kwargs : gmap string pyval
}.

(** [class Outputs] *)
Definition Outputs : list (string * pytype) :=
  [("inliers", TyTable); ("outliers", TyTable); ("data", TyTable)].

Record OWOutliers : Type := mkOWOutliers {
  data : option Table;
  outlier_method : Z;
  auto_commit : bool;
  svm_editor : SVMEditor;
  cov_editor : CovarianceEditor;
  lof_editor : LocalOutlierFactorEditor;
  isf_editor : IsolationForestEditor;
  current_editor : Z;
  n_inliers : option nat;
  n_outliers : option nat;
  commit_dirty : bool
}.

Definition set_field_data (d : option Table) (w : OWOutliers) : OWOutliers :=
  mkOWOutliers d (outlier_method w) (auto_commit w) (svm_editor w) (cov_editor w)
    (lof_editor w) (isf_editor w) (current_editor w) (n_inliers w) (n_outliers w)
    (commit_dirty w).

Definition set_field_outlier_method (m : Z) (w : OWOutliers) : OWOutliers :=
  mkOWOutliers (data w) m (auto_commit w) (svm_editor w) (cov_editor w)
    (lof_editor w) (isf_editor w) (current_editor w) (n_inliers w) (n_outliers w)
    (commit_dirty w).

Definition set_field_current_editor (c : Z) (w : OWOutliers) : OWOutliers :=
  mkOWOutliers (data w) (outlier_method w) (auto_commit w) (svm_editor w)
    (cov_editor w) (lof_editor w) (isf_editor w) c (n_inliers w) (n_outliers w)
    (commit_dirty w).

Definition set_field_counts (i o : option nat) (w : OWOutliers) : OWOutliers :=
  mkOWOutliers (data w) (outlier_method w) (auto_commit w) (svm_editor w)
    (cov_editor w) (lof_editor w) (isf_editor w) (current_editor w) i o
    (commit_dirty w).

Definition set_field_commit_dirty (b : bool) (w : OWOutliers) : OWOutliers :=
  mkOWOutliers (data w) (outlier_method w) (auto_commit w) (svm_editor w)
    (cov_editor w) (lof_editor w) (isf_editor w) (current_editor w) (n_inliers w)
    (n_outliers w) b.

(** [self.current_editor = self.editors[self.outlier_method]] *)
Definition set_current_editor (w : OWOutliers) : outcome OWOutliers :=
  match py_index [0; 1; 2; 3]%Z (outlier_method w) with
  | Return e => Return (set_field_current_editor e w)
  | Raise ex => Raise ex
  end.

Definition get_parameters (w : OWOutliers) : outcome (gmap string pyval) :=
  if (current_editor w =? 0)%Z then SVMEditor_get_parameters (svm_editor w)
  else if (current_editor w =? 1)%Z then CovarianceEditor_get_parameters (cov_editor w)
  else if (current_editor w =? 2)%Z
       then LocalOutlierFactorEditor_get_parameters (lof_editor w)
  else IsolationForestEditor_get_parameters (isf_editor w).

Definition enable_controls (w : OWOutliers) : outcome (OWOutliers * list (effect task)) :=
  match data w with
  | Some d =>
      if truthy (data w) && (MAX_FEATURES <? length (attributes (domain d)))
      then match set_current_editor (set_field_outlier_method LOF w) with
           | Return w' => Return (w', [Message "disabled_cov"])
           | Raise ex => Raise ex
           end
      else Return (w, [])
  | None => Return (w, [])
  end.

(** The body of the decorated method [commit]. *)
Definition commit (w : OWOutliers) : outcome (OWOutliers * list (effect task)) :=
  let w := set_field_counts None None w in
  match py_index METHODS (outlier_method w) with
  | Raise ex => Raise ex
  | Return cls =>
      match get_parameters w with
      | Raise ex => Raise ex
      | Return kw =>
          Return (w, [ClearMessage "singular_cov"; ClearMessage "memory_error";
                      Start (mkTask (data w) cls kw)])
      end
  end.

Definition commit_now := gui.now set_field_commit_dirty commit.
Definition commit_deferred := gui.deferred auto_commit set_field_commit_dirty commit.
Definition apply_clicked := gui.apply_clicked set_field_commit_dirty commit.

(** [set_data], the handler of the input [Inputs.data]. *)
Definition set_data
  : option Table -> OWOutliers -> outcome (OWOutliers * list (effect task)) :=
  check_sql_input (fun d w =>
    let w := set_field_data d w in
    match enable_controls w with
    | Raise ex => Raise ex
    | Return (w, msgs) =>
        match commit_now w with
        | Raise ex => Raise ex
        | Return (w, es) => Return (w, Cancel :: ClearMessages :: msgs ++ es)
        end
    end).

(** The slot every editor's [param_changed] signal is connected to. *)
Definition param_changed (w : OWOutliers) : outcome (OWOutliers * list (effect task)) :=
  commit_deferred w.

(** [__method_changed], the callback of the method combo box. *)
Definition __method_changed (w : OWOutliers)
  : outcome (OWOutliers * list (effect task)) :=
  match set_current_editor w with
  | Raise ex => Raise ex
  | Return w => commit_deferred w
  end.

Definition on_done (result : Results) (w : OWOutliers)
  : OWOutliers * list (effect task) :=
  let n_in := if truthy (inliers result) then len <$> inliers result else None in
  let n_out := if truthy (outliers result) then len <$> outliers result else None in
  (set_field_counts n_in n_out w,
   [Send "inliers" (of_option_table (inliers result));
    Send "outliers" (of_option_table (outliers result));
    Send "data" (of_option_table (annotated_data result))]).

Definition on_exception (ex : exn) : outcome (list (effect task)) :=
  match ex with
  | ValueError _ => Return [Message "singular_cov"]
  | MemoryError => Return [Message "memory_error"]
  | _ => Raise ex
  end.

(** [migrate_settings(settings, version)]; the dictionary is updated in
    place, and its old keys stay. *)
Definition migrate_settings (settings : gmap string pyval) (version : option Z)
  : gmap string pyval :=
  if older_than version 2 then
    let svm : gmap string pyval :=
      <["nu" := get_default "nu" (PyInt 50) settings]>
        (<["gamma" := get_default "gamma" (PyFloat (1 # 100)) settings]> ∅) in
    let settings := <["svm_editor" := PyDict svm]> settings in
    let cov : gmap string pyval :=
      <["cont" := get_default "cont" (PyInt 10) settings]>
        (<["empirical_covariance" :=
             get_default "empirical_covariance" (PyBool false) settings]>
           (<["support_fraction" :=
                get_default "support_fraction" (PyInt 1) settings]> ∅)) in
    <["cov_editor" := PyDict cov]> settings
  else settings.

(** *** The report *)

Definition METRICS_NAMES : list string :=
  ["欧几里得"; "曼哈顿"; "余弦"; "杰卡德"; "汉明"; "明科夫斯基"].

(** [f"{z/100:.0%}"] for an integer setting [z] (of a size a float holds
    exactly, as every slider value is). *)
Definition percent_str (z : Z) : string := pretty z +:+ "%".

(** [bool_str] of orangewidget.report *)
Definition bool_str (b : bool) : string := if b then "Yes" else "No".

Definition SVMEditor_get_report_parameters (e : SVMEditor)
  : outcome (list (string * pyval)) :=
  Return [("检测方法", PyStr "具有非线性内核(RBF)的单类SVM");
          ("正则化(nu)", PyStr (percent_str (nu e)));
          ("内核系数", PyFloat (gamma e))].

Definition CovarianceEditor_get_report_parameters (e : CovarianceEditor)
  : outcome (list (string * pyval)) :=
  let fraction := if empirical_covariance e then PyFloat (support_fraction e) else PyNone in
  Return [("检测方法", PyStr "协方差估计");
          ("污染", PyStr (percent_str (cov_cont e)));
          ("支持分数", fraction)].

Definition LocalOutlierFactorEditor_get_report_parameters (e : LocalOutlierFactorEditor)
  : outcome (list (string * pyval)) :=
  match py_index METRICS_NAMES (metric_index e) with
  | Raise ex => Raise ex
  | Return m =>
      Return [("检测方法", PyStr "局部异常因子");
              ("污染", PyStr (percent_str (lof_cont e)));
              ("邻居数量", PyInt (n_neighbors e));
              ("度量", PyStr m)]
  end.

Definition IsolationForestEditor_get_report_parameters (e : IsolationForestEditor)
  : outcome (list (string * pyval)) :=
  Return [("检测方法", PyStr "隔离森林");
          ("污染", PyStr (percent_str (isf_cont e)));
          ("可复制训练", PyStr (bool_str (replicable e)))].

(** [self.current_editor.get_report_parameters()] *)
Definition get_report_parameters (w : OWOutliers) : outcome (list (string * pyval)) :=
  if (current_editor w =? 0)%Z then SVMEditor_get_report_parameters (svm_editor w)
  else if (current_editor w =? 1)%Z
       then CovarianceEditor_get_report_parameters (cov_editor w)
  else if (current_editor w =? 2)%Z
       then LocalOutlierFactorEditor_get_report_parameters (lof_editor w)
  else IsolationForestEditor_get_report_parameters (isf_editor w).

(** [send_report]: the sections handed to [report_items], in order, each
    with its name and items. *)
Definition send_report (w : OWOutliers)
  : outcome (list (string * list (string * pyval))) :=
  let detection (before : list (string * list (string * pyval))) :=
    match get_report_parameters w with
    | Raise ex => Raise ex
    | Return ps => Return (before ++ [("检测", ps)])
    end in
  match data w with
  | Some d =>
      match n_outliers w, n_inliers w with
      | Some n_out, Some n_in =>
          detection [("数据", [("输入实例", PyInt (Z.of_nat (len d)));
                               ("内层", PyInt (Z.of_nat n_in));
                               ("异常值", PyInt (Z.of_nat n_out))])]
      | _, _ => Return []
      end
  | None => detection []
  end.

End owoutliers.

(* ===================================================================== *)
(** ** Orange/widgets/unsupervised/owdistances.py *)
(* ===================================================================== *)

(** The distance classes of the package [Orange.distance] that the widget
    names. *)
Module distance.
Inductive t : Type :=
| Euclidean
| Manhattan
| Cosine
| Mahalanobis
| Hamming
| PearsonR
| PearsonRAbsolute
| SpearmanR
| SpearmanRAbsolute
| Jaccard.

#[global] Instance t_eq_dec : EqDecision t.
Proof. solve_decision. Defined.
End distance.

Module owdistances.

(** [Euclidean, EuclideanNormalized, ..., Jaccard = range(12)] *)
Definition Euclidean : Z := 0.
Definition EuclideanNormalized : Z := 1.
Definition Manhattan : Z := 2.
Definition ManhattanNormalized : Z := 3.
Definition Cosine : Z := 4.
Definition Mahalanobis : Z := 5.
Definition Hamming : Z := 6.
Definition Pearson : Z := 7.
Definition PearsonAbsolute : Z := 8.
Definition Spearman : Z := 9.
Definition SpearmanAbsolute : Z := 10.
Definition Jaccard : Z := 11.

Record MetricDef : Type := mkMetricDef {
  id : Z;
  name : string;
  tooltip : string;
  metric : distance.t;
  normalize : bool
}.

(** The dictionary [MetricDefs], in insertion order. *)
Definition MetricDefs : list (Z * MetricDef) :=
  map (fun m => (id m, m))
    [ mkMetricDef EuclideanNormalized "欧氏距离 (归一化)"
        "归一化值差的平方和的平方根" distance.Euclidean true;
      mkMetricDef Euclidean "欧氏距离"
        "值差的平方和的平方根" distance.Euclidean false;
      mkMetricDef ManhattanNormalized "曼哈顿距离 (归一化) "
        "归一化值绝对差之和" distance.Manhattan true;
      mkMetricDef Manhattan "曼哈顿距离"
        "值绝对差之和" distance.Manhattan false;
      mkMetricDef Mahalanobis "马哈拉诺比斯距离"
        "马哈拉诺比斯距离" distance.Mahalanobis false;
      mkMetricDef Hamming "汉明距离" "汉明距离" distance.Hamming false;
      mkMetricDef Cosine "余弦" "余弦距离" distance.Cosine false;
      mkMetricDef Pearson "皮尔逊相关系数"
        "皮尔逊相关系数;距离 = 1 - ρ/2" distance.PearsonR false;
      mkMetricDef PearsonAbsolute "绝对皮尔逊相关系数"
        "皮尔逊相关系数的绝对值;距离 = 1 - |ρ|" distance.PearsonRAbsolute false;
      mkMetricDef Spearman "斯皮尔曼相关系数"
        "皮尔逊相关系数;距离 = 1 - ρ/2" distance.PearsonR false;
      mkMetricDef SpearmanAbsolute "绝对斯皮尔曼相关系数"
        "皮尔逊相关系数的绝对值;距离 = 1 - |ρ|" distance.SpearmanRAbsolute false;
      mkMetricDef Jaccard "杰卡德距离" "杰卡德距离" distance.Jaccard false ].

(** [MetricDefs[metric_id]] *)
Fixpoint assoc {A} (k : Z) (l : list (Z * A)) : option A :=
  match l with
  | [] => None
  | (k', v) :: l' => if (k =? k')%Z then Some v else assoc k l'
  end.

(** What the package [Orange.distance] (not under src/) provides for each
    distance class: its class attributes, the progress it reports while
    computing, and the value it returns. *)
Record DistanceLib : Type := mkDistanceLib {
  supports_sparse : distance.t -> bool;
  supports_discrete : distance.t -> bool;
  supports_missing : distance.t -> bool;
  supports_normalization : distance.t -> bool;
  fallback : distance.t -> bool;
  metric_script : distance.t -> Table -> list action;
  metric_call : distance.t -> Table -> gmap string pyval -> outcome pyval;
  remove_discrete_features : Table -> Table;
  remove_nonbinary_features : Table -> Table;
  impute : Table -> Table
}.

(** What the widget asks of a table beyond its rows. *)
Record TableLib : Type := mkTableLib {
  issparse : Table -> bool;
  has_discrete_attributes : Table -> bool;
  has_continuous_attributes : Table -> bool;
  anynan : Table -> bool;
  nbinary : Table -> nat
}.

Module DistanceRunner.

Definition callback (i : Q) : M unit unit :=
  set_progress_value i ;;;
  b <- is_interruption_requested ;;
  if b then raise InterruptException else ret tt.

Definition run (lib : DistanceLib) (data : option Table) (metric : distance.t)
    (normalized_dist : bool) (axis : Z) : M unit pyval :=
  match data with
  | None => ret PyNone
  | Some data =>
      set_status "计算中..." ;;;
      let kwargs : gmap string pyval :=
        <["axis" := PyInt (1 - axis)]> (<["impute" := PyBool true]> ∅) in
      let kwargs :=
        if supports_normalization lib metric && normalized_dist
        then <["normalize" := PyBool true]> kwargs
        else kwargs in
      run_script (fun i _ => callback i) (metric_script lib metric data) ;;;
      lift (metric_call lib metric data kwargs)
  end.

End DistanceRunner.

(** The arguments of [self.start(DistanceRunner.run, data, metric,
    metric_def.normalize, self.axis)]. *)
Record task : Type := mkTask {
  task_data : option Table;
  task_metric : distance.t;
  task_normalize : bool;
  task_axis : Z
}.

(** [class Outputs] *)
Definition Outputs : list (string * pytype) := [("distances", TyDistMatrix)].

Record OWDistances : Type := mkOWDistances {
  data : option Table;
  axis : Z;
  metric_id : Z;
  autocommit : bool;
  commit_dirty : bool
}.

Section compute_distances.
Context (lib : DistanceLib) (tab : TableLib).
Context (self : OWDistances) (metric_def : MetricDef).

Let the_metric := metric metric_def.

(** Each check gives the messages it shows and the calls it makes into
    the numerical libraries ([bn.anynan] and the preprocessors of
    [distance]), in order, and, unless it fails, the data to go on
    with. *)
Definition _check_sparse (data : Table) : list (effect task) * option Table :=
  if issparse tab data && negb (supports_sparse lib the_metric)
  then ([Message "dense_metric_sparse_data"], None)
  else ([], Some data).

Definition _fix_discrete (data : Table) : list (effect task) * option Table :=
  if has_discrete_attributes tab data
     && negb (bool_decide (the_metric = distance.Jaccard))
     && (issparse tab data && fallback lib the_metric
         || negb (supports_discrete lib the_metric)
         || (axis self =? 1)%Z)
  then
    if negb (has_continuous_attributes tab data)
    then ([Message "no_continuous_features"], None)
    else ([Message "ignoring_discrete"; Call "distance.remove_discrete_features"],
          Some (remove_discrete_features lib data))
  else ([], Some data).

Definition _fix_nonbinary (data : Table) : list (effect task) * option Table :=
  if bool_decide (the_metric = distance.Jaccard) && negb (issparse tab data)
  then
    if nbinary tab data =? 0
    then ([Message "no_binary_features"], None)
    else if nbinary tab data <? length (attributes (domain data))
    then ([Message "ignoring_nonbinary"; Call "distance.remove_nonbinary_features"],
          Some (remove_nonbinary_features lib data))
    else ([], Some data)
  else ([], Some data).

Definition _fix_missing (data : Table) : list (effect task) * option Table :=
  if supports_missing lib the_metric then ([], Some data)
  else if anynan tab data
  then ([Call "bn.anynan"; Message "imputing_data"; Call "distance.impute"],
        Some (impute lib data))
  else ([Call "bn.anynan"], Some data).

Definition _check_tractability (data : Table) : list (effect task) * option Table :=
  if bool_decide (the_metric = distance.Mahalanobis)
  then
    if (axis self =? 0)%Z
    then if 1000 <? len data
         then ([Message "data_too_large_for_mahalanobis"], None)
         else ([], Some data)
    else if 1000 <? length (attributes (domain data))
         then ([Message "data_too_large_for_mahalanobis"], None)
         else ([], Some data)
  else ([], Some data).

(** [for check in (...): if not check(): data = None; break] *)
Fixpoint run_checks (checks : list (Table -> list (effect task) * option Table))
    (data : Table) : list (effect task) * option Table :=
  match checks with
  | [] => ([], Some data)
  | check :: rest =>
      match check data with
      | (msgs, None) => (msgs, None)
      | (msgs, Some data') =>
          let '(msgs', r) := run_checks rest data' in (msgs ++ msgs', r)
      end
  end.

End compute_distances.

Definition compute_distances (lib : DistanceLib) (tab : TableLib)
    (self : OWDistances) (data : option Table) : outcome (list (effect task)) :=
  match assoc (metric_id self) MetricDefs with
  | None => Raise KeyError
  | Some metric_def =>
      let '(msgs, data') :=
        match data with
        | None => ([], None)
        | Some d =>
            run_checks
              [ _check_sparse lib tab metric_def;
                _check_tractability self metric_def;
                _fix_discrete lib tab self metric_def;
                _fix_missing lib tab metric_def;
                _fix_nonbinary lib tab metric_def ] d
        end in
      Return (ClearMessages :: msgs ++
              [Start (mkTask data' (metric metric_def) (normalize metric_def) (axis self))])
  end.

(** The body of the decorated method [commit]. *)
Definition commit (lib : DistanceLib) (tab : TableLib) (self : OWDistances)
  : outcome (OWDistances * list (effect task)) :=
  match compute_distances lib tab self (data self) with
  | Return es => Return (self, es)
  | Raise ex => Raise ex
  end.

Definition set_field_commit_dirty (b : bool) (w : OWDistances) : OWDistances :=
  mkOWDistances (data w) (axis w) (metric_id w) (autocommit w) b.

Definition commit_now lib tab := gui.now set_field_commit_dirty (commit lib tab).
Definition commit_deferred lib tab :=
  gui.deferred autocommit set_field_commit_dirty (commit lib tab).

Definition refresh_radios (lib : DistanceLib) (tab : TableLib) (w : OWDistances)
  : list (effect task) :=
  let sparse := match data w with Some d => issparse tab d | None => false end in
  let unsupported_sparse :=
    filter (fun m => sparse && negb (supports_sparse lib (metric m.2)) = true) MetricDefs in
  if length unsupported_sparse =? 0
  then [ClearMessage "unsupported_sparse"]
  else [Message "unsupported_sparse"].

Definition set_data (lib : DistanceLib) (tab : TableLib)
  : option Table -> OWDistances -> outcome (OWDistances * list (effect task)) :=
  check_sql_input (fun d w =>
    let w := mkOWDistances d (axis w) (metric_id w) (autocommit w) (commit_dirty w) in
    match commit_now lib tab w with
    | Raise ex => Raise ex
    | Return (w, es) => Return (w, Cancel :: refresh_radios lib tab w ++ es)
    end).

Definition _invalidate lib tab (w : OWDistances) := commit_deferred lib tab w.

Definition _metric_changed (lib : DistanceLib) (tab : TableLib) (id_ : Z)
    (w : OWDistances) : outcome (OWDistances * list (effect task)) :=
  _invalidate lib tab
    (mkOWDistances (data w) (axis w) id_ (autocommit w) (commit_dirty w)).

Definition on_done (result : pyval) : outcome (list (effect task)) :=
  if isinstance result TyDistMatrix || is_none result
  then Return [Send "distances" result]
  else Raise AssertionError.

Definition on_exception (ex : exn) : outcome (list (effect task)) :=
  match ex with
  | ValueError _ => Return [Message "distances_value_error"]
  | MemoryError => Return [Message "distances_memory_error"]
  | InterruptException => Return []
  | _ => Raise ex
  end.

(** [migrate_settings(settings, version)]. The dictionary is updated in
    place, so the result gives the dictionary as the call leaves it
    together with what the call does: return or raise. The metric index
    is taken to be stored as an integer; a comparison on anything else
    gives TypeError. *)
Definition migrate_normalized_dist (settings : gmap string pyval) (version : option Z)
  : gmap string pyval :=
  if match version with
     | None => true
     | Some v => (v <? 2)%Z && negb (bool_decide (is_Some (settings !! "normalized_dist")))
     end
  then <["normalized_dist" := PyBool false]> settings
  else settings.

Definition migrate_mahalanobis (settings : gmap string pyval) (version : option Z)
  : gmap string pyval * outcome unit :=
  if older_than version 3 then
    match settings !! "metric_idx" with
    | None => (settings, Raise KeyError)
    | Some metric_idx =>
        match as_int metric_idx with
        | None => (settings, Raise TypeError)
        | Some z =>
            if (z =? 2)%Z then (<["metric_idx" := PyInt 9]> settings, Return tt)
            else if (2 <? z)%Z && (z <=? 9)%Z
                 then (<["metric_idx" := PyInt (z - 1)]> settings, Return tt)
                 else (settings, Return tt)
        end
    end
  else (settings, Return tt).

(** The list the metric index is looked up in. *)
Definition metric_id_of_idx : list Z :=
  [Euclidean; Manhattan; Cosine; Jaccard;
   Spearman; SpearmanAbsolute; Pearson; PearsonAbsolute;
   Hamming; Mahalanobis; Euclidean].

(** [{Euclidean: EuclideanNormalized, Manhattan: ManhattanNormalized}
     .get(metric_id, metric_id)] *)
Definition normalized_variant (metric_id : Z) : Z :=
  if (metric_id =? Euclidean)%Z then EuclideanNormalized
  else if (metric_id =? Manhattan)%Z then ManhattanNormalized
  else metric_id.

Definition migrate_metric_id (settings : gmap string pyval) (version : option Z)
  : gmap string pyval * outcome unit :=
  match version with
  | None => (settings, Raise TypeError)
  | Some v =>
      if (v <? 4)%Z then
        match settings !! "metric_idx" with
        | None => (settings, Raise KeyError)
        | Some metric_idx =>
            let settings := delete "metric_idx" settings in
            match as_int metric_idx with
            | None => (settings, Raise TypeError)
            | Some z =>
                match py_index metric_id_of_idx z with
                | Raise ex => (settings, Raise ex)
                | Return metric_id =>
                    let normalized_dist :=
                      get_default "normalized_dist" (PyBool false) settings in
                    let settings := delete "normalized_dist" settings in
                    let metric_id :=
                      if py_truth normalized_dist
                      then normalized_variant metric_id
                      else metric_id in
                    (<["metric_id" := PyInt metric_id]> settings, Return tt)
                end
            end
        end
      else (settings, Return tt)
  end.

Definition migrate_settings (settings : gmap string pyval) (version : option Z)
  : gmap string pyval * outcome unit :=
  let settings := migrate_normalized_dist settings version in
  match migrate_mahalanobis settings version with
  | (settings, Raise ex) => (settings, Raise ex)
  | (settings, Return _) => migrate_metric_id settings version
  end.

(** [settings_version = 4] *)
Definition settings_version : Z := 4.

End owdistances.

(* ===================================================================== *)
(** ** Orange/widgets/visualize/owfreeviz.py *)
(* ===================================================================== *)

Module owfreeviz.

(** The anchors: one point of the plane per variable. *)
Definition Anchors : Type := list (Q * Q).

(** Which Python object a projection is: one the projector handed out
    ([Ext n], the projector's own numbering, which may repeat when it
    reuses an object) or the copy made in iteration [n] of
    [run_freeviz]. *)
Inductive obj_id : Type :=
| Ext (n : nat)
| Copy (n : nat).

#[global] Instance obj_id_eq_dec : EqDecision obj_id.
Proof. solve_decision. Defined.

Record FreeVizModel : Type := mkFreeVizModel {
  model_id : obj_id;
  model_anchors : Anchors
}.

(** The projector object; [components_T] is [components_.T]. *)
Record FreeViz : Type := mkFreeViz {
  components_T : Anchors;
  initial : Anchors;
  gravity : option Q
}.

Definition set_initial (a : Anchors) (p : FreeViz) : FreeViz :=
  mkFreeViz (components_T p) a (gravity p).

Record Result : Type := mkResult {
  projector : FreeViz;
  projection : option FreeVizModel
}.

Definition MAX_ITERATIONS : Z := 1000.

(** [rtol=1e-5, atol=1e-4] *)
Definition rtol : Q := 1 # 100000.
Definition atol : Q := 1 # 10000.

(** [np.allclose(a, b, rtol, atol)]: every entry has
    [|a - b| <= atol + rtol * |b|]; the two arguments have one shape in
    the code (both are the transposed components of one projector).
    The comparison is over exact rationals: the rounding of the code's
    doubles and entries that are not numbers (NaN, which is close to
    nothing) are outside the model. *)
Definition isclose (rtol atol a b : Q) : bool :=
  Qle_bool (Qabs (a - b)) (atol + rtol * Qabs b).

Definition np_allclose (a b : Anchors) (rtol atol : Q) : bool :=
  (length a =? length b)
  && forallb (fun ab => isclose rtol atol ab.1.1 ab.2.1 && isclose rtol atol ab.1.2 ab.2.2)
             (zip a b).

(** [model.copy()] made in iteration [k]. *)
Definition copy (k : nat) (m : FreeVizModel) : FreeVizModel :=
  mkFreeVizModel (Copy k) (model_anchors m).

(** [100 * step / steps] *)
Definition progress_of (step : nat) (steps : Z) : Q :=
  (inject_Z (100 * Z.of_nat step) / inject_Z steps)%Q.

Section run_freeviz.

(** [projector(data)] of Orange.projection.FreeViz, which is not under
    src/: it changes the projector and returns a model, or raises. *)
Context (call : Table -> FreeViz -> outcome (FreeViz * FreeVizModel)).

(** The body of [while True], run at most [fuel] times; [None] when the
    loop is still going after that. *)
Fixpoint loop (fuel : nat) (data : Table) (res : Result) (initial : Anchors)
    (step : nat) (steps : Z) : M Result (option Result) :=
  match fuel with
  | 0 => ret None
  | S fuel' =>
      Task.step "projector" ;;;
      pm <- lift (call data (projector res)) ;;
      let res := mkResult pm.1 (Some (copy step pm.2)) in
      let anchors := components_T (projector res) in
      let res := mkResult (set_initial anchors (projector res)) (projection res) in
      set_partial_result res ;;;
      if np_allclose initial anchors rtol atol then ret (Some res) else
      let initial := anchors in
      let step := S step in
      set_progress_value (progress_of step steps) ;;;
      b <- is_interruption_requested ;;
      if b then ret (Some res) else loop fuel' data res initial step steps
  end.

Definition run_freeviz (fuel : nat) (data : Table) (projector : FreeViz)
  : M Result (option Result) :=
  let res := mkResult projector None in
  let initial := components_T projector in
  set_status "计算中..." ;;;
  loop fuel data res initial 0 MAX_ITERATIONS.

End run_freeviz.

(** *** The widget *)

(** The arguments of [self.start(run_freeviz, self.effective_data,
    self.projector)]. *)
Record task : Type := mkTask {
  task_data : Table;
  task_projector : option FreeViz
}.

Record OWFreeViz : Type := mkOWFreeViz {
  data : option Table;
  widget_projector : option FreeViz;
  widget_projection : option FreeVizModel;
  optimized : bool
}.

(** [_run]; [effective_data] is the data restricted to the effective
    variables. *)
Definition _run (effective_data : Table -> Table) (w : OWFreeViz) : list (effect task) :=
  match data w with
  | None => []
  | Some d => [Start (mkTask (effective_data d) (widget_projector w))]
  end.

Definition on_partial_result (result : Result) (w : OWFreeViz) : outcome OWFreeViz :=
  match projection result with
  | None => Raise AssertionError
  | Some m =>
      Return (mkOWFreeViz (data w) (Some (projector result)) (Some m) (optimized w))
  end.

(** [migrate_settings(_settings, version)] *)
Definition migrate_settings (settings : gmap string pyval) (version : option Z)
  : gmap string pyval * outcome unit :=
  match version with
  | None => (settings, Raise TypeError)
  | Some v =>
      if (v <? 3)%Z then
        match settings !! "radius" with
        | None => (settings, Return tt)
        | Some radius =>
            match settings !! "graph" with
            | Some (PyDict graph) =>
                (<["graph" := PyDict (<["hide_radius" := radius]> graph)]> settings,
                 Return tt)
            | Some _ => (settings, Raise TypeError)
            | None => (settings, Raise KeyError)
            end
        end
      else (settings, Return tt)
  end.

End owfreeviz.

(* ===================================================================== *)
(** ** Orange/widgets/unsupervised/owmanifoldlearning.py *)
(* ===================================================================== *)

Module owmanifoldlearning.

Module TSNEParametersEditor.

Definition metric_values : list (string * string) :=
  [("euclidean", "欧氏"); ("manhattan", "曼哈顿");
   ("chebyshev", "切比雄夫"); ("jaccard", "杰卡德")].

Definition initialization_values : list (string * string) :=
  [("pca", "PCA"); ("random", "随机")].

(** [__combo_parameter_update] and [__radio_parameter_update]:
    [values[index]] of the stored index, as the constructor runs them. *)
Definition parameter_update (values : list (string * string)) (index : pyval)
  : outcome (string * string) :=
  match as_int index with
  | Some i => py_index values i
  | None => Raise TypeError
  end.

(** The two indexed parameters the constructor reads: metric, then
    initialization. *)
Definition init (metric_index initialization_index : pyval)
  : outcome ((string * string) * (string * string)) :=
  match parameter_update metric_values metric_index with
  | Raise ex => Raise ex
  | Return m =>
      match parameter_update initialization_values initialization_index with
      | Raise ex => Raise ex
      | Return i => Return (m, i)
      end
  end.

End TSNEParametersEditor.

(** [min(idx, n)] *)
Definition py_min (idx : pyval) (n : Z) : outcome pyval :=
  match as_int idx with
  | Some z => Return (if (n <? z)%Z then PyInt n else idx)
  | None => Raise TypeError
  end.

Definition migrate_init_index (tsne_settings : gmap string pyval)
  : gmap string pyval * outcome unit :=
  match tsne_settings !! "init_index" with
  | None => (tsne_settings, Return tt)
  | Some idx =>
      let tsne_settings := delete "init_index" tsne_settings in
      match py_min idx (Z.of_nat (length TSNEParametersEditor.initialization_values)) with
      | Raise ex => (tsne_settings, Raise ex)
      | Return idx => (<["initialization_index" := idx]> tsne_settings, Return tt)
      end
  end.

Definition migrate_metric_index (tsne_settings : gmap string pyval)
  : gmap string pyval * outcome unit :=
  match tsne_settings !! "metric_index" with
  | None => (tsne_settings, Return tt)
  | Some idx =>
      match py_min idx (Z.of_nat (length TSNEParametersEditor.metric_values)) with
      | Raise ex => (tsne_settings, Raise ex)
      | Return idx => (<["metric_index" := idx]> tsne_settings, Return tt)
      end
  end.

(** [migrate_settings(settings, version)]; [tsne_settings] is the
    dictionary stored under 'tsne_editor', updated in place, or a new
    empty one that is dropped. *)
Definition migrate_settings (settings : gmap string pyval) (version : option Z)
  : gmap string pyval * outcome unit :=
  match version with
  | None => (settings, Raise TypeError)
  | Some v =>
      if (v <? 2)%Z then
        match settings !! "tsne_editor" with
        | None => (settings, Return tt)
        | Some (PyDict tsne_settings) =>
            match migrate_init_index tsne_settings with
            | (t, Raise ex) => (<["tsne_editor" := PyDict t]> settings, Raise ex)
            | (t, Return _) =>
                let '(t, r) := migrate_metric_index t in
                (<["tsne_editor" := PyDict t]> settings, r)
            end
        | Some _ => (settings, Raise TypeError)
        end
      else (settings, Return tt)
  end.

(** [settings_version = 2] *)
Definition settings_version : Z := 2.

(** *** The widget *)

Definition MANIFOLD_METHODS : list string :=
  ["TSNE"; "MDS"; "Isomap"; "LocallyLinearEmbedding"; "SpectralEmbedding"].

(** What [projector(data)] returns. *)
Inductive model : Type :=
| TSNEModel (embedding : Table)
| OtherModel (embedding_ : list (list Q)).

(** The projection package and the table helpers, none under src/:
    [project method parameters data] is [method( **parameters)(data)],
    with the warnings it issues on the way. *)
Record ManifoldLib : Type := mkManifoldLib {
  is_sparse : Table -> bool;
  get_unique_names : list string -> list string -> list string;
  project : string -> gmap string pyval -> Table -> list string * outcome model
}.

(** There is no task type: the widget starts none. *)
Definition task : Type := Empty_set.

(** [class Outputs] *)
Definition Outputs : list (string * pytype) := [("transformed_data", TyTable)].

Record OWManifoldLearning : Type := mkOWManifoldLearning {
  data : option Table;
  manifold_method_index : Z;
  n_components : Z;
  auto_apply : bool;
  params_widget_parameters : gmap string pyval;
  commit_dirty : bool
}.

Definition set_field_commit_dirty (b : bool) (w : OWManifoldLearning)
  : OWManifoldLearning :=
  mkOWManifoldLearning (data w) (manifold_method_index w) (n_components w)
    (auto_apply w) (params_widget_parameters w) b.

(** [parameters = dict(n_components=...); parameters.update(...)] *)
Definition get_method_parameters (w : OWManifoldLearning) : gmap string pyval :=
  params_widget_parameters w ∪ {["n_components" := PyInt (n_components w)]}.

(** [Table(domain, X, data.Y, data.metas)] *)
Definition embedded_table (names : list string) (X : list (list Q)) (data : Table)
  : Table :=
  mkTable (mkDomain names (class_vars (domain data)) (metas (domain data)))
          (zip_with (fun x r => x ++ drop (length (attributes (domain data))) r)
                    X (rows data)).

Definition hessian_message : string :=
  "for method='hessian', n_neighbors must be greater than [n_components * (n_components + 3) / 2]".

Definition disconnected_prefix : string := "图不完全连通".

Definition warning_effects (warnings : list string) : list (effect task) :=
  flat_map (fun msg => if String.prefix disconnected_prefix msg
                       then [Message "graph_not_connected"] else []) warnings.

(** The body of the decorated method [commit]. *)
Definition commit (lib : ManifoldLib) (w : OWManifoldLearning)
  : outcome (OWManifoldLearning * list (effect task)) :=
  match py_index MANIFOLD_METHODS (manifold_method_index w) with
  | Raise ex => Raise ex
  | Return method =>
      match data w with
      | Some data =>
          if negb (truthy (Some data)) then
            Return (w, [ClearMessages; Send "transformed_data" PyNone])
          else if is_sparse lib data then
            Return (w, [ClearMessages; Message "sparse_not_supported";
                        Send "transformed_data" PyNone])
          else
            let names := class_vars (domain data) ++ metas (domain data) in
            let proposed :=
              map (fun i => "C" +:+ pretty i) (seq 0 (Z.to_nat (n_components w))) in
            let unique := get_unique_names lib names proposed in
            let '(warnings, r) := project lib method (get_method_parameters w) data in
            let before := ClearMessages :: Call method :: warning_effects warnings in
            match r with
            | Return (TSNEModel embedding) =>
                Return (w, before ++ [Send "transformed_data" (PyTable embedding)])
            | Return (OtherModel X) =>
                Return (w, before ++
                  [Send "transformed_data" (PyTable (embedded_table unique X data))])
            | Raise (ValueError msg) =>
                Return (w, before ++
                  [Message (if String.eqb msg hessian_message
                            then "n_neighbors_too_small" else "manifold_error");
                   Send "transformed_data" PyNone])
            | Raise MemoryError =>
                Return (w, before ++ [Message "out_of_memory";
                                      Send "transformed_data" PyNone])
            | Raise LinAlgError =>
                Return (w, before ++ [Message "manifold_error";
                                      Send "transformed_data" PyNone])
            | Raise ex => Raise ex
            end
      | None => Return (w, [ClearMessages; Send "transformed_data" PyNone])
      end
  end.

Definition commit_now lib := gui.now set_field_commit_dirty (commit lib).
Definition commit_deferred lib :=
  gui.deferred auto_apply set_field_commit_dirty (commit lib).

Definition set_data (lib : ManifoldLib) (d : option Table) (w : OWManifoldLearning)
  : outcome (OWManifoldLearning * list (effect task)) :=
  commit_now lib
    (mkOWManifoldLearning d (manifold_method_index w) (n_components w)
       (auto_apply w) (params_widget_parameters w) (commit_dirty w)).

Definition settings_changed (lib : ManifoldLib) (w : OWManifoldLearning)
  : outcome (OWManifoldLearning * list (effect task)) :=
  commit_deferred lib w.

End owmanifoldlearning.

(* ===================================================================== *)
(** ** numpy arrays used by the samplers *)
(* ===================================================================== *)

(** [np.ones(n)] over any element type, given its one. *)
Definition np_full {A} (n : nat) (one : A) : list A := replicate n one.

(** [a[ind] = v] for an array of positions; a position outside the array
    raises IndexError. *)
Fixpoint np_assign {A} (a : list A) (ind : list nat) (v : A) : outcome (list A) :=
  match ind with
  | [] => Return a
  | i :: ind' =>
      if i <? length a then np_assign (<[i := v]> a) ind' v else Raise IndexError
  end.

(** [np.nonzero(a)[0]] and [np.flatnonzero(a)]: the positions that hold
    something else than zero, ascending. *)
Fixpoint nonzero_from {A} (k : nat) (is_zero : A -> bool) (a : list A) : list nat :=
  match a with
  | [] => []
  | x :: a' =>
      if is_zero x then nonzero_from (S k) is_zero a'
      else k :: nonzero_from (S k) is_zero a'
  end.

Definition np_nonzero {A} (is_zero : A -> bool) (a : list A) : list nat :=
  nonzero_from 0 is_zero a.

(* ===================================================================== *)
(** ** Orange/widgets/data/owdatasampler.py *)
(* ===================================================================== *)

Module owdatasampler.

(** [FixedProportion, FixedSize, CrossValidation, Bootstrap = range(4)] *)
Definition FixedProportion : Z := 0.
Definition FixedSize : Z := 1.
Definition CrossValidation : Z := 2.
Definition Bootstrap : Z := 3.

(** [SqlTime, SqlProportion = range(2)] *)
Definition SqlTime : Z := 0.
Definition SqlProportion : Z := 1.

Definition RandomSeed : Z := 42.

(** The input: a table in memory or an [SqlTable]. *)
Inductive dataset : Type :=
| InMemory (t : Table)
| SqlTable (t : Table).

(** What a sampler returns: a pair of index arrays, or one pair per fold. *)
Inductive index_arrays : Type :=
| Pair (first second : list nat)
| Folds (folds : list (list nat * list nat)).

(** The sampler objects [sample] builds, with their constructor
    arguments. *)
Inductive sampler : Type :=
| SampleRandomN (n : option Z) (stratified replace : bool) (random_state : option Z)
| SampleRandomP (p : Q) (stratified : bool) (random_state : option Z)
| SampleBootstrap (size : nat) (random_state : option Z)
| SampleFoldIndices (folds : Z) (stratified : bool) (random_state : option Z).

(** The random samplers (numpy, scikit-learn), the SQL backend and the
    data library: [call_sampler s t] is [s(t)]; [discrete_class_values t]
    is the number of values of the class variable when the domain has a
    discrete class; [getitem_rows_cols t rows cols] is [t[rows, cols]]
    for two index arrays, the table of those rows over the columns
    numbered [cols]. *)
Record SamplerLib : Type := mkSamplerLib {
  call_sampler : sampler -> Table -> outcome index_arrays;
  discrete_class_values : Table -> option nat;
  sample_percentage : Table -> Q -> Table;
  sample_time : Table -> Z -> Table;
  download_data : Table -> Table;
  getitem_rows_cols : Table -> list nat -> list nat -> outcome Table
}.

(** What [commit] indexes the data with: an index array, one integer
    (an element of an index array), or a pair of index arrays. *)
Inductive selection : Type :=
| Rows (ind : list nat)
| Row (i : nat)
| RowsCols (row_idx col_idx : list nat).

Definition task : Type := Empty_set.

(** [class Outputs] *)
Definition Outputs : list (string * pytype) :=
  [("data_sample", TyTable); ("remaining_data", TyTable)].

Record OWDataSampler : Type := mkOWDataSampler {
  data : option dataset;
  indices : option index_arrays;
  sampled_instances : option nat;
  remaining_instances : option nat;
  use_seed : bool;
  replacement : bool;
  stratify : bool;
  sql_dl : bool;
  sampling_type : Z;
  sampleSizeNumber : Z;
  sampleSizePercentage : Z;
  sampleSizeSqlTime : Z;
  sampleSizeSqlPercentage : Q;
  number_of_folds : Z;
  selectedFold : Z;
  compatibility_mode : bool
}.

Definition set_field_data (d : option dataset) (w : OWDataSampler) : OWDataSampler :=
  mkOWDataSampler d (indices w) (sampled_instances w) (remaining_instances w)
    (use_seed w) (replacement w) (stratify w) (sql_dl w) (sampling_type w)
    (sampleSizeNumber w) (sampleSizePercentage w) (sampleSizeSqlTime w)
    (sampleSizeSqlPercentage w) (number_of_folds w) (selectedFold w)
    (compatibility_mode w).

Definition set_field_indices (i : option index_arrays) (w : OWDataSampler) : OWDataSampler :=
  mkOWDataSampler (data w) i (sampled_instances w) (remaining_instances w)
    (use_seed w) (replacement w) (stratify w) (sql_dl w) (sampling_type w)
    (sampleSizeNumber w) (sampleSizePercentage w) (sampleSizeSqlTime w)
    (sampleSizeSqlPercentage w) (number_of_folds w) (selectedFold w)
    (compatibility_mode w).

Definition set_field_instances (s r : option nat) (w : OWDataSampler) : OWDataSampler :=
  mkOWDataSampler (data w) (indices w) s r
    (use_seed w) (replacement w) (stratify w) (sql_dl w) (sampling_type w)
    (sampleSizeNumber w) (sampleSizePercentage w) (sampleSizeSqlTime w)
    (sampleSizeSqlPercentage w) (number_of_folds w) (selectedFold w)
    (compatibility_mode w).

Definition set_field_sampling_type (ty : Z) (w : OWDataSampler) : OWDataSampler :=
  mkOWDataSampler (data w) (indices w) (sampled_instances w) (remaining_instances w)
    (use_seed w) (replacement w) (stratify w) (sql_dl w) ty
    (sampleSizeNumber w) (sampleSizePercentage w) (sampleSizeSqlTime w)
    (sampleSizeSqlPercentage w) (number_of_folds w) (selectedFold w)
    (compatibility_mode w).

Definition set_field_sampleSizeNumber (n : Z) (w : OWDataSampler) : OWDataSampler :=
  mkOWDataSampler (data w) (indices w) (sampled_instances w) (remaining_instances w)
    (use_seed w) (replacement w) (stratify w) (sql_dl w) (sampling_type w)
    n (sampleSizePercentage w) (sampleSizeSqlTime w)
    (sampleSizeSqlPercentage w) (number_of_folds w) (selectedFold w)
    (compatibility_mode w).


Definition _MAX_SAMPLE_SIZE : Z := 2 ^ 31 - 1.

(** Modelled from the spec: [sampleSizeSpin.setMaximum(maximum)] of the
    GUI toolkit, which is not under src/. The spin box holds
    [sampleSizeNumber]; a maximum below its value lowers the value to
    the maximum, and the change runs the callback the spin box was
    built with, [set_sampling_type(self.FixedSize)]: the sampling type
    becomes [FixedSize] and [sampling_type_changed], that is
    [settings_changed], runs. The maximum [settings_changed] sets again
    is the same and no longer below the value, so what is left of it is
    [self.indices = None]. *)
Definition sampleSizeSpin_setMaximum (maximum : Z) (w : OWDataSampler) : OWDataSampler :=
  if (maximum <? sampleSizeNumber w)%Z
  then set_field_indices None
         (set_field_sampling_type FixedSize (set_field_sampleSizeNumber maximum w))
  else w.

(** [not self.data]: no data, or a table without rows. *)
Definition no_data (w : OWDataSampler) : bool :=
  match data w with
  | None => true
  | Some (InMemory t) | Some (SqlTable t) => len t =? 0
  end.

(** [_update_sample_max_size] *)
Definition _update_sample_max_size (w : OWDataSampler) : OWDataSampler :=
  if no_data w || replacement w
  then sampleSizeSpin_setMaximum _MAX_SAMPLE_SIZE w
  else
    match data w with
    | Some (InMemory t) | Some (SqlTable t) =>
        sampleSizeSpin_setMaximum (Z.of_nat (len t)) w
    | None => w
    end.

(** [settings_changed]: the callback of the sampling controls. *)
Definition settings_changed (w : OWDataSampler) : OWDataSampler :=
  set_field_indices None (_update_sample_max_size w).



Section widget.
Context (lib : SamplerLib).

(** [sample(data_length, size, stratified)] *)
Definition sample (w : OWDataSampler) (t : Table) (data_length : nat)
    (size : option Z) (stratified : bool) : outcome index_arrays :=
  let rnd := if use_seed w then Some RandomSeed else None in
  let sampler :=
    if (sampling_type w =? FixedSize)%Z
    then SampleRandomN size stratified (replacement w) rnd
    else if (sampling_type w =? FixedProportion)%Z
    then SampleRandomP (inject_Z (sampleSizePercentage w) / 100)%Q stratified rnd
    else if (sampling_type w =? Bootstrap)%Z
    then SampleBootstrap data_length rnd
    else SampleFoldIndices (number_of_folds w) stratified rnd in
  call_sampler lib sampler t.

(** The first part of [updateindices]: [size], [repl], and the errors it
    activates, in order; AssertionError for a sampling type that is none
    of the four. The size of a proportion is the ceiling of the exact
    product; the code takes the product in binary floating point, whose
    rounding can lift the ceiling by one (7 % of 100 rows give 8). For
    proportions up to 100 % neither value exceeds the number of
    rows. *)
Definition size_and_errors (w : OWDataSampler) (t : Table)
  : outcome (option Z * bool * list string) :=
  let data_length := Z.of_nat (len t) in
  let num_classes :=
    match discrete_class_values lib t with
    | Some n => Z.of_nat n
    | None => 0%Z
    end in
  let first : outcome (option Z * bool * list string) :=
    if (data_length =? 0)%Z then Return (None, true, ["no_data"])
    else if (sampling_type w =? FixedSize)%Z
    then Return (Some (sampleSizeNumber w), replacement w, [])
    else if (sampling_type w =? FixedProportion)%Z
    then Return (Some (Qceiling (inject_Z (sampleSizePercentage w) / 100
                                 * inject_Z data_length)%Q), false, [])
    else if (sampling_type w =? CrossValidation)%Z
    then Return (None, true,
                 if (data_length <? number_of_folds w)%Z then ["too_many_folds"] else [])
    else if (sampling_type w =? Bootstrap)%Z
    then Return (None, true, [])
    else Raise AssertionError in
  match first with
  | Raise ex => Raise ex
  | Return (size, repl, errors) =>
      let larger :=
        match size with
        | Some s => negb repl && (data_length <? s)%Z
        | None => false
        end in
      let errors := errors ++ (if larger then ["sample_larger_than_data"] else []) in
      let errors :=
        errors ++ (if negb repl && (data_length <=? num_classes)%Z && stratify w
                   then ["not_enough_to_stratify"] else []) in
      Return (size, repl, errors)
  end.

Definition updateindices (w : OWDataSampler) (t : Table)
  : outcome (OWDataSampler * list (effect task)) :=
  let clear : list (effect task) := [ClearMessage "Error"; ClearMessage "Warning"] in
  match size_and_errors w t with
  | Raise ex => Raise ex
  | Return (size, repl, errors) =>
      if negb (length errors =? 0) then
        Return (set_field_indices None w, clear ++ map Message errors)
      else
        let bigger :=
          (sampling_type w =? FixedSize)%Z && repl
          && match size with
             | Some s => negb (s =? 0)%Z && (Z.of_nat (len t) <? s)%Z
             | None => false
             end in
        let warn : list (effect task) :=
          if bigger then [Message "bigger_sample"] else [] in
        let stratified :=
          stratify w && bool_decide (is_Some (discrete_class_values lib t)) in
        match sample w t (len t) size stratified with
        | Return ind =>
            Return (set_field_indices (Some ind) w, clear ++ warn ++ [Call "sample"])
        | Raise (ValueError _) =>
            match sample w t (len t) size false with
            | Return ind =>
                Return (set_field_indices (Some ind) w,
                        clear ++ warn ++ [Call "sample"; Message "could_not_stratify";
                                          Call "sample"])
            | Raise ex => Raise ex
            end
        | Raise ex => Raise ex
        end
  end.

(** What [commit] unpacks from [self.indices]: remaining first, sample
    second. Indices a sampler of the current sampling type returned
    unpack into two index arrays. Indices cached under another sampling
    type unpack as Python unpacks them: under cross validation a cached
    pair of arrays is indexed with the fold number and the array found,
    when it has exactly two elements, unpacks into two integers; under
    the other three types cached folds unpack when there are exactly
    two, each into a pair of arrays. A sampling type outside the four
    leaves both unbound. *)
Definition unpack_indices (w : OWDataSampler) (ind : index_arrays)
  : outcome (selection * selection) :=
  if (sampling_type w =? FixedProportion)%Z || (sampling_type w =? FixedSize)%Z
     || (sampling_type w =? Bootstrap)%Z
  then match ind with
       | Pair remaining sample => Return (Rows remaining, Rows sample)
       | Folds [(a, b); (c, d)] => Return (RowsCols a b, RowsCols c d)
       | Folds _ => Raise (ValueError "unpack")
       end
  else if (sampling_type w =? CrossValidation)%Z
  then match ind with
       | Folds fs =>
           match py_index fs (selectedFold w - 1) with
           | Return (a, b) =>
               if compatibility_mode w then Return (Rows a, Rows b)
               else Return (Rows b, Rows a)
           | Raise ex => Raise ex
           end
       | Pair first second =>
           match py_index [first; second] (selectedFold w - 1) with
           | Return [a; b] =>
               if compatibility_mode w then Return (Row a, Row b)
               else Return (Row b, Row a)
           | Return _ => Raise (ValueError "unpack")
           | Raise ex => Raise ex
           end
       end
  else Raise Exception.

(** [self.data[sel]]: a table for an index array or a pair of them, a
    row instance for an integer. *)
Definition getitem (t : Table) (sel : selection) : outcome pyval :=
  match sel with
  | Rows ind =>
      match take_rows ind t with
      | Return t' => Return (PyTable t')
      | Raise ex => Raise ex
      end
  | Row i =>
      match take_row i t with
      | Return r => Return (PyInstance (domain t) r)
      | Raise ex => Raise ex
      end
  | RowsCols row_idx col_idx =>
      match getitem_rows_cols lib t row_idx col_idx with
      | Return t' => Return (PyTable t')
      | Raise ex => Raise ex
      end
  end.

(** Modelled from the spec: [len(x)] of what [getitem] returns; the
    classes are not under src/. A table has its rows, a row instance
    its attribute and class values. *)
Definition py_len (v : pyval) : nat :=
  match v with
  | PyTable t => len t
  | PyInstance d _ => length (attributes d) + length (class_vars d)
  | _ => 0
  end.

(** The part of [commit] after the indices are known. *)
Definition send_sample (w : OWDataSampler) (t : Table) (ind : index_arrays)
    (before : list (effect task)) : outcome (OWDataSampler * list (effect task)) :=
  match unpack_indices w ind with
  | Raise ex => Raise ex
  | Return (remaining, sample) =>
      match getitem t sample with
      | Raise ex => Raise ex
      | Return sample =>
          match getitem t remaining with
          | Raise ex => Raise ex
          | Return other =>
              Return (set_field_instances (Some (py_len sample)) (Some (py_len other)) w,
                      before ++ [Send "data_sample" sample;
                                 Send "remaining_data" other])
          end
      end
  end.

Definition commit (w : OWDataSampler) : outcome (OWDataSampler * list (effect task)) :=
  match data w with
  | None =>
      Return (set_field_instances None None w,
              [Send "data_sample" PyNone; Send "remaining_data" PyNone])
  | Some (SqlTable t) =>
      let sample :=
        if (sampling_type w =? SqlProportion)%Z
        then sample_percentage lib t (sampleSizeSqlPercentage w)
        else sample_time lib t (sampleSizeSqlTime w) in
      let sample := if sql_dl w then download_data lib sample else sample in
      Return (w, [Send "data_sample" (PyTable sample); Send "remaining_data" PyNone])
  | Some (InMemory t) =>
      match indices w with
      | Some ind =>
          if use_seed w then send_sample w t ind []
          else
            match updateindices w t with
            | Raise ex => Raise ex
            | Return (w', es) =>
                match indices w' with
                | None => Return (w', es)
                | Some ind' => send_sample w' t ind' es
                end
            end
      | None =>
          match updateindices w t with
          | Raise ex => Raise ex
          | Return (w', es) =>
              match indices w' with
              | None => Return (w', es)
              | Some ind' => send_sample w' t ind' es
              end
          end
      end
  end.

(** [set_data], the handler of the input [Inputs.data]. *)
Definition set_data (dataset : option dataset) (w : OWDataSampler)
  : outcome (OWDataSampler * list (effect task)) :=
  let w := set_field_data dataset w in
  let first : outcome (OWDataSampler * list (effect task)) :=
    match dataset with
    | Some (InMemory t) => updateindices (_update_sample_max_size w) t
    | Some (SqlTable _) => Return (w, [])
    | None => Return (set_field_indices None w, [ClearMessages])
    end in
  match first with
  | Raise ex => Raise ex
  | Return (w, es) =>
      match commit w with
      | Raise ex => Raise ex
      | Return (w, es') => Return (w, es ++ es')
      end
  end.

End widget.

(** The value each output channel holds: the last one sent on it. *)
Fixpoint apply_sends (outputs : gmap string pyval) (es : list (effect task))
  : gmap string pyval :=
  match es with
  | [] => outputs
  | Send c v :: es' => apply_sends (<[c := v]> outputs) es'
  | _ :: es' => apply_sends outputs es'
  end.

Definition set_field_compatibility_mode (b : bool) (w : OWDataSampler) : OWDataSampler :=
  mkOWDataSampler (data w) (indices w) (sampled_instances w) (remaining_instances w)
    (use_seed w) (replacement w) (stratify w) (sql_dl w) (sampling_type w)
    (sampleSizeNumber w) (sampleSizePercentage w) (sampleSizeSqlTime w)
    (sampleSizeSqlPercentage w) (number_of_folds w) (selectedFold w) b.

(** [value == n] for an integer [n]. *)
Definition py_eq_int (v : pyval) (n : Z) : bool :=
  match v with
  | PyInt z => (z =? n)%Z
  | PyBool b => (Z.b2z b =? n)%Z
  | PyFloat q => Qeq_bool q (inject_Z n)
  | _ => false
  end.

(** [migrate_settings(settings, version)]:
    [if not version or version < 2 and settings["sampling_type"] == 2]. *)
Definition migrate_settings (settings : gmap string pyval) (version : option Z)
  : gmap string pyval * outcome unit :=
  let falsy := match version with None => true | Some v => (v =? 0)%Z end in
  if falsy then (<["compatibility_mode" := PyBool true]> settings, Return tt)
  else
    match version with
    | Some v =>
        if (v <? 2)%Z then
          match settings !! "sampling_type" with
          | None => (settings, Raise KeyError)
          | Some st =>
              if py_eq_int st CrossValidation
              then (<["compatibility_mode" := PyBool true]> settings, Return tt)
              else (settings, Return tt)
          end
        else (settings, Return tt)
    | None => (settings, Return tt)
    end.

(** *** The sampler classes *)

(** [np.random.RandomState(random_state)] and the splitters of
    scikit-learn: [randint rs high n] is [rgen.randint(0, high, n)] for
    [0 < high], [shuffle rs a] is the array after [rgen.shuffle(a)], and
    [split s t] is what the splitter built for sampler [s] yields on
    [t]. *)
Record Random : Type := mkRandom {
  randint : option Z -> nat -> nat -> list nat;
  shuffle : option Z -> list nat -> list nat;
  split : sampler -> Table -> outcome index_arrays
}.

(** [rgen.randint(0, high, n)]: numpy returns the empty array for size
    0 before it looks at the range; otherwise it refuses an empty range,
    and then a negative size. *)
Definition rgen_randint (rng : Random) (random_state : option Z) (high : nat) (n : Z)
  : outcome (list nat) :=
  if (n =? 0)%Z then Return []
  else if high =? 0 then Raise (ValueError "low >= high")
  else if (n <? 0)%Z then Raise (ValueError "negative dimensions are not allowed")
  else Return (randint rng random_state high (Z.to_nat n)).

(** [SampleRandomN(n, stratified, replace, random_state)(table)] *)
Definition SampleRandomN_call (rng : Random) (n : Z) (stratified replace : bool)
    (random_state : option Z) (table : Table) : outcome index_arrays :=
  if replace then
    match rgen_randint rng random_state (len table) n with
    | Raise ex => Raise ex
    | Return sample =>
        match np_assign (np_full (len table) 1%Q) sample 0%Q with
        | Raise ex => Raise ex
        | Return o => Return (Pair (np_nonzero (fun x => Qeq_bool x 0) o) sample)
        end
    end
  else if (n =? 0)%Z || (n =? Z.of_nat (len table))%Z then
    let shuffled := shuffle rng random_state (seq 0 (len table)) in
    if (n =? 0)%Z then Return (Pair shuffled []) else Return (Pair [] shuffled)
  else split rng (SampleRandomN (Some n) stratified replace random_state) table.

(** [SampleRandomP(p, stratified, random_state)(table)]; the product is
    exact here and in binary floating point in the code, which agree for
    the proportions 0 and 1. *)
Definition SampleRandomP_call (rng : Random) (p : Q) (stratified : bool)
    (random_state : option Z) (table : Table) : outcome index_arrays :=
  let n := Qceiling (inject_Z (Z.of_nat (len table)) * p) in
  SampleRandomN_call rng n stratified false random_state table.

(** [SampleBootstrap(size, random_state)(table)] *)
Definition SampleBootstrap_call (rng : Random) (size : nat) (random_state : option Z)
  : outcome index_arrays :=
  match rgen_randint rng random_state size (Z.of_nat size) with
  | Raise ex => Raise ex
  | Return sample =>
      let sample := merge_sort Nat.le sample in
      match np_assign (np_full size true) sample false with
      | Raise ex => Raise ex
      | Return insample => Return (Pair (np_nonzero negb insample) sample)
      end
  end.

(** Calling a sampler object. The fold splitter is scikit-learn's; a
    sample size that is no number does not occur, the widget passes its
    spin box value. *)
Definition call (rng : Random) (s : sampler) (table : Table) : outcome index_arrays :=
  match s with
  | SampleRandomN (Some n) stratified replace random_state =>
      SampleRandomN_call rng n stratified replace random_state table
  | SampleRandomN None _ _ _ => Raise TypeError
  | SampleRandomP p stratified random_state =>
      SampleRandomP_call rng p stratified random_state table
  | SampleBootstrap size random_state => SampleBootstrap_call rng size random_state
  | SampleFoldIndices _ _ _ => split rng s table
  end.

(** The widget's library with the sampler classes of this file. *)
Definition with_samplers (rng : Random) (lib : SamplerLib) : SamplerLib :=
  mkSamplerLib (call rng) (discrete_class_values lib) (sample_percentage lib)
               (sample_time lib) (download_data lib) (getitem_rows_cols lib).

End owdatasampler.

(* ===================================================================== *)
(** * Vocabulary of the properties *)
(* ===================================================================== *)

Section trace_vocabulary.
Context {R : Type}.

(** No poll in [evs] found interruption requested. *)
Definition clean (evs : list (event R)) : Prop := PollInterruption true ∉ evs.

(** [c] only adds events; if a poll finds interruption requested, that
    poll is the last thing [c] does, and the outcome then satisfies [P]. *)
Definition stops_when_interrupted {A} (P : outcome A -> Prop) (c : M R A) : Prop :=
  forall st, exists evs,
    trace (c st).1 = trace st ++ evs /\
    interruption (c st).1 = interruption st /\
    (clean evs \/
     exists pre, evs = pre ++ [PollInterruption true] /\ clean pre /\ P (c st).2).


(** The task state after one more event, and after one more poll. *)
Definition logged (e : event R) (st : TaskState R) : TaskState R :=
  mkTaskState (interruption st) (polls st) (trace st ++ [e]).

Definition polled (st : TaskState R) : TaskState R :=
  mkTaskState (interruption st) (S (polls st))
    (trace st ++ [PollInterruption (interruption st (polls st))]).

(** The partial results among the events, oldest first. *)
Fixpoint partial_results (evs : list (event R)) : list R :=
  match evs with
  | [] => []
  | SetPartialResult r :: evs' => r :: partial_results evs'
  | _ :: evs' => partial_results evs'
  end.

(** How many calls of [callee] the events hold. *)
Fixpoint count_steps (callee : string) (evs : list (event R)) : nat :=
  match evs with
  | [] => 0
  | Step c :: evs' => (if String.eqb c callee then 1 else 0) + count_steps callee evs'
  | _ :: evs' => count_steps callee evs'
  end.


End trace_vocabulary.

Section progress_vocabulary.
Context {R : Type}.

(** Every event [c] adds to the trace satisfies [P], however [c] ends. *)
Definition emits {A} (P : event R -> Prop) (c : M R A) : Prop :=
  forall st, exists evs, trace (c st).1 = trace st ++ evs /\ Forall P evs.

(** A progress value lies between [lo] and [hi]; other events pass. *)
Definition progress_between (lo hi : Q) (e : event R) : Prop :=
  match e with
  | SetProgressValue v => (lo <= v <= hi)%Q
  | _ => True
  end.

(** The library reports its progress as a share between 0 and 1. *)
Definition unit_report (a : action) : Prop :=
  match a with
  | Report i _ => (0 <= i <= 1)%Q
  | Compute _ => True
  end.

End progress_vocabulary.

Section freeviz_vocabulary.
Import owfreeviz.
Context (call : Table -> FreeViz -> outcome (FreeViz * FreeVizModel)).

(** The result an iteration delivers, from what the projector call
    returned in iteration [k]. *)
Definition delivered_result (k : nat) (pm : FreeViz * FreeVizModel) : Result :=
  mkResult (set_initial (components_T pm.1) pm.1) (Some (copy k pm.2)).

(** [prs] are the results of successive iterations [k], [k+1], ...
    starting from projector [p]: each is what the projector call on the
    projector of the one before returned, the model copied. *)
Fixpoint delivered_chain (data : Table) (p : FreeViz) (k : nat) (prs : list Result)
  : Prop :=
  match prs with
  | [] => True
  | r :: prs' =>
      (exists pm, call data p = Return pm /\ r = delivered_result k pm) /\
      delivered_chain data (projector r) (S k) prs'
  end.

(** The projector of the last of [prs], or [p] when there is none. *)
Definition last_projector (p : FreeViz) (prs : list Result) : FreeViz :=
  match last prs with
  | Some r => projector r
  | None => p
  end.


End freeviz_vocabulary.

Section outliers_vocabulary.

(** No poll, now or later, finds interruption requested. *)
Definition quiet {R} (st : TaskState R) : Prop :=
  forall k, interruption st k = false.

(** The rows whose value in the column [col] equals [v], in table order:
    what the outliers' run is to return as inliers ([v = 1]) and as
    outliers ([v = 0]). *)
Fixpoint rows_with_value (v : Q) (rws : list (list Q)) (col : list Q)
  : list (list Q) :=
  match rws, col with
  | r :: rws', x :: col' =>
      if Qeq_bool x v then r :: rows_with_value v rws' col'
      else rows_with_value v rws' col'
  | _, _ => []
  end.

(** The column holds nothing but 0 and 1. *)
Definition zero_one (col : list Q) : Prop :=
  Forall (fun x => Qeq_bool x 0 = true \/ Qeq_bool x 1 = true) col.

End outliers_vocabulary.

Section widget_vocabulary.
Context {T : Type}.

(** The method sends nothing. *)
Definition sends_nothing (es : list (effect T)) : Prop :=
  Forall (fun e => is_send e = false) es.

(** The method starts no task. *)
Definition starts_nothing (es : list (effect T)) : Prop :=
  Forall (fun e => is_start e = false) es.

(** The method makes no synchronous call into a library. *)
Definition calls_nothing (es : list (effect T)) : Prop :=
  Forall (fun e => is_call e = false) es.



(** The method shows messages and calls only the callees listed. *)
Definition only_messages_and_calls (allowed : list string) (es : list (effect T)) : Prop :=
  Forall (fun e => (exists m, e = Message m) \/ (exists c, e = Call c /\ c ∈ allowed)) es.

(** How many synchronous calls of [callee] the method makes. *)
Fixpoint count_calls (callee : string) (es : list (effect T)) : nat :=
  match es with
  | [] => 0
  | Call c :: es' => (if String.eqb c callee then 1 else 0) + count_calls callee es'
  | _ :: es' => count_calls callee es'
  end.

(** The tasks the method starts, oldest first. *)
Fixpoint started (es : list (effect T)) : list T :=
  match es with
  | [] => []
  | Start t :: es' => t :: started es'
  | _ :: es' => started es'
  end.

End widget_vocabulary.

Section outliers_widget_vocabulary.
Import owoutliers.

(** The editor shown is the one of the method selected. *)
Definition in_step (w : OWOutliers) : Prop :=
  py_index [0; 1; 2; 3]%Z (outlier_method w) = Return (current_editor w).

(** The parameters of the [k]-th editor. *)
Definition editor_parameters (k : nat) (w : OWOutliers) : outcome (gmap string pyval) :=
  match k with
  | 0 => SVMEditor_get_parameters (svm_editor w)
  | 1 => CovarianceEditor_get_parameters (cov_editor w)
  | 2 => LocalOutlierFactorEditor_get_parameters (lof_editor w)
  | _ => IsolationForestEditor_get_parameters (isf_editor w)
  end.

(** The task builds the learner of a method from the parameters of that
    method's own editor. *)
Definition paired (w : OWOutliers) (t : task) : Prop :=
  exists k, METHODS !! k = Some (learner_class t) /\
            editor_parameters k w = Return (kwargs t).

End outliers_widget_vocabulary.

Section distances_vocabulary.

(** What a script leaves in the trace of the distance runner when no
    poll finds interruption requested: each report sets the progress to
    its value and polls, each computation is a step. *)
Definition script_events (script : list action) : list (event unit) :=
  flat_map (fun a => match a with
                     | Report i _ => [SetProgressValue i; PollInterruption false]
                     | Compute callee => [Step callee]
                     end) script.

(** The keys the settings of the distances widget lost or gained between
    versions. *)
Definition migrated_key (k : string) : Prop :=
  k = "metric_id" \/ k = "metric_idx" \/ k = "normalized_dist".

(** The errors the checks of [compute_distances] show. *)
(** What [compute_distances] calls to prepare the data. *)
Definition preprocessors : list string :=
  ["bn.anynan"; "distance.impute"; "distance.remove_discrete_features";
   "distance.remove_nonbinary_features"].

Definition distance_errors : list string :=
  ["dense_metric_sparse_data"; "data_too_large_for_mahalanobis";
   "no_continuous_features"; "no_binary_features"].

Definition shows_error (es : list (effect owdistances.task)) : Prop :=
  exists m, m ∈ distance_errors /\ Message m ∈ es.

(** What a check leaves: an error and no data, or data and no error. *)
Definition checked (check : Table -> list (effect owdistances.task) * option Table)
  : Prop :=
  forall d,
    match check d with
    | (msgs, None) => exists m, msgs = [Message m] /\ m ∈ distance_errors
    | (msgs, Some _) => ~ shows_error msgs
    end.

End distances_vocabulary.

Section sampler_vocabulary.
Import owdatasampler.

(** The four situations in which [updateindices] shows an error: no
    rows; cross validation with more folds than rows; a fixed sample size
    above the number of rows, without replacement; stratified sampling
    without replacement of a table with no more rows than classes. *)
Definition error_condition (lib : SamplerLib) (w : OWDataSampler) (t : Table) : Prop :=
  len t = 0
  \/ (sampling_type w = CrossValidation /\ (Z.of_nat (len t) < number_of_folds w)%Z)
  \/ (sampling_type w = FixedSize /\ replacement w = false
      /\ (Z.of_nat (len t) < sampleSizeNumber w)%Z)
  \/ ((sampling_type w = FixedSize /\ replacement w = false
       \/ sampling_type w = FixedProportion)
      /\ stratify w = true
      /\ exists n, discrete_class_values lib t = Some n /\ len t <= n).

(** The indices have the shape the sampler of the current sampling type
    returns: folds under cross validation, a pair of arrays otherwise. *)
Definition matching_indices (w : OWDataSampler) (ind : index_arrays) : Prop :=
  match ind with
  | Pair _ _ => sampling_type w <> CrossValidation
  | Folds _ => sampling_type w = CrossValidation
  end.

End sampler_vocabulary.

Section random_vocabulary.
Import owdatasampler.

(** What numpy promises of the generator: [randint(0, high, n)] gives [n]
    numbers below [high], and [shuffle] rearranges its argument. *)
Definition well_behaved (rng : Random) : Prop :=
  (forall rs high n, 0 < high ->
      length (randint rng rs high n) = n /\
      Forall (fun i => i < high) (randint rng rs high n)) /\
  (forall rs a, shuffle rng rs a ≡ₚ a).

End random_vocabulary.

(* ===================================================================== *)
(** * Example inputs *)
(* ===================================================================== *)

Module examples.

(** Three rows over the attributes x and y. *)
Definition data3 : Table :=
  mkTable (mkDomain ["x"; "y"] [] [])
          [[1; 2]; [-3; 0]; [5; 5]]%Q.

Definition empty_table : Table := mkTable (mkDomain ["x"; "y"] [] []) [].

(** A model that marks a row as an inlier (1) when its first value is
    positive and as an outlier (0) otherwise. *)
Definition sign_model : owoutliers.Model :=
  owoutliers.mkModel
    [Report (1 # 2) ""; Compute "predict"]
    (fun t => Return
       (mkTable (mkDomain (attributes (domain t)) (class_vars (domain t))
                          (metas (domain t) ++ ["Outlier"]))
                (map (fun r => r ++ [if Qle_bool (nth 0 r 0) 0 then 0 else 1]%Q)
                     (rows t))))
    "Outlier".

Definition sign_learner : owoutliers.Learner :=
  owoutliers.mkLearner [Report (1 # 2) "fitting"; Compute "fit"]
                       (fun _ => Return sign_model).

(** A distance library whose metrics report progress twice. *)
Definition dist_lib : owdistances.DistanceLib :=
  owdistances.mkDistanceLib
    (fun _ => true) (fun _ => true) (fun _ => true)
    (fun m => bool_decide (m = distance.Euclidean \/ m = distance.Manhattan))
    (fun _ => false)
    (fun _ _ => [Report 0 ""; Compute "distance"; Report 100 ""])
    (fun _ t _ => Return (PyDistMatrix (mkDistMatrix 1 (map (fun _ => map (fun _ => 0%Q) (rows t)) (rows t)))))
    (fun t => t) (fun t => t) (fun t => t).

Definition table_lib : owdistances.TableLib :=
  owdistances.mkTableLib (fun _ => false) (fun _ => false) (fun _ => true)
                         (fun _ => false) (fun _ => 0).

(** A distance library none of whose metrics copes with missing values,
    and tables that have some. *)
Definition strict_dist_lib : owdistances.DistanceLib :=
  owdistances.mkDistanceLib
    (fun _ => true) (fun _ => true) (fun _ => false)
    (fun m => bool_decide (m = distance.Euclidean \/ m = distance.Manhattan))
    (fun _ => false)
    (fun _ _ => [Report 0 ""; Compute "distance"; Report 100 ""])
    (fun _ t _ => Return (PyDistMatrix (mkDistMatrix 1 (map (fun _ => map (fun _ => 0%Q) (rows t)) (rows t)))))
    (fun t => t) (fun t => t) (fun t => t).

Definition holey_table_lib : owdistances.TableLib :=
  owdistances.mkTableLib (fun _ => false) (fun _ => false) (fun _ => true)
                         (fun _ => true) (fun _ => 0).



(** A projector that settles: every call halves the anchors. *)
Definition halve (a : owfreeviz.Anchors) : owfreeviz.Anchors :=
  map (fun xy => (xy.1 / 2, xy.2 / 2)%Q) a.

Definition settling_call (_ : Table) (p : owfreeviz.FreeViz)
  : outcome (owfreeviz.FreeViz * owfreeviz.FreeVizModel) :=
  Return (owfreeviz.mkFreeViz (halve (owfreeviz.initial p)) (owfreeviz.initial p)
                              (owfreeviz.gravity p),
          owfreeviz.mkFreeVizModel (owfreeviz.Ext 0) (halve (owfreeviz.initial p))).

(** A projector that never settles: every call mirrors the anchors. *)
Definition mirror (a : owfreeviz.Anchors) : owfreeviz.Anchors :=
  map (fun xy => (- xy.1, - xy.2)%Q) a.

Definition oscillating_call (_ : Table) (p : owfreeviz.FreeViz)
  : outcome (owfreeviz.FreeViz * owfreeviz.FreeVizModel) :=
  Return (owfreeviz.mkFreeViz (mirror (owfreeviz.initial p)) (owfreeviz.initial p)
                              (owfreeviz.gravity p),
          owfreeviz.mkFreeVizModel (owfreeviz.Ext 0) (mirror (owfreeviz.initial p))).

Definition circle2 : owfreeviz.FreeViz :=
  owfreeviz.mkFreeViz [(1, 0); (0, 1)]%Q [(1, 0); (0, 1)]%Q None.

Definition freeviz_widget : owfreeviz.OWFreeViz :=
  owfreeviz.mkOWFreeViz (Some data3) (Some circle2) None false.

(** A projection library: every method embeds each row as its first two
    values. *)
Definition manifold_lib : owmanifoldlearning.ManifoldLib :=
  owmanifoldlearning.mkManifoldLib
    (fun _ => false)
    (fun _ proposed => proposed)
    (fun _ _ t => ([], Return (owmanifoldlearning.OtherModel (map (take 2) (rows t))))).

Definition manifold_widget : owmanifoldlearning.OWManifoldLearning :=
  owmanifoldlearning.mkOWManifoldLearning (Some data3) 1 2 true ∅ false.

Definition outliers_widget : owoutliers.OWOutliers :=
  owoutliers.mkOWOutliers
    (Some data3) owoutliers.LOF true
    (owoutliers.mkSVMEditor 50 (1 # 100))
    (owoutliers.mkCovarianceEditor 10 false 1)
    (owoutliers.mkLocalOutlierFactorEditor 20 10 0)
    (owoutliers.mkIsolationForestEditor 10 false)
    owoutliers.LOF None None false.

(** The same widget with automatic commits switched off. *)
Definition manual_outliers_widget : owoutliers.OWOutliers :=
  owoutliers.mkOWOutliers
    (Some data3) owoutliers.LOF false
    (owoutliers.mkSVMEditor 50 (1 # 100))
    (owoutliers.mkCovarianceEditor 10 false 1)
    (owoutliers.mkLocalOutlierFactorEditor 20 10 0)
    (owoutliers.mkIsolationForestEditor 10 false)
    owoutliers.LOF None None false.

Definition distances_widget : owdistances.OWDistances :=
  owdistances.mkOWDistances (Some data3) 0 owdistances.EuclideanNormalized true false.

(** The rows [row_idx] of a table over its columns [col_idx], all of
    them kept as attributes. *)
Definition rows_cols (t : Table) (row_idx col_idx : list nat) : outcome Table :=
  match take_rows row_idx t, mapM (fun j => variables (domain t) !! j) col_idx with
  | Return t', Some vars =>
      Return (mkTable (mkDomain vars [] [])
                      (map (fun r => map (fun j => nth j r 0%Q) col_idx) (rows t')))
  | _, _ => Raise IndexError
  end.

(** A sampler that puts the first row into the sample and the others
    into the rest, whatever it is asked. *)
Definition sampler_lib : owdatasampler.SamplerLib :=
  owdatasampler.mkSamplerLib
    (fun _ t => Return (owdatasampler.Pair (seq 1 (len t - 1)) [0]))
    (fun _ => None)
    (fun t _ => t) (fun t _ => t) (fun t => t)
    rows_cols.

(** Three rows and a fixed sample size of ten, without replacement. *)
Definition greedy_sampler : owdatasampler.OWDataSampler :=
  owdatasampler.mkOWDataSampler
    (Some (owdatasampler.InMemory data3)) None None None
    true false false false owdatasampler.FixedSize 10 70 1 (1 # 10) 10 1 false.

(** The same widget asked for one row. *)
Definition modest_sampler : owdatasampler.OWDataSampler :=
  owdatasampler.mkOWDataSampler
    (Some (owdatasampler.InMemory data3)) None None None
    true false false false owdatasampler.FixedSize 1 70 1 (1 # 10) 10 1 false.

(** Outputs left by an earlier commit. *)
Definition earlier_outputs : gmap string pyval :=
  <["data_sample" := PyTable data3]> (<["remaining_data" := PyNone]> ∅).

(** 1001 rows over two features. *)
Definition long_table : Table :=
  mkTable (mkDomain ["x"; "y"] [] []) (replicate 1001 [1; 2]%Q).

(** A widget asked for one row of three, not seeded. *)
Definition unseeded_sampler : owdatasampler.OWDataSampler :=
  owdatasampler.mkOWDataSampler
    None None None None
    false false false false owdatasampler.FixedSize 1 70 1 (1 # 10) 10 1 false.

(** One row over 1501 features. *)
Definition wide_table : Table :=
  mkTable (mkDomain (replicate 1501 "x") [] []) [replicate 1501 1%Q].

(** A widget holding the indices of two folds, the first one selected. *)
Definition folding_sampler : owdatasampler.OWDataSampler :=
  owdatasampler.mkOWDataSampler
    (Some (owdatasampler.InMemory data3))
    (Some (owdatasampler.Folds [([0; 1], [2]); ([2], [0; 1])])) None None
    true false false false owdatasampler.CrossValidation 1 70 1 (1 # 10) 2 1 false.

(** A widget set to sample 100 % of [data3]. *)
Definition whole_sampler : owdatasampler.OWDataSampler :=
  owdatasampler.mkOWDataSampler
    (Some (owdatasampler.InMemory data3)) None None None
    true false false false owdatasampler.FixedProportion 1 100 1 (1 # 10) 10 1 false.

(** A generator that adds squares to the seed, modulo the range, and
    shuffles by reversing. *)
Definition counting_rng : owdatasampler.Random :=
  owdatasampler.mkRandom
    (fun rs high n => map (fun i => (Z.to_nat (default 0%Z rs) + i * i) mod high) (seq 0 n))
    (fun _ a => reverse a)
    (fun _ _ => Raise (ValueError "split")).

End examples.

(* ===================================================================== *)
(** * Properties *)
(* ===================================================================== *)

(** ** Cooperative cancellation: how a computation relates to the polls *)

Section cooperative.
Context {R : Type}.
Implicit Types (evs pre post : list (event R)) (st : TaskState R).

Lemma clean_nil : @clean R [].
Proof. unfold clean. apply not_elem_of_nil. Qed.






Lemma stops_raise {A} (P : outcome A -> Prop) (e : exn) :
  stops_when_interrupted P (raise e : M R A).
Proof.
  intros st. exists []. simpl. rewrite app_nil_r. auto using clean_nil.
Qed.







End cooperative.

(** ** The task functions stop at an interrupted poll *)





(** ** run_freeviz: one iteration, then the loop *)

Section freeviz.
Import owfreeviz.
Context (call : Table -> FreeViz -> outcome (FreeViz * FreeVizModel)).

(** One iteration of the loop, case by case. *)
Lemma loop_unfold fuel data res initial step steps st :
  loop call (S fuel) data res initial step steps st =
  let st1 := logged (Step "projector") st in
  match call data (projector res) with
  | Raise e => (st1, Raise e)
  | Return pm =>
      let res' := delivered_result step pm in
      let st2 := logged (SetPartialResult res') st1 in
      if np_allclose initial (components_T pm.1) rtol atol
      then (st2, Return (Some res'))
      else
        let st3 := logged (SetProgressValue (progress_of (S step) steps)) st2 in
        if interruption st (polls st)
        then (polled st3, Return (Some res'))
        else loop call fuel data res' (components_T pm.1) (S step) steps (polled st3)
  end.
Proof.
  cbn [loop]. unfold bind, Task.step, emit, lift, set_partial_result,
    set_progress_value, is_interruption_requested, logged, polled, delivered_result.
  cbn. destruct (call data (projector res)) as [pm|e]; [|reflexivity].
  cbn. destruct (np_allclose initial (components_T pm.1) rtol atol) eqn:Hc;
    [reflexivity|].
  cbn. destruct (interruption st (polls st)); reflexivity.
Qed.

Lemma last_projector_cons p r prs :
  last_projector p (r :: prs) = last_projector (projector r) prs.
Proof.
  unfold last_projector. rewrite last_cons. destruct (last prs); reflexivity.
Qed.

Lemma last_projector_snoc p prs r : last_projector p (prs ++ [r]) = projector r.
Proof. unfold last_projector. by rewrite last_snoc. Qed.


(** What the loop delivers and how it ends. The loop is entered with
    [initial] the anchors of the projector it holds. *)
Lemma loop_spec fuel data res step steps st :
  exists evs,
    trace (loop call fuel data res (components_T (projector res)) step steps st).1
      = trace st ++ evs /\
    delivered_chain call data (projector res) step (partial_results evs) /\
    count_steps "projector" evs <= fuel /\
    match (loop call fuel data res (components_T (projector res)) step steps st).2 with
    | Return None =>
        count_steps "projector" evs = fuel /\
        length (partial_results evs) = fuel
    | Return (Some res') =>
        count_steps "projector" evs = length (partial_results evs) /\
        exists prs, partial_results evs = prs ++ [res'] /\
          ((np_allclose (components_T (last_projector (projector res) prs))
                        (components_T (projector res')) rtol atol = true /\
            exists pre, evs = pre ++ [SetPartialResult res'])
           \/
           (exists pre v, evs = pre ++ [SetPartialResult res'; SetProgressValue v;
                                        PollInterruption true]))
    | Raise e =>
        count_steps "projector" evs = S (length (partial_results evs)) /\
        (exists pre, evs = pre ++ [Step "projector"]) /\
        call data (last_projector (projector res) (partial_results evs)) = Raise e
    end.
Proof.
  revert res step st. induction fuel as [|fuel IH]; intros res step st.
  - exists []. cbn. rewrite app_nil_r. repeat split; lia.
  - rewrite loop_unfold. cbn zeta.
    destruct (call data (projector res)) as [pm|e] eqn:Hcall.
    2:{ exists [Step "projector"]. cbn. repeat split; try lia.
        - by exists [].
        - exact Hcall. }
    set (res' := delivered_result step pm).
    destruct (np_allclose (components_T (projector res)) (components_T pm.1) rtol atol)
      eqn:Hclose.
    { exists [Step "projector"; SetPartialResult res']. cbn.
      rewrite <- app_assoc. repeat split; try lia; eauto.
      exists []. split; [reflexivity|]. left. split; [exact Hclose|].
      by exists [Step "projector"]. }
    set (v := progress_of (S step) steps).
    destruct (interruption st (polls st)) eqn:Hb.
    { exists [Step "projector"; SetPartialResult res'; SetProgressValue v;
              PollInterruption true].
      cbn. rewrite Hb, <- !app_assoc. repeat split; try lia; eauto.
      exists []. split; [reflexivity|]. right.
      exists [Step "projector"], v. reflexivity. }
    set (st' := polled _).
    assert (Htr : trace st' = trace st ++ [Step "projector"; SetPartialResult res';
                                           SetProgressValue v; PollInterruption false]).
    { subst st'. cbn. rewrite Hb, <- !app_assoc. reflexivity. }
    clearbody st'.
    change (components_T pm.1) with (components_T (projector res')).
    destruct (IH res' (S step) st') as (evs & Ht & Hchain & Hcount & Hend).
    exists ([Step "projector"; SetPartialResult res'; SetProgressValue v;
             PollInterruption false] ++ evs).
    rewrite Ht, Htr, <- !app_assoc.
    split; [reflexivity|]. split; [cbn; eauto|]. split; [cbn; lia|].
    revert Hend.
    destruct (loop call fuel data res' (components_T (projector res')) (S step) steps st').2
      as [[res''|]|e]; intros Hend; cbn [app partial_results count_steps length].
    + destruct Hend as (Hn & prs & Hprs & Hexit). split; [cbn; lia|].
      exists (res' :: prs).
      rewrite Hprs. split; [reflexivity|]. rewrite last_projector_cons.
      destruct Hexit as [(Hc & pre & ->)|(pre & v' & ->)].
      * left. split; [exact Hc|].
        by exists ([Step "projector"; SetPartialResult res'; SetProgressValue v;
                    PollInterruption false] ++ pre).
      * right.
        by exists ([Step "projector"; SetPartialResult res'; SetProgressValue v;
                    PollInterruption false] ++ pre), v'.
    + destruct Hend as [Hn Hl]. cbn. split; lia.
    + destruct Hend as (Hn & (pre & ->) & He). split; [cbn in *; lia|].
      rewrite last_projector_cons. split; [|exact He].
      by exists ([Step "projector"; SetPartialResult res'; SetProgressValue v;
                  PollInterruption false] ++ pre).
Qed.



End freeviz.

(** ** The task functions and interruption *)


(** [run_freeviz] is the loop entered after the status is set. *)
Lemma run_freeviz_unfold call fuel data projector st :
  owfreeviz.run_freeviz call fuel data projector st =
  owfreeviz.loop call fuel data (owfreeviz.mkResult projector None)
    (owfreeviz.components_T projector) 0 owfreeviz.MAX_ITERATIONS
    (logged (SetStatus "计算中...") st).
Proof. reflexivity. Qed.



(** ** FreeViz: partial results and the exits of the loop *)

Section freeviz_claims.
Import owfreeviz.

Lemma delivered_chain_lookup call data p k0 prs k res :
  delivered_chain call data p k0 prs ->
  prs !! k = Some res ->
  exists p' pm, call data p' = Return pm /\ res = delivered_result (k0 + k) pm.
Proof.
  revert p k0 k. induction prs as [|r prs IH]; intros p k0 k Hchain Hk.
  - discriminate Hk.
  - destruct Hchain as [(pm & Hcall & ->) Hrest]. destruct k as [|k]; cbn in Hk.
    + injection Hk as <-. exists p, pm. by rewrite Nat.add_0_r.
    + destruct (IH _ _ _ Hrest Hk) as (p' & pm' & Hcall' & ->).
      exists p', pm'. split; [exact Hcall'|]. f_equal. lia.
Qed.

(** C4: FreeViz streams partial results. The results [run_freeviz]
    delivers through set_partial_result are, in order, those of its
    iterations: result [k] holds the projector as the [k]-th projector call
    left it and the copy, made in iteration [k], of the model that call
    returned, never the object the projector handed out. Every projector
    call that returns is followed by a delivery, and a result the function
    returns has been delivered before, so the delivery comes before the
    convergence check. [on_partial_result] makes the delivered projector
    and projection the widget's own. *)
Theorem C4_partial_results_streamed :
  forall call fuel data proj (st : TaskState Result), exists evs,
    trace (run_freeviz call fuel data proj st).1
      = trace st ++ SetStatus "计算中..." :: evs /\
    delivered_chain call data proj 0 (partial_results evs) /\
    (forall k res, partial_results evs !! k = Some res ->
       exists p pm,
         call data p = Return pm /\
         projector res = set_initial (components_T pm.1) pm.1 /\
         projection res = Some (copy k pm.2) /\
         (forall n, model_id pm.2 = Ext n -> model_id (copy k pm.2) <> model_id pm.2) /\
         (forall w, on_partial_result res w
                    = Return (mkOWFreeViz (owfreeviz.data w) (Some (projector res))
                                (Some (copy k pm.2)) (optimized w)))) /\
    ((forall e, (run_freeviz call fuel data proj st).2 <> Raise e) ->
       count_steps "projector" evs = length (partial_results evs)) /\
    (forall res, (run_freeviz call fuel data proj st).2 = Return (Some res) ->
       last (partial_results evs) = Some res).
Proof.
  intros call fuel data proj st. rewrite run_freeviz_unfold.
  set (st1 := logged (SetStatus "计算中...") st).
  set (res0 := mkResult proj None).
  destruct (loop_spec call fuel data res0 0 MAX_ITERATIONS st1)
    as (evs & Ht & Hchain & _ & Hend).
  change (components_T (projector res0)) with (components_T proj) in *.
  change (projector res0) with proj in *.
  exists evs. split; [|split; [exact Hchain|split; [|split]]].
  - rewrite Ht. subst st1. cbn. by rewrite <- app_assoc.
  - intros k res Hk.
    destruct (delivered_chain_lookup _ _ _ _ _ _ _ Hchain Hk) as (p & pm & Hcall & ->).
    exists p, pm. cbn. repeat split; try assumption.
    intros n Hn. rewrite Hn. discriminate.
  - intros He.
    destruct (loop call fuel data res0 (components_T proj) 0 MAX_ITERATIONS st1).2
      as [[res|]|e'].
    + by destruct Hend as [Hn _].
    + destruct Hend as [-> ->]. reflexivity.
    + by destruct (He e').
  - intros res Hres. rewrite Hres in Hend. destruct Hend as (_ & prs & -> & _).
    apply last_snoc.
Qed.

(** C4 at work on a projector that settles after fourteen iterations:
    the result returned is the last one delivered, its projection is the
    copy made in iteration 13, and the widget takes both over. *)
Lemma C4_partial_results_streamed_witness :
  exists res,
    (run_freeviz examples.settling_call 50 examples.data3 examples.circle2
       (fresh never)).2 = Return (Some res) /\
    model_id <$> projection res = Some (Copy 13) /\
    on_partial_result res examples.freeviz_widget
      = Return (mkOWFreeViz (Some examples.data3) (Some (projector res))
                  (projection res) false).
Proof.
  destruct (C4_partial_results_streamed examples.settling_call 50 examples.data3
              examples.circle2 (fresh never))
    as (evs & Ht & _ & Hk & _ & Hlast).
  vm_compute in Ht. injection Ht as Ht. subst evs.
  eexists. split; [vm_compute; reflexivity|].
  match goal with |- context [projection ?r] => set (res := r) end.
  specialize (Hlast res eq_refl).
  destruct (Hk 13 res eq_refl) as (p & pm & _ & _ & Hproj & _ & Hinstall).
  split.
  - rewrite Hproj. reflexivity.
  - rewrite (Hinstall examples.freeviz_widget), Hproj. reflexivity.
Defined.






End freeviz_claims.

(** ** The outliers' run splits the data *)

Section outliers_claims.
Import owoutliers.

Lemma where_from_elem k v col i :
  i ∈ where_from k v col <->
  exists j x, i = k + j /\ col !! j = Some x /\ Qeq_bool x v = true.
Proof.
  revert k. induction col as [|y col IH]; intros k; cbn [where_from].
  - split; [intros H; by apply elem_of_nil in H|intros (j & x & _ & H & _); discriminate H].
  - assert (Htail : i ∈ where_from (S k) v col <->
                    exists j x, i = k + S j /\ col !! j = Some x /\ Qeq_bool x v = true).
    { rewrite IH. split; intros (j & x & -> & H); exists j, x; split; auto; lia. }
    destruct (Qeq_bool y v) eqn:Hy.
    + rewrite elem_of_cons, Htail. split.
      * intros [->|(j & x & -> & H)].
        -- exists 0, y. rewrite Nat.add_0_r. auto.
        -- exists (S j), x. auto.
      * intros (j & x & -> & Hj & Hx). destruct j as [|j].
        -- left. lia.
        -- right. exists j, x. auto.
    + rewrite Htail. split.
      * intros (j & x & -> & H). exists (S j), x. auto.
      * intros (j & x & -> & Hj & Hx). destruct j as [|j].
        -- cbn in Hj. injection Hj as ->. congruence.
        -- exists j, x. auto.
Qed.

Lemma where_from_NoDup k v col : NoDup (where_from k v col).
Proof.
  revert k. induction col as [|y col IH]; intros k; cbn [where_from].
  - constructor.
  - destruct (Qeq_bool y v); [|apply IH].
    constructor; [|apply IH].
    rewrite where_from_elem. intros (j & x & Hk & _). lia.
Qed.

Lemma not_both_zero_and_one x : Qeq_bool x 1 = true -> Qeq_bool x 0 = true -> False.
Proof.
  intros H1 H0. apply Qeq_bool_eq in H1, H0. rewrite H1 in H0. discriminate H0.
Qed.

Lemma where_from_lengths k col :
  zero_one col ->
  length (where_from k 1 col) + length (where_from k 0 col) = length col.
Proof.
  intros Hcol. revert k. induction Hcol as [|y col Hy _ IH]; intros k; [reflexivity|].
  cbn [where_from length]. specialize (IH (S k)).
  destruct (Qeq_bool y 1) eqn:H1, (Qeq_bool y 0) eqn:H0; cbn [length].
  - destruct (not_both_zero_and_one y H1 H0).
  - lia.
  - lia.
  - destruct Hy; congruence.
Qed.

(** Indexing with the positions of [v] gives the rows with value [v]. *)
Lemma mapM_where_from v pre rest col :
  length rest = length col ->
  mapM (fun i => (pre ++ rest) !! i) (where_from (length pre) v col)
    = Some (rows_with_value v rest col).
Proof.
  revert pre rest. induction col as [|x col IH]; intros pre rest Hlen.
  - destruct rest; [reflexivity|discriminate Hlen].
  - destruct rest as [|r rest]; [discriminate Hlen|]. injection Hlen as Hlen.
    specialize (IH (pre ++ [r]) rest Hlen).
    rewrite length_app, Nat.add_1_r, <- app_assoc in IH. cbn [app] in IH.
    cbn [where_from rows_with_value]. destruct (Qeq_bool x v); [|exact IH].
    cbn [mapM]. rewrite list_lookup_middle by reflexivity. cbn. rewrite IH. reflexivity.
Qed.

Lemma take_rows_where v t col :
  length col = len t ->
  take_rows (np_where_eq col v) t
    = Return (mkTable (domain t) (rows_with_value v (rows t) col)).
Proof.
  intros Hlen. unfold take_rows, np_where_eq.
  pose proof (mapM_where_from v [] (rows t) col (eq_sym Hlen)) as H.
  change ([] ++ rows t) with (rows t) in H. change (length (@nil (list Q))) with 0 in H.
  rewrite H. reflexivity.
Qed.

Lemma where_from_length_shift v col k k' :
  length (where_from k v col) = length (where_from k' v col).
Proof.
  revert k k'. induction col as [|y col IH]; intros k k'; [reflexivity|].
  cbn [where_from]. destruct (Qeq_bool y v); cbn [length]; auto.
Qed.

Lemma rows_with_value_length v rws col :
  length rws = length col ->
  length (rows_with_value v rws col) = length (np_where_eq col v).
Proof.
  unfold np_where_eq. revert rws. induction col as [|x col IH]; intros rws Hlen.
  - destruct rws; reflexivity.
  - destruct rws as [|r rws]; [discriminate Hlen|]. injection Hlen as Hlen.
    cbn [rows_with_value where_from].
    destruct (Qeq_bool x v); cbn [length];
      rewrite (where_from_length_shift v col 1 0), (IH rws Hlen); reflexivity.
Qed.

(** A progress callback of a run nobody interrupts returns. *)
Lemma callback_quiet i status (st : TaskState unit) :
  quiet st -> exists st', callback i status st = (st', Return tt) /\ quiet st'.
Proof.
  intros Hq. unfold callback, bind, set_progress_value, set_status, emit,
    is_interruption_requested.
  destruct (String.eqb status ""); cbn; rewrite Hq; eexists; split; try reflexivity;
    intros k; apply Hq.
Qed.

Lemma run_script_quiet (cb : Q -> string -> M unit unit) script (st : TaskState unit) :
  (forall i s st0, quiet st0 -> exists st', cb i s st0 = (st', Return tt) /\ quiet st') ->
  quiet st -> exists st', run_script cb script st = (st', Return tt) /\ quiet st'.
Proof.
  intros Hcb. revert st. unfold run_script.
  induction script as [|a script IH]; intros st Hq; cbn [for_each].
  - by exists st.
  - unfold bind at 1. destruct a as [i s|callee].
    + destruct (Hcb i s st Hq) as (st1 & -> & Hq1). apply IH, Hq1.
    + cbn. apply IH. intros k. apply Hq.
Qed.

Lemma bind_return {R A B} (c : M R A) (f : A -> M R B) st st' a :
  c st = (st', Return a) -> bind c f st = f a st'.
Proof. intros H. unfold bind. by rewrite H. Qed.

Lemma wrapped_callback_quiet start end_ i s (st0 : TaskState unit) :
  quiet st0 ->
  exists st', wrap_callback callback start end_ i s st0 = (st', Return tt) /\ quiet st'.
Proof. apply callback_quiet. Qed.

(** C8: the outliers' run splits the data. For a non-empty table, a run
    nobody interrupts, and a learner whose model predicts a column of the
    table's length holding only 0 and 1, [run] returns as inliers the rows
    with value 1 and as outliers the rows with value 0, in table order and
    over the table's domain; these are the rows at the positions
    [np.where] finds, no position is in both, together they are as many as
    the table has rows, and the annotated data is the prediction table.
    For no table or an empty one it returns a Results with all three
    fields None and touches nothing. *)
Theorem C8_run_partitions_data :
  (forall data learner model pred col (st : TaskState unit),
      0 < len data ->
      quiet st ->
      fit learner data = Return model ->
      predict model data = Return pred ->
      get_column (outlier_var model) pred = Return col ->
      length col = len data ->
      zero_one col ->
      exists st' inl outl,
        run (Some data) learner st
          = (st', Return (mkResults (Some inl) (Some outl) (Some pred))) /\
        take_rows (np_where_eq col 1) data = Return inl /\
        take_rows (np_where_eq col 0) data = Return outl /\
        domain inl = domain data /\ domain outl = domain data /\
        rows inl = rows_with_value 1 (rows data) col /\
        rows outl = rows_with_value 0 (rows data) col /\
        (forall i, i ∈ np_where_eq col 1 <->
                   exists x, col !! i = Some x /\ Qeq_bool x 1 = true) /\
        (forall i, i ∈ np_where_eq col 0 <->
                   exists x, col !! i = Some x /\ Qeq_bool x 0 = true) /\
        (forall i, i ∈ np_where_eq col 1 -> i ∉ np_where_eq col 0) /\
        NoDup (np_where_eq col 1) /\ NoDup (np_where_eq col 0) /\
        len inl + len outl = len data) /\
  (forall data learner (st : TaskState unit),
      truthy data = false ->
      run data learner st = (st, Return (mkResults None None None))).
Proof.
  split.
  - intros data learner model pred col st Hlen Hq Hfit Hpredict Hcol Hcollen H01.
    unfold run. destruct (len data =? 0) eqn:Hz; [apply Nat.eqb_eq in Hz; lia|].
    destruct (callback_quiet 0%Q "初始化..." st Hq) as (st1 & H1 & Hq1).
    rewrite (bind_return _ _ _ _ _ H1).
    destruct (run_script_quiet (wrap_callback callback 0 (6 # 10)) (fit_script learner)
                st1 (wrapped_callback_quiet _ _) Hq1) as (st2 & H2 & Hq2).
    unfold call_learner at 1.
    rewrite (bind_return _ _ st1 st2 model)
      by (rewrite (bind_return _ _ _ _ _ H2); unfold lift; by rewrite Hfit).
    destruct (run_script_quiet (wrap_callback callback (6 # 10) (99 # 100))
                (predict_script model) st2 (wrapped_callback_quiet _ _) Hq2)
      as (st3 & H3 & Hq3).
    unfold call_model at 1.
    rewrite (bind_return _ _ st2 st3 pred)
      by (rewrite (bind_return _ _ _ _ _ H3); unfold lift; by rewrite Hpredict).
    rewrite (bind_return _ _ st3 st3 col) by (unfold lift; by rewrite Hcol).
    pose proof (take_rows_where 1 data col Hcollen) as Hin.
    pose proof (take_rows_where 0 data col Hcollen) as Hout.
    rewrite (bind_return _ _ st3 st3 _ (f_equal (pair st3) Hin)).
    rewrite (bind_return _ _ st3 st3 _ (f_equal (pair st3) Hout)).
    destruct (callback_quiet 1%Q "" st3 Hq3) as (st4 & H4 & Hq4).
    rewrite (bind_return _ _ _ _ _ H4).
    eexists st4, _, _. split; [reflexivity|].
    split; [exact Hin|]. split; [exact Hout|]. cbn [domain rows].
    do 4 (split; [reflexivity|]).
    assert (Hwhere : forall v i, i ∈ np_where_eq col v <->
                                 exists x, col !! i = Some x /\ Qeq_bool x v = true).
    { intros v i. unfold np_where_eq. rewrite where_from_elem. split.
      - intros (j & x & -> & H). by exists x.
      - intros (x & H). by exists i, x. }
    split; [apply Hwhere|]. split; [apply Hwhere|]. split; [|split; [|split]].
    + intros i Hi1 Hi0. apply Hwhere in Hi1 as (x & Hx & Hx1).
      apply Hwhere in Hi0 as (x' & Hx' & Hx0). rewrite Hx in Hx'. injection Hx' as <-.
      exact (not_both_zero_and_one x Hx1 Hx0).
    + apply where_from_NoDup.
    + apply where_from_NoDup.
    + unfold len at 1 2. cbn [rows].
      rewrite !rows_with_value_length by (by symmetry).
      unfold np_where_eq. rewrite where_from_lengths by assumption. exact Hcollen.
  - intros [data|] learner st Hempty; [|reflexivity].
    unfold run. cbn in Hempty. apply negb_false_iff in Hempty. by rewrite Hempty.
Qed.

(** C8 at work on three rows, the second of them an outlier. *)
Lemma C8_run_partitions_data_witness :
  exists st' inl outl pred,
    run (Some examples.data3) examples.sign_learner (fresh never)
      = (st', Return (mkResults (Some inl) (Some outl) (Some pred))) /\
    rows inl = [[1; 2]; [5; 5]]%Q /\ rows outl = [[-3; 0]]%Q /\
    len inl + len outl = 3 /\
    run (Some examples.empty_table) examples.sign_learner (fresh never)
      = (fresh never, Return (mkResults None None None)).
Proof.
  destruct C8_run_partitions_data as [Hsplit Hempty].
  destruct (Hsplit examples.data3 examples.sign_learner examples.sign_model
              (mkTable (mkDomain ["x"; "y"] [] ["Outlier"])
                       [[1; 2; 1]; [-3; 0; 0]; [5; 5; 1]]%Q)
              [1; 0; 1]%Q (fresh never))
    as (st' & inl & outl & Hrun & _ & _ & _ & _ & Hinl & Houtl & _ & _ & _ & _ & _ & Hsum).
  - cbn. lia.
  - intros k. reflexivity.
  - reflexivity.
  - reflexivity.
  - reflexivity.
  - reflexivity.
  - unfold zero_one.
    repeat (constructor; [first [left; reflexivity|right; reflexivity]|]).
    constructor.
  - eexists st', inl, outl, _. split; [exact Hrun|].
    split; [exact Hinl|]. split; [exact Houtl|]. split; [exact Hsum|].
    apply Hempty. reflexivity.
Defined.

End outliers_claims.

(** ** The data sampler keeps its outputs on an error *)

Section sampler_claims.
Import owdatasampler.

Lemma sends_nothing_app {T} (a b : list (effect T)) :
  sends_nothing a -> sends_nothing b -> sends_nothing (a ++ b).
Proof. apply Forall_app_2. Qed.

Lemma sends_nothing_messages {T} (ms : list string) :
  @sends_nothing T (map Message ms).
Proof. induction ms; constructor; auto. Qed.

Lemma apply_sends_nothing outputs es :
  sends_nothing es -> apply_sends outputs es = outputs.
Proof.
  induction 1 as [|e es He _ IH]; [reflexivity|].
  destruct e; try discriminate He; exact IH.
Qed.

Lemma sent_on_nothing {T} c (es : list (effect T)) :
  sends_nothing es -> sent_on c es = [].
Proof.
  induction 1 as [|e es He _ IH]; [reflexivity|].
  destruct e; try discriminate He; exact IH.
Qed.

(** Each of the four situations is an error of [updateindices]. *)
Lemma size_and_errors_of_condition lib w t :
  error_condition lib w t ->
  exists size repl errors,
    size_and_errors lib w t = Return (size, repl, errors) /\ errors <> [].
Proof.
  unfold size_and_errors.
  destruct (Z.of_nat (len t) =? 0)%Z eqn:Hz.
  { intros _. do 3 eexists. split; [reflexivity|]. discriminate. }
  apply Z.eqb_neq in Hz.
  intros [Hc|[[Hcv Hfolds]|[(Hfs & Hrepl & Hsize)|(Htype & Hstrat & n & Hn & Hle)]]].
  - lia.
  - rewrite Hcv. cbn [Z.eqb CrossValidation FixedSize FixedProportion Pos.eqb].
    apply Z.ltb_lt in Hfolds. rewrite Hfolds.
    do 3 eexists. split; [reflexivity|]. discriminate.
  - rewrite Hfs, Hrepl. cbn [Z.eqb FixedSize Pos.eqb negb andb].
    apply Z.ltb_lt in Hsize. rewrite Hsize.
    do 3 eexists. split; [reflexivity|]. discriminate.
  - rewrite Hn, Hstrat.
    assert (Hle' : (Z.of_nat (len t) <=? Z.of_nat n)%Z = true) by (apply Z.leb_le; lia).
    destruct Htype as [[Hfs Hrepl]|Hfp].
    + rewrite Hfs, Hrepl. cbn [Z.eqb FixedSize Pos.eqb negb andb]. rewrite Hle'.
      do 3 eexists. split; [reflexivity|].
      destruct (Z.of_nat (len t) <? sampleSizeNumber w)%Z; discriminate.
    + rewrite Hfp. cbn [Z.eqb FixedSize FixedProportion negb andb]. rewrite Hle'.
      do 3 eexists. split; [reflexivity|].
      match goal with |- context [if ?b then _ else _] => destruct b end; discriminate.
Qed.

(** On an error [updateindices] drops the indices, shows the errors and
    samples nothing. *)
Lemma updateindices_error lib w t size repl errors :
  size_and_errors lib w t = Return (size, repl, errors) ->
  errors <> [] ->
  updateindices lib w t
    = Return (set_field_indices None w,
              [ClearMessage "Error"; ClearMessage "Warning"] ++ map Message errors).
Proof.
  intros Hse Herr. unfold updateindices. rewrite Hse.
  destruct errors; [congruence|reflexivity].
Qed.

Lemma clear_and_messages_quiet (errors : list string) :
  @sends_nothing task ([ClearMessage "Error"; ClearMessage "Warning"] ++ map Message errors)
  /\ @calls_nothing task ([ClearMessage "Error"; ClearMessage "Warning"]
                           ++ map Message errors).
Proof.
  split; apply Forall_app_2; try (repeat constructor);
    induction errors; constructor; auto.
Qed.

(** A commit that has to ask [updateindices] returns on its error before
    it sends anything. *)
Lemma commit_error lib w t :
  error_condition lib w t ->
  data w = Some (InMemory t) ->
  indices w = None \/ use_seed w = false ->
  exists es, commit lib w = Return (set_field_indices None w, es) /\ sends_nothing es.
Proof.
  intros Hc Hdata Hask.
  destruct (size_and_errors_of_condition lib w t Hc) as (size & repl & errors & Hse & Herr).
  pose proof (updateindices_error lib w t size repl errors Hse Herr) as Hupd.
  exists ([ClearMessage "Error"; ClearMessage "Warning"] ++ map Message errors).
  split; [|apply clear_and_messages_quiet].
  unfold commit. rewrite Hdata.
  destruct (indices w) as [ind|] eqn:Hind.
  - destruct Hask as [Hask|Hask]; [discriminate Hask|]. rewrite Hask, Hupd. reflexivity.
  - rewrite Hupd. reflexivity.
Qed.

(** [set_data] first lowers the sample size to the number of rows; a
    size within the maximum is left alone, and so is the widget. *)
Lemma update_sample_max_size_within w t :
  data w = Some (InMemory t) ->
  (sampleSizeNumber w <=
     if (len t =? 0)%nat || replacement w then _MAX_SAMPLE_SIZE else Z.of_nat (len t))%Z ->
  _update_sample_max_size w = w.
Proof.
  intros Hdata Hle. unfold _update_sample_max_size, no_data, sampleSizeSpin_setMaximum.
  rewrite Hdata.
  destruct ((len t =? 0) || replacement w).
  - by rewrite (proj2 (Z.ltb_ge _ _) Hle).
  - by rewrite (proj2 (Z.ltb_ge _ _) Hle).
Qed.

(** [set_data] for a table whose error survives the lowering of the
    sample size shows it twice, once for its own [updateindices] and
    once for that of [commit], and sends nothing. *)
Lemma set_data_error lib w t :
  error_condition lib (_update_sample_max_size (set_field_data (Some (InMemory t)) w)) t ->
  exists es,
    set_data lib (Some (InMemory t)) w
      = Return (set_field_indices None
                  (_update_sample_max_size (set_field_data (Some (InMemory t)) w)), es) /\
    sends_nothing es.
Proof.
  set (w1 := _update_sample_max_size (set_field_data (Some (InMemory t)) w)).
  intros Hc.
  assert (Hdata : data w1 = Some (InMemory t)).
  { unfold w1, _update_sample_max_size, sampleSizeSpin_setMaximum.
    repeat case_match; reflexivity. }
  destruct (size_and_errors_of_condition lib w1 t Hc)
    as (size & repl & errors & Hse & Herr).
  pose proof (updateindices_error lib w1 t size repl errors Hse Herr) as Hupd.
  assert (Hc2 : error_condition lib (set_field_indices None w1) t) by exact Hc.
  destruct (commit_error lib (set_field_indices None w1) t Hc2 Hdata (or_introl eq_refl))
    as (es & Hcommit & Hes).
  exists (([ClearMessage "Error"; ClearMessage "Warning"] ++ map Message errors) ++ es).
  split.
  - unfold set_data. fold w1. rewrite Hupd, Hcommit. reflexivity.
  - apply sends_nothing_app; [apply clear_and_messages_quiet|exact Hes].
Qed.

(** C10: on an error the data sampler keeps its outputs. For a table in
    memory, in each of the situations in which [updateindices] shows an
    error (no rows, more folds than rows, a sample larger than the data
    without replacement, too few rows to stratify), [updateindices] sets
    the indices to None without sampling, and a [commit] that asks it
    (the indices are None or sampling is not seeded) returns without
    sending, so every output channel holds what it held before.
    [set_data] lowers the sample size to the number of rows before it
    asks [updateindices]; when the widget it leaves is in one of the
    four situations, [set_data] sends nothing either. *)
Theorem C10_error_keeps_outputs :
  forall lib w t,
    (error_condition lib w t ->
     (exists es,
         updateindices lib w t = Return (set_field_indices None w, es) /\
         sends_nothing es /\ calls_nothing es) /\
     (data w = Some (InMemory t) ->
      indices w = None \/ use_seed w = false ->
      exists es,
        commit lib w = Return (set_field_indices None w, es) /\
        sends_nothing es /\
        forall outputs, apply_sends outputs es = outputs)) /\
    (error_condition lib
       (_update_sample_max_size (set_field_data (Some (InMemory t)) w)) t ->
     exists es,
       set_data lib (Some (InMemory t)) w
         = Return (set_field_indices None
                     (_update_sample_max_size (set_field_data (Some (InMemory t)) w)),
                   es) /\
       sends_nothing es /\
       forall outputs, apply_sends outputs es = outputs).
Proof.
  intros lib w t. split.
  - intros Hc. split.
    + destruct (size_and_errors_of_condition lib w t Hc)
        as (size & repl & errors & Hse & Herr).
      eexists. split; [exact (updateindices_error lib w t size repl errors Hse Herr)|].
      apply clear_and_messages_quiet.
    + intros Hdata Hask.
      destruct (commit_error lib w t Hc Hdata Hask) as (es & Hcommit & Hes).
      exists es. split; [exact Hcommit|]. split; [exact Hes|].
      intros outputs. by apply apply_sends_nothing.
  - intros Hc. destruct (set_data_error lib w t Hc) as (es & Hset & Hes).
    exists es. split; [exact Hset|]. split; [exact Hes|].
    intros outputs. by apply apply_sends_nothing.
Qed.

(** C10 at work: three rows, ten asked for without replacement. The
    commit shows the error and the outputs stay as an earlier commit left
    them. *)
Lemma C10_error_keeps_outputs_witness :
  exists es,
    commit examples.sampler_lib examples.greedy_sampler
      = Return (examples.greedy_sampler, es) /\
    es = [ClearMessage "Error"; ClearMessage "Warning";
          Message "sample_larger_than_data"] /\
    apply_sends examples.earlier_outputs es = examples.earlier_outputs.
Proof.
  destruct (C10_error_keeps_outputs examples.sampler_lib examples.greedy_sampler
              examples.data3) as (Herror & _).
  destruct Herror as (_ & Hcommit).
  { right. right. left. repeat split. }
  destruct (Hcommit eq_refl (or_introl eq_refl)) as (es & Heq & _ & Hout).
  exists es. split; [exact Heq|]. split; [|apply Hout].
  vm_compute in Heq. by injection Heq as <-.
Defined.


(** Three rows given to a widget asked for ten without replacement:
    [set_data] lowers the size to three, so there is no error, and the
    sample is sent. *)
Example set_data_lowers_the_sample_size :
  exists w' es,
    set_data examples.sampler_lib (Some (InMemory examples.data3)) examples.greedy_sampler
      = Return (w', es) /\
    sampleSizeNumber w' = 3%Z /\
    (Message "sample_larger_than_data" ∉ es) /\
    sent_on "data_sample" es
      = [PyTable (mkTable (domain examples.data3) [[1; 2]]%Q)].
Proof.
  eexists _, _. split; [reflexivity|]. split; [reflexivity|].
  split; [|reflexivity].
  intros Hin. repeat (apply elem_of_cons in Hin as [Hin|Hin]; [discriminate Hin|]).
  by apply elem_of_nil in Hin.
Qed.

End sampler_claims.

(** ** What the widgets send *)

Section output_claims.






(** [updateindices] never sends. *)
Lemma updateindices_sends_nothing lib w t w' es :
  owdatasampler.updateindices lib w t = Return (w', es) -> sends_nothing es.
Proof.
  unfold owdatasampler.updateindices.
  destruct (owdatasampler.size_and_errors lib w t) as [[[size repl] errors]|]; [|discriminate].
  destruct (negb (length errors =? 0)).
  { intros H. injection H as _ <-. apply clear_and_messages_quiet. }
  match goal with |- context [if ?b then [Message "bigger_sample"] else []] =>
    destruct b end;
  destruct (owdatasampler.sample lib w t (len t) size _) as [ind|[]];
    try discriminate;
    try (intros H; injection H as _ <-; repeat constructor);
  destruct (owdatasampler.sample lib w t (len t) size false) as [ind|];
    try discriminate; intros H; injection H as _ <-; repeat constructor.
Qed.

(** What [unpack_indices] hands to [commit]: two index arrays, two
    pairs of index arrays, or, from a pair of arrays cached before the
    sampling type became cross validation, two integers. *)
Lemma unpack_indices_shapes w ind remaining sample :
  owdatasampler.unpack_indices w ind = Return (remaining, sample) ->
  (exists a b, remaining = owdatasampler.Rows a /\ sample = owdatasampler.Rows b) \/
  (exists a b c d,
      remaining = owdatasampler.RowsCols a b /\ sample = owdatasampler.RowsCols c d) \/
  (owdatasampler.sampling_type w = owdatasampler.CrossValidation /\
   (exists a b, ind = owdatasampler.Pair a b) /\
   exists i j, remaining = owdatasampler.Row i /\ sample = owdatasampler.Row j).
Proof.
  unfold owdatasampler.unpack_indices.
  destruct (_ || _).
  { destruct ind as [a b|fs].
    - intros H. injection H as <- <-. left. eauto.
    - destruct fs as [|[a b] [|[c d] [|]]]; try discriminate.
      intros H. injection H as <- <-. right. left. eauto 6. }
  destruct (Z.eqb_spec (owdatasampler.sampling_type w) owdatasampler.CrossValidation)
    as [Hcv|_]; [|discriminate].
  destruct ind as [a b|fs].
  - destruct (py_index [a; b] _) as [[|i [|j [|]]]|]; try discriminate.
    destruct (owdatasampler.compatibility_mode w);
      intros H; injection H as <- <-; right; right; eauto 8.
  - destruct (py_index fs _) as [[a b]|]; [|discriminate].
    destruct (owdatasampler.compatibility_mode w);
      intros H; injection H as <- <-; left; eauto.
Qed.

(** Indices of the shape of the sampling type unpack into index
    arrays. *)
Lemma unpack_matching_indices w ind remaining sample :
  matching_indices w ind ->
  owdatasampler.unpack_indices w ind = Return (remaining, sample) ->
  exists a b, remaining = owdatasampler.Rows a /\ sample = owdatasampler.Rows b.
Proof.
  intros Hm. unfold owdatasampler.unpack_indices.
  destruct ind as [a b|fs]; cbn in Hm.
  - destruct (_ || _); [intros H; injection H as <- <-; eauto|].
    destruct (Z.eqb_spec (owdatasampler.sampling_type w) owdatasampler.CrossValidation);
      [contradiction|discriminate].
  - rewrite Hm. cbn [Z.eqb owdatasampler.CrossValidation owdatasampler.FixedProportion
                       owdatasampler.FixedSize owdatasampler.Bootstrap orb Pos.eqb].
    destruct (py_index fs _) as [[a b]|]; [|discriminate].
    destruct (owdatasampler.compatibility_mode w);
      intros H; injection H as <- <-; eauto.
Qed.

Lemma take_rows_domain ind t s :
  take_rows ind t = Return s -> domain s = domain t.
Proof.
  unfold take_rows. destruct (mapM _ ind); [|discriminate].
  intros H. by injection H as <-.
Qed.

(** [data[sel]] is a table, or for an integer a row instance over the
    domain of the data. *)
Lemma getitem_value lib t sel v :
  owdatasampler.getitem lib t sel = Return v ->
  match sel with
  | owdatasampler.Rows ind => exists s, v = PyTable s /\ take_rows ind t = Return s
  | owdatasampler.Row i => exists r, v = PyInstance (domain t) r /\ rows t !! i = Some r
  | owdatasampler.RowsCols _ _ => exists s, v = PyTable s
  end.
Proof.
  destruct sel as [ind|i|r c]; cbn [owdatasampler.getitem].
  - destruct (take_rows ind t) as [s|]; [|discriminate].
    intros H. injection H as <-. eauto.
  - unfold take_row. destruct (rows t !! i) as [r|]; [|discriminate].
    intros H. injection H as <-. eauto.
  - destruct (owdatasampler.getitem_rows_cols lib t r c) as [s|]; [|discriminate].
    intros H. injection H as <-. eauto.
Qed.

(** What [commit] does once it has the indices. *)
Lemma send_sample_spec lib w t ind before w' es :
  owdatasampler.send_sample lib w t ind before = Return (w', es) ->
  exists remaining sample s o,
    owdatasampler.unpack_indices w ind = Return (remaining, sample) /\
    owdatasampler.getitem lib t sample = Return s /\
    owdatasampler.getitem lib t remaining = Return o /\
    w' = owdatasampler.set_field_instances
           (Some (owdatasampler.py_len s)) (Some (owdatasampler.py_len o)) w /\
    es = before ++ [Send "data_sample" s; Send "remaining_data" o].
Proof.
  unfold owdatasampler.send_sample.
  destruct (owdatasampler.unpack_indices w ind) as [[remaining sample]|]; [|discriminate].
  destruct (owdatasampler.getitem lib t sample) as [s|] eqn:Hs; [|discriminate].
  destruct (owdatasampler.getitem lib t remaining) as [o|] eqn:Ho; [|discriminate].
  intros H. injection H as <- <-. by exists remaining, sample, s, o.
Qed.





(** What [updateindices] leaves behind when it returns: nothing sent, and
    either no indices and no call of the sampler, or indices and a call. *)
Lemma updateindices_spec lib w t w' es :
  owdatasampler.updateindices lib w t = Return (w', es) ->
  sends_nothing es /\
  ((w' = owdatasampler.set_field_indices None w /\ (Call "sample" ∉ es) /\
    exists size repl errors,
      owdatasampler.size_and_errors lib w t = Return (size, repl, errors) /\ errors <> [])
   \/
   (exists ind, w' = owdatasampler.set_field_indices (Some ind) w /\ Call "sample" ∈ es /\
    exists size repl, owdatasampler.size_and_errors lib w t = Return (size, repl, []))).
Proof.
  intros Hupd. split; [exact (updateindices_sends_nothing lib w t w' es Hupd)|].
  revert Hupd. unfold owdatasampler.updateindices.
  destruct (owdatasampler.size_and_errors lib w t) as [[[size repl] errors]|]; [|discriminate].
  destruct errors as [|e errors]; cbn [length Nat.eqb negb].
  - intros Hupd. right.
    destruct (owdatasampler.sample lib w t (len t) size _) as [ind|ex].
    + injection Hupd as <- <-. exists ind. split; [reflexivity|].
      split; [|by eauto]. set_solver.
    + destruct ex; try discriminate Hupd.
      destruct (owdatasampler.sample lib w t (len t) size false) as [ind|]; [|discriminate Hupd].
      injection Hupd as <- <-. exists ind. split; [reflexivity|].
      split; [|by eauto]. set_solver.
  - intros Hupd. injection Hupd as <- <-. left. split; [reflexivity|].
    split; [|by eauto 6].
    intros Hin. cbn in Hin. apply elem_of_cons in Hin as [|Hin]; [discriminate|].
    apply elem_of_cons in Hin as [|Hin]; [discriminate|].
    apply elem_of_cons in Hin as [|Hin]; [discriminate|].
    apply list_elem_of_In, in_map_iff in Hin as (m & Hm & _). discriminate.
Qed.


(** A commit over a table in memory either returns without indices and
    without sending, or goes on with indices: the cached ones when the
    seed is in use, those [updateindices] has just stored otherwise. *)
Lemma commit_in_memory lib w t w' es :
  owdatasampler.data w = Some (owdatasampler.InMemory t) ->
  owdatasampler.commit lib w = Return (w', es) ->
  (owdatasampler.indices w' = None /\ sends_nothing es) \/
  (exists ind before,
      owdatasampler.send_sample lib (owdatasampler.set_field_indices (Some ind) w)
        t ind before = Return (w', es) /\
      sends_nothing before /\
      ((before = [] /\ owdatasampler.indices w = Some ind
        /\ owdatasampler.use_seed w = true)
       \/
       (owdatasampler.updateindices lib w t
          = Return (owdatasampler.set_field_indices (Some ind) w, before)
        /\ (owdatasampler.indices w = None \/ owdatasampler.use_seed w = false)))).
Proof.
  intros Hdata. unfold owdatasampler.commit. rewrite Hdata.
  assert (Hupdated :
            owdatasampler.indices w = None \/ owdatasampler.use_seed w = false ->
            match owdatasampler.updateindices lib w t with
            | Raise ex => Raise ex
            | Return (w0, es0) =>
                match owdatasampler.indices w0 with
                | None => Return (w0, es0)
                | Some ind' => owdatasampler.send_sample lib w0 t ind' es0
                end
            end = Return (w', es) ->
            (owdatasampler.indices w' = None /\ sends_nothing es) \/
            (exists ind before,
                owdatasampler.send_sample lib
                  (owdatasampler.set_field_indices (Some ind) w) t ind before
                  = Return (w', es) /\
                sends_nothing before /\
                ((before = [] /\ owdatasampler.indices w = Some ind
                  /\ owdatasampler.use_seed w = true)
                 \/
                 (owdatasampler.updateindices lib w t
                    = Return (owdatasampler.set_field_indices (Some ind) w, before)
                  /\ (owdatasampler.indices w = None
                      \/ owdatasampler.use_seed w = false))))).
  { intros Hask.
    destruct (owdatasampler.updateindices lib w t) as [[w0 es0]|] eqn:Hupd; [|discriminate].
    destruct (updateindices_spec lib w t w0 es0 Hupd)
      as [Hquiet [(-> & _)|(ind & -> & _)]];
      cbn [owdatasampler.indices owdatasampler.set_field_indices].
    - intros H. injection H as <- <-. left. by split.
    - intros H. right. exists ind, es0. split; [exact H|]. split; [exact Hquiet|].
      right. by split. }
  destruct (owdatasampler.indices w) as [ind|] eqn:Hind; [|apply Hupdated; by left].
  destruct (owdatasampler.use_seed w) eqn:Hseed; [|apply Hupdated; by right].
  intros H. right. exists ind, []. split; [|split; [constructor|by left]].
  replace (owdatasampler.set_field_indices (Some ind) w) with w; [exact H|].
  destruct w. cbn in Hind. by subst.
Qed.




End output_claims.

(** ** Where the long computations run *)

Section background_claims.

Lemma started_app {T} (a b : list (effect T)) : started (a ++ b) = started a ++ started b.
Proof.
  induction a as [|e a IH]; [reflexivity|]. destruct e; cbn; rewrite ?IH; reflexivity.
Qed.

Lemma run_checks_messages_and_calls allowed
    (checks : list (Table -> list (effect owdistances.task) * option Table)) :
  Forall (fun check => forall d, only_messages_and_calls allowed (check d).1) checks ->
  forall d, only_messages_and_calls allowed (owdistances.run_checks checks d).1.
Proof.
  induction 1 as [|check checks Hcheck _ IH]; intros d; cbn [owdistances.run_checks].
  - constructor.
  - specialize (Hcheck d). destruct (check d) as [msgs [d'|]]; [|exact Hcheck].
    specialize (IH d'). destruct (owdistances.run_checks checks d') as [msgs' r].
    apply Forall_app_2; assumption.
Qed.

Lemma messages_and_calls_quiet {T} allowed (es : list (effect T)) :
  only_messages_and_calls allowed es -> started es = [] /\ sends_nothing es.
Proof.
  induction 1 as [|e es [[m ->]|(c & -> & _)] _ (IH1 & IH2)].
  - split; constructor.
  - split; [exact IH1|by constructor].
  - split; [exact IH1|by constructor].
Qed.

Lemma allowed_nil {T} allowed : @only_messages_and_calls T allowed [].
Proof. constructor. Qed.

Lemma allowed_message {T} allowed m (es : list (effect T)) :
  only_messages_and_calls allowed es ->
  only_messages_and_calls allowed (Message m :: es).
Proof. intros H. constructor; [left; by exists m|exact H]. Qed.

Lemma allowed_call {T} allowed c (es : list (effect T)) :
  c ∈ allowed ->
  only_messages_and_calls allowed es ->
  only_messages_and_calls allowed (Call c :: es).
Proof. intros Hc H. constructor; [right; by exists c|exact H]. Qed.

(** The checks of [compute_distances] show messages and call the
    preprocessors, nothing else: no metric is computed, no task started
    and nothing sent. *)
Lemma compute_distances_checks lib tab self metric_def d :
  only_messages_and_calls preprocessors
    (owdistances.run_checks
       [ owdistances._check_sparse lib tab metric_def;
         owdistances._check_tractability self metric_def;
         owdistances._fix_discrete lib tab self metric_def;
         owdistances._fix_missing lib tab metric_def;
         owdistances._fix_nonbinary lib tab metric_def ] d).1.
Proof.
  apply run_checks_messages_and_calls.
  repeat constructor; intros d';
    unfold owdistances._check_sparse, owdistances._check_tractability,
      owdistances._fix_discrete, owdistances._fix_missing, owdistances._fix_nonbinary;
    repeat match goal with |- context [if ?b then _ else _] => destruct b end;
    cbn [fst];
    repeat first [apply allowed_nil
                 |apply allowed_message
                 |apply allowed_call; [unfold preprocessors; set_solver|]].
Qed.

(** [OWOutliers.commit] resets the counts, clears two errors and starts
    the task of the method and the parameters now selected. *)
Lemma outliers_commit_spec w w' es :
  owoutliers.commit w = Return (w', es) ->
  exists cls kw,
    py_index owoutliers.METHODS (owoutliers.outlier_method w) = Return cls /\
    owoutliers.get_parameters w = Return kw /\
    w' = owoutliers.set_field_counts None None w /\
    es = [ClearMessage "singular_cov"; ClearMessage "memory_error";
          Start (owoutliers.mkTask (owoutliers.data w) cls kw)].
Proof.
  unfold owoutliers.commit.
  change (owoutliers.get_parameters (owoutliers.set_field_counts None None w))
    with (owoutliers.get_parameters w).
  change (owoutliers.outlier_method (owoutliers.set_field_counts None None w))
    with (owoutliers.outlier_method w).
  destruct (py_index _ _) as [cls|]; [|discriminate].
  destruct (owoutliers.get_parameters _) as [kw|]; [|discriminate].
  intros H. injection H as <- <-. by exists cls, kw.
Qed.

Lemma outliers_commit_starts_one w w' es :
  owoutliers.commit w = Return (w', es) ->
  exists cls kw, started es = [owoutliers.mkTask (owoutliers.data w) cls kw].
Proof.
  intros H. apply outliers_commit_spec in H as (cls & kw & _ & _ & _ & ->).
  by exists cls, kw.
Qed.

(** C1, as the code has it: outlier detection, the distance matrix and
    the FreeViz optimization run on a background task. The commits of
    [OWOutliers] and [OWDistances] and [OWFreeViz._run] (when there is
    data) hand exactly one task over to [start], with the widget's data
    and settings, and send nothing themselves. [OWOutliers.commit]
    calls into no library. [OWDistances.commit] prepares the data
    itself: before it starts the task it shows messages and calls
    [bn.anynan] and the preprocessors of [distance] (imputation,
    removal of features), and the task gets the data these checks
    leave, or None when one of them fails; the metric is not called
    there. The manifold embedding does not run on a task:
    [OWManifoldLearning.commit] starts none; for a non-empty dense
    table it calls the projector itself, and it always ends by sending
    the transformed data. *)
Theorem C1_background_tasks :
  (forall w w' es,
      owoutliers.commit w = Return (w', es) ->
      (exists cls kw, started es = [owoutliers.mkTask (owoutliers.data w) cls kw]) /\
      calls_nothing es /\ sends_nothing es) /\
  (forall lib tab w w' es,
      owdistances.commit lib tab w = Return (w', es) ->
      exists m msgs d,
        owdistances.assoc (owdistances.metric_id w) owdistances.MetricDefs = Some m /\
        es = ClearMessages :: msgs ++
             [Start (owdistances.mkTask d (owdistances.metric m)
                       (owdistances.normalize m) (owdistances.axis w))] /\
        only_messages_and_calls preprocessors msgs /\
        (msgs, d) = match owdistances.data w with
                    | None => ([], None)
                    | Some data =>
                        owdistances.run_checks
                          [ owdistances._check_sparse lib tab m;
                            owdistances._check_tractability w m;
                            owdistances._fix_discrete lib tab w m;
                            owdistances._fix_missing lib tab m;
                            owdistances._fix_nonbinary lib tab m ] data
                    end /\
        started es = [owdistances.mkTask d (owdistances.metric m)
                        (owdistances.normalize m) (owdistances.axis w)] /\
        sends_nothing es) /\
  (forall effective_data w d,
      owfreeviz.data w = Some d ->
      owfreeviz._run effective_data w
        = [Start (owfreeviz.mkTask (effective_data d) (owfreeviz.widget_projector w))]) /\
  (forall lib w w' es,
      owmanifoldlearning.commit lib w = Return (w', es) ->
      starts_nothing es /\
      (exists pre v, es = pre ++ [Send "transformed_data" v]) /\
      (forall d, owmanifoldlearning.data w = Some d -> 0 < len d ->
                 owmanifoldlearning.is_sparse lib d = false ->
                 exists method, Call method ∈ es)).
Proof.
  split; [|split; [|split]].
  - intros w w' es. unfold owoutliers.commit.
    destruct (py_index _ _) as [cls|]; [|discriminate].
    destruct (owoutliers.get_parameters _) as [kw|]; [|discriminate].
    intros H. injection H as _ <-. split; [by exists cls, kw|].
    split; repeat constructor.
  - intros lib tab w w' es. unfold owdistances.commit, owdistances.compute_distances.
    destruct (owdistances.assoc _ _) as [m|]; [|discriminate].
    destruct (owdistances.data w) as [d|].
    + pose proof (compute_distances_checks lib tab w m d) as Hmsgs.
      destruct (owdistances.run_checks _ d) as [msgs d'] eqn:Hchecks.
      change (only_messages_and_calls preprocessors msgs) in Hmsgs.
      destruct (messages_and_calls_quiet _ _ Hmsgs) as (Hs & Hn).
      intros H. injection H as _ <-. exists m, msgs, d'.
      split; [reflexivity|]. split; [reflexivity|]. split; [exact Hmsgs|].
      split; [by rewrite Hchecks|]. split.
      * cbn [started]. rewrite started_app, Hs. reflexivity.
      * constructor; [reflexivity|]. apply Forall_app_2; [exact Hn|repeat constructor].
    + intros H. injection H as _ <-. exists m, [], None.
      split; [reflexivity|]. split; [reflexivity|]. split; [constructor|].
      split; [reflexivity|]. split; [reflexivity|repeat constructor].
  - intros effective_data w d Hd. unfold owfreeviz._run. by rewrite Hd.
  - intros lib w w' es H. split; [|split].
    + apply Forall_forall. intros e _. by destruct e.
    + revert H. unfold owmanifoldlearning.commit.
      destruct (py_index _ _) as [method|]; [|discriminate].
      destruct (owmanifoldlearning.data w) as [data|].
      2:{ intros H. injection H as _ <-. by exists [ClearMessages], PyNone. }
      destruct (negb (truthy (Some data))).
      { intros H. injection H as _ <-. by exists [ClearMessages], PyNone. }
      destruct (owmanifoldlearning.is_sparse lib data).
      { intros H. injection H as _ <-.
        by exists [ClearMessages; Message "sparse_not_supported"], PyNone. }
      destruct (owmanifoldlearning.project lib method _ data) as [warnings r].
      set (before := ClearMessages :: Call method
                       :: owmanifoldlearning.warning_effects warnings).
      destruct r as [[embedding|X]|[]]; try discriminate;
        intros H; injection H as _ <-.
      * by exists before, (PyTable embedding).
      * by eexists before, _.
      * eexists (before ++ [_]), PyNone. by rewrite <- app_assoc.
      * eexists (before ++ [_]), PyNone. by rewrite <- app_assoc.
      * eexists (before ++ [_]), PyNone. by rewrite <- app_assoc.
    + intros d Hd Hlen Hsparse. revert H. unfold owmanifoldlearning.commit.
      destruct (py_index _ _) as [method|]; [|discriminate].
      rewrite Hd. cbn [truthy].
      destruct (len d =? 0) eqn:Hz; [apply Nat.eqb_eq in Hz; lia|]. cbn [negb].
      rewrite Hsparse.
      destruct (owmanifoldlearning.project lib method _ d) as [warnings r].
      exists method.
      destruct r as [[embedding|X]|[]]; try discriminate;
        injection H as _ <-; right; left.
Qed.

(** C1 as stated fails for the manifold embedding: on three rows the
    commit of [OWManifoldLearning] calls the MDS projector itself and
    sends the embedding; it starts no task. *)
Lemma C1_manifold_commit_is_synchronous :
  owmanifoldlearning.commit examples.manifold_lib examples.manifold_widget
    = Return (examples.manifold_widget,
              [ClearMessages; Call "MDS";
               Send "transformed_data"
                 (PyTable (mkTable (mkDomain ["C0"; "C1"] [] [])
                                   [[1; 2]; [-3; 0]; [5; 5]]%Q))]) /\
  ~ (forall lib w w' es,
        owmanifoldlearning.commit lib w = Return (w', es) ->
        (exists t, started es = [t]) /\ calls_nothing es /\ sends_nothing es).
Proof.
  split; [reflexivity|].
  intros H.
  destruct (H examples.manifold_lib examples.manifold_widget _ _ eq_refl)
    as (_ & Hcalls & _).
  apply Forall_cons in Hcalls as [_ Hcalls]. apply Forall_cons in Hcalls as [Hcall _].
  discriminate Hcall.
Qed.

(** C1 at work: the three widgets that start a task, the distance
    widget imputing missing values in its commit before it starts the
    task, and the one widget that starts none. *)
Lemma C1_background_tasks_witness :
  (exists w' es cls kw,
      owoutliers.commit examples.outliers_widget = Return (w', es) /\
      started es = [owoutliers.mkTask (Some examples.data3) cls kw] /\
      sends_nothing es) /\
  (exists es, owdistances.commit examples.dist_lib examples.table_lib
                examples.distances_widget = Return (examples.distances_widget, es) /\
              started es = [owdistances.mkTask (Some examples.data3) distance.Euclidean
                              true 0] /\
              sends_nothing es) /\
  (exists es, owdistances.commit examples.strict_dist_lib examples.holey_table_lib
                examples.distances_widget = Return (examples.distances_widget, es) /\
              es = [ClearMessages; Call "bn.anynan"; Message "imputing_data";
                    Call "distance.impute";
                    Start (owdistances.mkTask (Some examples.data3) distance.Euclidean
                             true 0)] /\
              sends_nothing es) /\
  owfreeviz._run (fun t => t) examples.freeviz_widget
    = [Start (owfreeviz.mkTask examples.data3 (Some examples.circle2))] /\
  (exists es, owmanifoldlearning.commit examples.manifold_lib examples.manifold_widget
                = Return (examples.manifold_widget, es) /\
              starts_nothing es /\ Call "MDS" ∈ es).
Proof.
  destruct C1_background_tasks as (Houtliers & Hdistances & Hfreeviz & Hmanifold).
  split; [|split; [|split; [|split]]].
  - destruct (owoutliers.commit examples.outliers_widget) as [[w' es]|] eqn:Hcommit;
      [|discriminate Hcommit].
    destruct (Houtliers _ _ _ Hcommit) as ((cls & kw & Hstarted) & _ & Hsends).
    by exists w', es, cls, kw.
  - destruct (owdistances.commit examples.dist_lib examples.table_lib
                examples.distances_widget) as [[w' es]|] eqn:Hcommit;
      [|discriminate Hcommit].
    destruct (Hdistances _ _ _ _ _ Hcommit)
      as (m & msgs & d & Hm & _ & _ & _ & Hstarted & Hsends).
    injection Hcommit as <- <-.
    eexists. split; [reflexivity|]. split; [reflexivity|]. exact Hsends.
  - destruct (owdistances.commit examples.strict_dist_lib examples.holey_table_lib
                examples.distances_widget) as [[w' es]|] eqn:Hcommit;
      [|discriminate Hcommit].
    destruct (Hdistances _ _ _ _ _ Hcommit)
      as (m & msgs & d & Hm & _ & _ & _ & Hstarted & Hsends).
    injection Hcommit as <- <-.
    eexists. split; [reflexivity|]. split; [reflexivity|]. exact Hsends.
  - exact (Hfreeviz (fun t => t) examples.freeviz_widget examples.data3 eq_refl).
  - destruct (Hmanifold examples.manifold_lib examples.manifold_widget
                examples.manifold_widget
                [ClearMessages; Call "MDS";
                 Send "transformed_data"
                   (PyTable (mkTable (mkDomain ["C0"; "C1"] [] [])
                                     [[1; 2]; [-3; 0]; [5; 5]]%Q))] eq_refl)
      as (Hstarts & _ & Hcall).
    eexists. split; [reflexivity|]. split; [exact Hstarts|].
    right. left.
Defined.

(** ** One commit, at once or deferred *)

(** The mark of uncommitted changes does not enter the commit. *)
Lemma commit_ignores_dirty b w :
  owoutliers.commit (owoutliers.set_field_commit_dirty b w)
  = match owoutliers.commit w with
    | Return (w', es) => Return (owoutliers.set_field_commit_dirty b w', es)
    | Raise ex => Raise ex
    end.
Proof.
  unfold owoutliers.commit.
  change (owoutliers.get_parameters
            (owoutliers.set_field_counts None None
               (owoutliers.set_field_commit_dirty b w)))
    with (owoutliers.get_parameters (owoutliers.set_field_counts None None w)).
  change (owoutliers.outlier_method
            (owoutliers.set_field_counts None None
               (owoutliers.set_field_commit_dirty b w)))
    with (owoutliers.outlier_method (owoutliers.set_field_counts None None w)).
  destruct (py_index _ _) as [cls|]; [|reflexivity].
  destruct (owoutliers.get_parameters _) as [kw|]; reflexivity.
Qed.

(** A second commit right after the first does the same again. *)
Lemma commit_again w w' es :
  owoutliers.commit w = Return (w', es) -> owoutliers.commit w' = Return (w', es).
Proof.
  intros H. destruct (outliers_commit_spec w w' es H) as (cls & kw & Hcls & Hkw & -> & ->).
  unfold owoutliers.commit.
  change (owoutliers.get_parameters
            (owoutliers.set_field_counts None None
               (owoutliers.set_field_counts None None w)))
    with (owoutliers.get_parameters w).
  change (owoutliers.outlier_method
            (owoutliers.set_field_counts None None
               (owoutliers.set_field_counts None None w)))
    with (owoutliers.outlier_method w).
  rewrite Hcls, Hkw. reflexivity.
Qed.

Lemma repeat_deferred_off n w :
  owoutliers.auto_commit w = false -> 0 < n ->
  gui.repeat_handler owoutliers.param_changed n w
    = Return (owoutliers.set_field_commit_dirty true w, []).
Proof.
  intros Hauto Hn. destruct n as [|n]; [lia|]. clear Hn.
  revert w Hauto. induction n as [|n IH]; intros w Hauto.
  - cbn. unfold owoutliers.param_changed, owoutliers.commit_deferred, gui.deferred.
    by rewrite Hauto.
  - cbn [gui.repeat_handler].
    unfold owoutliers.param_changed at 1, owoutliers.commit_deferred, gui.deferred.
    rewrite Hauto.
    specialize (IH (owoutliers.set_field_commit_dirty true w) Hauto).
    cbn [gui.repeat_handler] in IH. rewrite IH. reflexivity.
Qed.

(** With auto-commit on every parameter change commits. *)
Lemma param_changed_on w w' es :
  owoutliers.auto_commit w = true ->
  owoutliers.commit w = Return (w', es) ->
  owoutliers.param_changed w
    = Return (owoutliers.set_field_commit_dirty false w', es).
Proof.
  intros Hauto Hcommit.
  unfold owoutliers.param_changed, owoutliers.commit_deferred, gui.deferred,
    gui.do_commit.
  rewrite Hauto, Hcommit. reflexivity.
Qed.

Lemma repeat_deferred_on n w w' es :
  owoutliers.auto_commit w = true ->
  owoutliers.commit w = Return (w', es) ->
  gui.repeat_handler owoutliers.param_changed (S n) w
    = Return (owoutliers.set_field_commit_dirty false w', concat (replicate (S n) es)).
Proof.
  intros Hauto Hcommit.
  assert (Hstep : owoutliers.param_changed (owoutliers.set_field_commit_dirty false w')
                  = Return (owoutliers.set_field_commit_dirty false w', es)).
  { destruct (outliers_commit_spec w w' es Hcommit) as (cls & kw & _ & _ & Hw' & _).
    rewrite (param_changed_on _ (owoutliers.set_field_commit_dirty false w') es).
    - reflexivity.
    - by rewrite Hw'.
    - rewrite commit_ignores_dirty, (commit_again w w' es Hcommit). reflexivity. }
  cbn [gui.repeat_handler]. rewrite (param_changed_on w w' es Hauto Hcommit).
  assert (Hrest : forall k,
             gui.repeat_handler owoutliers.param_changed k
               (owoutliers.set_field_commit_dirty false w')
             = Return (owoutliers.set_field_commit_dirty false w',
                       concat (replicate k es))).
  { induction k as [|k IH]; [reflexivity|].
    cbn [gui.repeat_handler]. rewrite Hstep, IH. reflexivity. }
  rewrite Hrest. reflexivity.
Qed.

Lemma started_repeated {T} (es : list (effect T)) n :
  started (concat (replicate n es)) = concat (replicate n (started es)).
Proof.
  induction n as [|n IH]; [reflexivity|].
  cbn [replicate concat]. by rewrite started_app, IH.
Qed.

(** C5, as the code has it: output recomputation goes through one
    commit. When a dataset arrives, [OWOutliers.set_data] runs the
    commit at once (commit.now), whatever the auto-commit setting: it
    starts the task of the new data with the method and parameters
    selected. A parameter change calls commit.deferred. With
    auto-commit off nothing is recomputed, however often the
    parameters change, the widget is only marked, and one press of the
    apply button then runs the commit once. With auto-commit on, which
    is the default, nothing is coalesced: every parameter change runs
    the commit at once, and [n] changes in a row start [n] tasks. On
    every path it is the same commit: on the same widget state it
    starts the same task with the same arguments. *)
Theorem C5_coalesced_commit :
  (forall d w w1 msgs w2 es,
      owoutliers.enable_controls (owoutliers.set_field_data d w) = Return (w1, msgs) ->
      owoutliers.commit w1 = Return (w2, es) ->
      owoutliers.set_data d w
        = Return (owoutliers.set_field_commit_dirty false w2,
                  ClearMessage "download_sql_data" :: Cancel :: ClearMessages
                    :: msgs ++ es) /\
      exists cls kw,
        py_index owoutliers.METHODS (owoutliers.outlier_method w1) = Return cls /\
        owoutliers.get_parameters w1 = Return kw /\
        started (ClearMessage "download_sql_data" :: Cancel :: ClearMessages
                   :: msgs ++ es)
          = [owoutliers.mkTask d cls kw]) /\
  (forall n w,
      owoutliers.auto_commit w = false -> 0 < n ->
      gui.repeat_handler owoutliers.param_changed n w
        = Return (owoutliers.set_field_commit_dirty true w, [])) /\
  (forall n w w' es,
      owoutliers.auto_commit w = true ->
      owoutliers.commit w = Return (w', es) ->
      gui.repeat_handler owoutliers.param_changed (S n) w
        = Return (owoutliers.set_field_commit_dirty false w',
                  concat (replicate (S n) es)) /\
      length (started (concat (replicate (S n) es))) = S n) /\
  (forall w w' es,
      owoutliers.commit w = Return (w', es) ->
      owoutliers.commit_now w
        = Return (owoutliers.set_field_commit_dirty false w', es) /\
      owoutliers.apply_clicked (owoutliers.set_field_commit_dirty true w)
        = Return (owoutliers.set_field_commit_dirty false w', es) /\
      (owoutliers.auto_commit w = true ->
       owoutliers.param_changed w
         = Return (owoutliers.set_field_commit_dirty false w', es)) /\
      exists cls kw,
        py_index owoutliers.METHODS (owoutliers.outlier_method w) = Return cls /\
        owoutliers.get_parameters w = Return kw /\
        started es = [owoutliers.mkTask (owoutliers.data w) cls kw]).
Proof.
  split; [|split; [|split]].
  - intros d w w1 msgs w2 es Hen Hcommit.
    unfold owoutliers.set_data, check_sql_input, owoutliers.commit_now, gui.now,
      gui.do_commit.
    rewrite Hen, Hcommit. split; [reflexivity|].
    destruct (outliers_commit_spec w1 w2 es Hcommit) as (cls & kw & Hcls & Hkw & _ & ->).
    exists cls, kw. split; [exact Hcls|]. split; [exact Hkw|].
    cbn [started]. rewrite started_app.
    assert (Hmsgs : started msgs = [] /\ owoutliers.data w1 = d).
    { revert Hen. unfold owoutliers.enable_controls, owoutliers.set_current_editor.
      intros Hen. repeat case_match; by simplify_eq. }
    destruct Hmsgs as [-> ->]. reflexivity.
  - exact repeat_deferred_off.
  - intros n w w' es Hauto Hcommit.
    split; [exact (repeat_deferred_on n w w' es Hauto Hcommit)|].
    destruct (outliers_commit_starts_one w w' es Hcommit) as (cls & kw & Hst).
    rewrite started_repeated, Hst, length_concat.
    clear. induction (S n) as [|k IH]; [reflexivity|].
    cbn [replicate fmap list_fmap sum_list_with length]. cbn. f_equal. exact IH.
  - intros w w' es Hcommit. split; [|split; [|split]].
    + unfold owoutliers.commit_now, gui.now, gui.do_commit. by rewrite Hcommit.
    + unfold owoutliers.apply_clicked, gui.apply_clicked, gui.do_commit.
      rewrite commit_ignores_dirty, Hcommit. reflexivity.
    + intros Hauto. exact (param_changed_on w w' es Hauto Hcommit).
    + destruct (outliers_commit_spec w w' es Hcommit) as (cls & kw & Hcls & Hkw & _ & ->).
      by exists cls, kw.
Qed.

(** C5 at work: three parameter changes with auto-commit off recompute
    nothing, the press of apply that follows starts one task, a new
    dataset starts one at once, and three parameter changes with
    auto-commit on start three. *)
Lemma C5_coalesced_commit_witness :
  gui.repeat_handler owoutliers.param_changed 3 examples.manual_outliers_widget
    = Return (owoutliers.set_field_commit_dirty true examples.manual_outliers_widget, [])
  /\
  (exists w' es,
      owoutliers.apply_clicked
        (owoutliers.set_field_commit_dirty true examples.manual_outliers_widget)
        = Return (w', es) /\
      owoutliers.commit_now examples.manual_outliers_widget = Return (w', es) /\
      length (started es) = 1) /\
  (exists w' es cls kw,
      owoutliers.set_data (Some examples.data3) examples.manual_outliers_widget
        = Return (w', es) /\
      started es = [owoutliers.mkTask (Some examples.data3) cls kw]) /\
  (exists w' es,
      gui.repeat_handler owoutliers.param_changed 3 examples.outliers_widget
        = Return (w', es) /\
      length (started es) = 3).
Proof.
  destruct C5_coalesced_commit as (Hnow & Hdeferred & Hon & Hsame).
  destruct (owoutliers.commit examples.manual_outliers_widget) as [[w' es]|] eqn:Hcommit;
    [|discriminate Hcommit].
  destruct (Hsame _ _ _ Hcommit) as (Hcn & Happly & _ & cls & kw & _ & _ & Hone).
  split; [|split; [|split]].
  - apply Hdeferred; [reflexivity|lia].
  - exists (owoutliers.set_field_commit_dirty false w'), es.
    split; [exact Happly|]. split; [exact Hcn|]. by rewrite Hone.
  - destruct (Hnow (Some examples.data3) examples.manual_outliers_widget
                examples.manual_outliers_widget [] w' es eq_refl Hcommit)
      as (Hset & cls' & kw' & _ & _ & Hst).
    eexists _, _, cls', kw'. split; [exact Hset|exact Hst].
  - destruct (owoutliers.commit examples.outliers_widget) as [[w'' es'']|] eqn:Hcommit';
      [|discriminate Hcommit'].
    destruct (Hon 2 examples.outliers_widget w'' es'' eq_refl Hcommit') as (Hrep & Hlen).
    eexists _, _. split; [exact Hrep|exact Hlen].
Defined.

(** Against C5 as it stands: with auto-commit on, as a new widget has
    it, parameter changes are not coalesced. Three changes in a row
    each run the commit and start the same task three times. *)
Lemma C5_auto_commit_recomputes_each_time :
  owoutliers.auto_commit examples.outliers_widget = true /\
  (exists w' t,
      gui.repeat_handler owoutliers.param_changed 3 examples.outliers_widget
        = Return (w', [ClearMessage "singular_cov"; ClearMessage "memory_error"; Start t;
                       ClearMessage "singular_cov"; ClearMessage "memory_error"; Start t;
                       ClearMessage "singular_cov"; ClearMessage "memory_error"; Start t])) /\
  ~ (forall n w w' es,
        gui.repeat_handler owoutliers.param_changed n w = Return (w', es) ->
        length (started es) <= 1).
Proof.
  split; [reflexivity|]. split.
  - eexists _, _. reflexivity.
  - intros H.
    destruct (gui.repeat_handler owoutliers.param_changed 3 examples.outliers_widget)
      as [[w' es]|] eqn:Hrep; [|discriminate Hrep].
    specialize (H 3 _ _ _ Hrep).
    vm_compute in Hrep. injection Hrep as _ <-. cbn in H. lia.
Qed.

End background_claims.

(** ** Settings migration *)

Section migration_claims.

(** List indexing as Python has it. *)
Example py_index_examples :
  py_index [10; 20; 30]%Z 0 = Return 10%Z /\
  py_index [10; 20; 30]%Z (-1) = Return 30%Z /\
  py_index [10; 20; 30]%Z 3 = Raise IndexError /\
  py_index [10; 20; 30]%Z (-4) = Raise IndexError.
Proof. repeat split; reflexivity. Qed.

(** *** OWDistances, for settings that carry a version number *)

(** Before version 3: index 2 goes to 9, indices 3 to 9 go down by one,
    the others stay. *)
Lemma distances_migrate_mahalanobis (settings : gmap string pyval) v z :
  (v < 3)%Z ->
  settings !! "metric_idx" = Some (PyInt z) ->
  owdistances.migrate_mahalanobis settings (Some v)
  = (if (z =? 2)%Z then <["metric_idx" := PyInt 9]> settings
     else if (3 <=? z)%Z && (z <=? 9)%Z then <["metric_idx" := PyInt (z - 1)]> settings
     else settings,
     Return tt).
Proof.
  intros Hv Hz. unfold owdistances.migrate_mahalanobis, older_than.
  apply Z.ltb_lt in Hv. rewrite Hv, Hz. cbn [as_int].
  destruct (z =? 2)%Z; [reflexivity|].
  replace (2 <? z)%Z with (3 <=? z)%Z; [by destruct (_ && _)|].
  destruct (Z.leb_spec 3 z), (Z.ltb_spec 2 z); lia || reflexivity.
Qed.

(** Before version 4: the index is replaced by the id at its place in the
    list, and a true normalized_dist turns Euclidean and Manhattan into
    their normalized variants. *)
Lemma distances_migrate_metric_id (settings : gmap string pyval) v z nd :
  (v < 4)%Z ->
  (0 <= z <= 10)%Z ->
  settings !! "metric_idx" = Some (PyInt z) ->
  settings !! "normalized_dist" = Some (PyBool nd) ->
  exists id,
    owdistances.metric_id_of_idx !! Z.to_nat z = Some id /\
    owdistances.migrate_metric_id settings (Some v)
    = (<["metric_id" := PyInt (if nd then owdistances.normalized_variant id else id)]>
         (delete "normalized_dist" (delete "metric_idx" settings)),
       Return tt).
Proof.
  intros Hv Hrange Hz Hnd. unfold owdistances.migrate_metric_id.
  apply Z.ltb_lt in Hv. rewrite Hv, Hz. cbn [as_int].
  unfold py_index.
  destruct (z <? 0)%Z eqn:Hneg; [apply Z.ltb_lt in Hneg; lia|]. rewrite Hneg.
  destruct (owdistances.metric_id_of_idx !! Z.to_nat z) as [id|] eqn:Hid.
  - exists id. split; [reflexivity|].
    unfold get_default. rewrite lookup_delete_ne by discriminate. rewrite Hnd.
    reflexivity.
  - apply lookup_ge_None in Hid. cbn in Hid. lia.
Qed.

(** The normalized variant differs from the id for Euclidean and
    Manhattan only. *)
Lemma normalized_variant_spec id :
  owdistances.normalized_variant id
  = if (id =? owdistances.Euclidean)%Z then owdistances.EuclideanNormalized
    else if (id =? owdistances.Manhattan)%Z then owdistances.ManhattanNormalized
    else id.
Proof. reflexivity. Qed.

(** The whole migration of a dictionary that holds a metric index and
    the normalization flag, saved under version 2: the old index 2
    (Mahalanobis) and the old index 3 (cosine) with normalization on. *)
Example distances_migrate_version_2 :
  owdistances.migrate_settings
    (<["metric_idx" := PyInt 2]> (<["normalized_dist" := PyBool true]> ∅)) (Some 2%Z)
  = (<["metric_id" := PyInt owdistances.Mahalanobis]> ∅, Return tt) /\
  owdistances.migrate_settings
    (<["metric_idx" := PyInt 0]> (<["normalized_dist" := PyBool true]> ∅)) (Some 2%Z)
  = (<["metric_id" := PyInt owdistances.EuclideanNormalized]> ∅, Return tt) /\
  owdistances.migrate_settings
    (<["metric_idx" := PyInt 3]> (<["normalized_dist" := PyBool true]> ∅)) (Some 2%Z)
  = (<["metric_id" := PyInt owdistances.Cosine]> ∅, Return tt).
Proof. repeat split; vm_compute; reflexivity. Qed.

(** The id Spearman stands for a metric definition that computes with
    the Pearson distance class, unlike its absolute sibling. *)
Example spearman_runs_pearson :
  owdistances.metric <$> owdistances.assoc owdistances.Spearman owdistances.MetricDefs
    = Some distance.PearsonR /\
  owdistances.metric <$> owdistances.assoc owdistances.SpearmanAbsolute
                           owdistances.MetricDefs
    = Some distance.SpearmanRAbsolute.
Proof. split; reflexivity. Qed.

(** *** Where the migrations fail *)

(** C7, at the inputs where the code falls short of it. Settings of the
    manifold learning widget saved under version 1 with the t-SNE metric
    index 7 are migrated to the index 4, which the four current metrics
    do not have, so that building the t-SNE editor from the migrated
    settings raises IndexError; likewise the initialization index 5 is
    migrated to 2, one past the two current initializations. Settings of
    the distances widget that carry no version are half migrated: the
    first two steps run, then the comparison of the version with 4 raises
    TypeError and the dictionary is left with the old index. *)
Theorem C7_migrate_settings_failing_inputs :
  owmanifoldlearning.migrate_settings
    (<["tsne_editor" := PyDict (<["metric_index" := PyInt 7]> ∅)]> ∅) (Some 1%Z)
  = (<["tsne_editor" := PyDict (<["metric_index" := PyInt 4]> ∅)]> ∅, Return tt) /\
  owmanifoldlearning.TSNEParametersEditor.init (PyInt 4) (PyInt 0) = Raise IndexError /\
  length owmanifoldlearning.TSNEParametersEditor.metric_values = 4 /\
  owmanifoldlearning.migrate_settings
    (<["tsne_editor" := PyDict (<["init_index" := PyInt 5]> ∅)]> ∅) (Some 1%Z)
  = (<["tsne_editor" := PyDict (<["initialization_index" := PyInt 2]> ∅)]> ∅,
     Return tt) /\
  owmanifoldlearning.TSNEParametersEditor.init (PyInt 0) (PyInt 2) = Raise IndexError /\
  owdistances.migrate_settings
    (<["metric_idx" := PyInt 2]> (<["normalized_dist" := PyBool true]> ∅)) None
  = (<["metric_idx" := PyInt 9]> (<["normalized_dist" := PyBool false]> ∅),
     Raise TypeError).
Proof. repeat split; vm_compute; reflexivity. Qed.

End migration_claims.

(* ===================================================================== *)
(** * Further properties of the code *)
(* ===================================================================== *)

(** ** The sampler classes *)

Section sampler_classes.
Import owdatasampler.

Lemma np_assign_spec {A} (a : list A) ind v :
  Forall (fun i => i < length a) ind ->
  exists a', np_assign a ind v = Return a' /\
    length a' = length a /\
    (forall i, i ∈ ind -> i < length a -> a' !! i = Some v) /\
    (forall i, i ∉ ind -> a' !! i = a !! i).
Proof.
  intros Hind. revert a Hind. induction ind as [|j ind IH]; intros a Hind.
  - exists a. repeat split; auto. intros i Hi. by apply elem_of_nil in Hi.
  - apply Forall_cons in Hind as [Hj Hind]. cbn [np_assign].
    destruct (Nat.ltb_spec j (length a)) as [_|]; [|lia].
    destruct (IH (<[j := v]> a)) as (a' & Heq & Hlen & Hin & Hout).
    { by rewrite length_insert. }
    rewrite length_insert in Hlen, Hin.
    exists a'. split; [exact Heq|]. split; [exact Hlen|]. split.
    + intros i Hi Hlt. destruct (decide (i ∈ ind)) as [Hi'|Hi']; [by apply Hin|].
      apply elem_of_cons in Hi as [->|Hi]; [|contradiction].
      rewrite Hout by assumption. by apply list_lookup_insert_eq.
    + intros i Hi. apply not_elem_of_cons in Hi as [Hne Hi].
      rewrite Hout by assumption. by apply list_lookup_insert_ne.
Qed.

Lemma np_assign_out_of_range {A} (a : list A) ind v :
  ~ Forall (fun i => i < length a) ind -> np_assign a ind v = Raise IndexError.
Proof.
  revert a. induction ind as [|j ind IH]; intros a Hind.
  - destruct Hind. constructor.
  - cbn [np_assign]. destruct (Nat.ltb_spec j (length a)) as [Hj|]; [|reflexivity].
    apply IH. rewrite length_insert. intros H. apply Hind. by constructor.
Qed.

Lemma nonzero_from_elem {A} k (z : A -> bool) a i :
  i ∈ nonzero_from k z a <-> exists j x, i = k + j /\ a !! j = Some x /\ z x = false.
Proof.
  revert k. induction a as [|y a IH]; intros k; cbn [nonzero_from].
  - split; [intros H; by apply elem_of_nil in H|intros (j & x & _ & H & _); discriminate H].
  - assert (Htail : i ∈ nonzero_from (S k) z a <->
                    exists j x, i = k + S j /\ a !! j = Some x /\ z x = false).
    { rewrite IH. split; intros (j & x & -> & H); exists j, x; split; auto; lia. }
    destruct (z y) eqn:Hy.
    + rewrite Htail. split.
      * intros (j & x & -> & H). exists (S j), x. auto.
      * intros (j & x & -> & Hj & Hx). destruct j as [|j].
        -- cbn in Hj. injection Hj as ->. congruence.
        -- exists j, x. auto.
    + rewrite elem_of_cons, Htail. split.
      * intros [->|(j & x & -> & H)].
        -- exists 0, y. rewrite Nat.add_0_r. auto.
        -- exists (S j), x. auto.
      * intros (j & x & -> & Hj & Hx). destruct j as [|j].
        -- left. lia.
        -- right. exists j, x. auto.
Qed.

Lemma nonzero_from_NoDup {A} k (z : A -> bool) a : NoDup (nonzero_from k z a).
Proof.
  revert k. induction a as [|y a IH]; intros k; cbn [nonzero_from].
  - constructor.
  - destruct (z y); [apply IH|]. constructor; [|apply IH].
    rewrite nonzero_from_elem. intros (j & x & Hk & _). lia.
Qed.

(** The positions left non-zero after zeroing the sampled ones are the
    positions that were not sampled. *)
Lemma not_sampled {A} (one zero : A) (z : A -> bool) n sample :
  z one = false -> z zero = true ->
  Forall (fun i => i < n) sample ->
  exists o, np_assign (np_full n one) sample zero = Return o /\
    NoDup (np_nonzero z o) /\
    forall i, i ∈ np_nonzero z o <-> i < n /\ i ∉ sample.
Proof.
  intros Hone Hzero Hsample.
  destruct (np_assign_spec (np_full n one) sample zero) as (o & Heq & Hlen & Hin & Hout).
  { unfold np_full. by rewrite length_replicate. }
  unfold np_full in Hlen, Hin, Hout. rewrite length_replicate in Hlen, Hin.
  exists o. split; [exact Heq|]. split; [apply nonzero_from_NoDup|].
  intros i. unfold np_nonzero. rewrite nonzero_from_elem. split.
  - intros (j & x & -> & Hj & Hx). cbn.
    assert (Hlt : j < n) by (rewrite <- Hlen; by eapply lookup_lt_Some).
    split; [exact Hlt|]. intros Hmem.
    rewrite (Hin j Hmem Hlt) in Hj. injection Hj as <-. congruence.
  - intros [Hlt Hmem]. exists i, one. split; [reflexivity|]. split; [|exact Hone].
    rewrite (Hout i Hmem). by apply lookup_replicate_2.
Qed.

(** X1: bootstrap sampling. For a positive size and a generator that
    behaves, [SampleBootstrap] returns the numbers drawn, sorted, as the
    sample, as many as the size, and as remaining exactly the positions
    below the size that were never drawn, each once; for size 0 it
    returns two empty arrays, as numpy hands out the empty array for
    size 0 before it looks at the range. *)
Theorem bootstrap_remaining_are_the_undrawn :
  (forall rng size random_state,
      well_behaved rng -> 0 < size ->
      exists remaining sample,
        SampleBootstrap_call rng size random_state = Return (Pair remaining sample) /\
        sample ≡ₚ randint rng random_state size size /\
        Sorted Nat.le sample /\
        length sample = size /\
        NoDup remaining /\
        (forall i, i ∈ remaining <-> i < size /\ i ∉ sample)) /\
  (forall rng random_state,
      SampleBootstrap_call rng 0 random_state = Return (Pair [] [])).
Proof.
  split; [|reflexivity].
  intros rng size rs [Hrand _] Hsize.
  destruct (Hrand rs size size Hsize) as [Hlen Hbelow].
  unfold SampleBootstrap_call, rgen_randint.
  destruct (Z.eqb_spec (Z.of_nat size) 0) as [|_]; [lia|].
  destruct (Nat.eqb_spec size 0) as [|_]; [lia|].
  destruct (Z.ltb_spec (Z.of_nat size) 0) as [|_]; [lia|].
  rewrite Nat2Z.id.
  set (sample := merge_sort Nat.le (randint rng rs size size)).
  assert (Hperm : sample ≡ₚ randint rng rs size size) by apply merge_sort_Permutation.
  destruct (not_sampled true false negb size sample eq_refl eq_refl)
    as (insample & Heq & Hnodup & Hmem).
  { by rewrite Hperm. }
  rewrite Heq. exists (np_nonzero negb insample), sample.
  split; [reflexivity|]. split; [exact Hperm|]. split; [apply Sorted_merge_sort, _|].
  split; [by rewrite Hperm|]. split; [exact Hnodup|exact Hmem].
Qed.

Lemma counting_rng_well_behaved : well_behaved examples.counting_rng.
Proof.
  split.
  - intros rs high n Hhigh. unfold examples.counting_rng. cbn [randint].
    split; [by rewrite length_map, length_seq|].
    apply Forall_forall. intros i Hi.
    apply list_elem_of_In, in_map_iff in Hi as (j & <- & _).
    apply Nat.mod_upper_bound. lia.
  - intros rs a. apply reverse_Permutation.
Qed.

(** X1 at work: five draws out of five positions. *)
Lemma bootstrap_remaining_are_the_undrawn_witness :
  SampleBootstrap_call examples.counting_rng 5 (Some 1%Z)
  = Return (Pair [3; 4] [0; 0; 1; 2; 2]).
Proof.
  destruct (proj1 bootstrap_remaining_are_the_undrawn examples.counting_rng 5 (Some 1%Z))
    as (remaining & sample & Heq & _).
  - apply counting_rng_well_behaved.
  - lia.
  - vm_compute in Heq. injection Heq as Hr Hs. subst. reflexivity.
Defined.

(** X2: sampling a fixed number with replacement. On a non-empty table,
    for a size that is not negative and a generator that behaves,
    [SampleRandomN] with replacement returns the numbers drawn as the
    sample, as many as asked for (also more than the table has rows), and
    as the others exactly the rows that were not drawn, each once. On an
    empty table size 0 gives two empty arrays and every other size
    raises ValueError, and so does a negative size on any table. *)
Theorem random_n_with_replacement :
  (forall rng n stratified random_state table,
      well_behaved rng -> 0 < len table -> (0 <= n)%Z ->
      exists others,
        SampleRandomN_call rng n stratified true random_state table
          = Return (Pair others (randint rng random_state (len table) (Z.to_nat n))) /\
        length (randint rng random_state (len table) (Z.to_nat n)) = Z.to_nat n /\
        NoDup others /\
        (forall i, i ∈ others <->
                   i < len table /\
                   i ∉ randint rng random_state (len table) (Z.to_nat n))) /\
  (forall rng n stratified random_state table,
      len table = 0 ->
      SampleRandomN_call rng n stratified true random_state table
        = if (n =? 0)%Z then Return (Pair [] [])
          else Raise (ValueError "low >= high")) /\
  (forall rng n stratified random_state table,
      0 < len table -> (n < 0)%Z ->
      SampleRandomN_call rng n stratified true random_state table
        = Raise (ValueError "negative dimensions are not allowed")).
Proof.
  split; [|split].
  - intros rng n stratified rs table [Hrand _] Hlen Hn.
    destruct (Hrand rs (len table) (Z.to_nat n) Hlen) as [Hl Hbelow].
    destruct (not_sampled 1%Q 0%Q (fun x => Qeq_bool x 0) (len table)
                (randint rng rs (len table) (Z.to_nat n)) eq_refl eq_refl Hbelow)
      as (o & Heq & Hnodup & Hmem).
    unfold SampleRandomN_call, rgen_randint.
    destruct (Z.eqb_spec n 0) as [->|Hn0].
    + assert (Hnil : randint rng rs (len table) (Z.to_nat 0) = []).
      { apply length_zero_iff_nil. exact Hl. }
      rewrite Hnil in *. rewrite Heq. eexists. split; [reflexivity|]. auto.
    + destruct (Nat.eqb_spec (len table) 0) as [|_]; [lia|].
      destruct (Z.ltb_spec n 0) as [|_]; [lia|].
      rewrite Heq. eexists. split; [reflexivity|]. auto.
  - intros rng n stratified rs table Hlen.
    unfold SampleRandomN_call, rgen_randint. rewrite Hlen.
    by destruct (n =? 0)%Z.
  - intros rng n stratified rs table Hlen Hn.
    unfold SampleRandomN_call, rgen_randint.
    destruct (Z.eqb_spec n 0) as [|_]; [lia|].
    destruct (Nat.eqb_spec (len table) 0) as [|_]; [lia|].
    by destruct (Z.ltb_spec n 0) as [_|]; [|lia].
Qed.

(** X2 at work: four draws from three rows leave the last row out. *)
Lemma random_n_with_replacement_witness :
  SampleRandomN_call examples.counting_rng 4 false true (Some 0%Z) examples.data3
  = Return (Pair [2] [0; 1; 1; 0]).
Proof.
  destruct (proj1 random_n_with_replacement examples.counting_rng 4%Z false (Some 0%Z)
              examples.data3 counting_rng_well_behaved) as (others & Heq & _).
  - cbn. lia.
  - lia.
  - rewrite Heq. vm_compute in Heq. injection Heq as <-. reflexivity.
Defined.

(** X3: sampling nothing and sampling everything. Without replacement,
    [SampleRandomN] asked for 0 rows returns all rows, shuffled, as the
    rest and an empty sample, and asked for as many rows as the table has
    returns them all, shuffled, as the sample and nothing as the rest;
    neither asks a splitter. [SampleRandomP] does the same for the
    proportions 0 and 1. *)
Theorem random_n_none_and_all :
  forall rng stratified random_state table,
    well_behaved rng ->
    exists shuffled,
      shuffled ≡ₚ seq 0 (len table) /\
      SampleRandomN_call rng 0 stratified false random_state table
        = Return (Pair shuffled []) /\
      SampleRandomP_call rng 0 stratified random_state table
        = Return (Pair shuffled []) /\
      (0 < len table ->
       SampleRandomN_call rng (Z.of_nat (len table)) stratified false random_state table
         = Return (Pair [] shuffled) /\
       SampleRandomP_call rng 1 stratified random_state table
         = Return (Pair [] shuffled)).
Proof.
  intros rng stratified rs table [_ Hshuffle].
  exists (shuffle rng rs (seq 0 (len table))). split; [apply Hshuffle|].
  assert (Hall : 0 < len table ->
                 SampleRandomN_call rng (Z.of_nat (len table)) stratified false rs table
                 = Return (Pair [] (shuffle rng rs (seq 0 (len table))))).
  { intros Hlen. unfold SampleRandomN_call.
    destruct (Z.eqb_spec (Z.of_nat (len table)) 0) as [|_]; [lia|].
    by rewrite Z.eqb_refl. }
  split; [reflexivity|]. split; [|split; [by apply Hall|]].
  - unfold SampleRandomP_call. rewrite Qmult_0_r. reflexivity.
  - unfold SampleRandomP_call. rewrite Qmult_1_r, Qceiling_Z. by apply Hall.
Qed.

(** X3 at work on three rows. *)
Lemma random_n_none_and_all_witness :
  SampleRandomP_call examples.counting_rng 0 false None examples.data3
    = Return (Pair [2; 1; 0] []) /\
  SampleRandomP_call examples.counting_rng 1 false None examples.data3
    = Return (Pair [] [2; 1; 0]).
Proof.
  destruct (random_n_none_and_all examples.counting_rng false None examples.data3
              counting_rng_well_behaved) as (shuffled & _ & _ & Hnone & Hall).
  destruct Hall as [_ Hall]; [cbn; lia|].
  assert (Hs : shuffled = [2; 1; 0]).
  { vm_compute in Hnone. by injection Hnone as <-. }
  subst shuffled. split; assumption.
Defined.

(** Indexing a table with a rearrangement of all its row numbers
    rearranges its rows. *)
Lemma mapM_lookup_seq {A} (pre l : list A) :
  mapM (fun i => (pre ++ l) !! i) (seq (length pre) (length l)) = Some l.
Proof.
  revert pre. induction l as [|x l IH]; intros pre; [reflexivity|].
  cbn [length seq mapM]. rewrite list_lookup_middle by reflexivity. cbn.
  specialize (IH (pre ++ [x])). rewrite length_app, Nat.add_1_r, <- app_assoc in IH.
  cbn [app] in IH. rewrite IH. reflexivity.
Qed.

Lemma mapM_Permutation {A} (f : nat -> option A) ind ind' :
  ind ≡ₚ ind' ->
  forall rs, mapM f ind = Some rs -> exists rs', mapM f ind' = Some rs' /\ rs ≡ₚ rs'.
Proof.
  induction 1 as [|i ind ind' _ IH|i j ind|ind1 ind2 ind3 _ IH1 _ IH2]; intros rs Hrs.
  - exists rs. auto.
  - cbn [mapM] in *. destruct (f i) as [x|]; [|discriminate Hrs]. cbn in *.
    destruct (mapM f ind) as [rs0|]; [|discriminate Hrs]. cbn in Hrs.
    injection Hrs as <-. destruct (IH rs0 eq_refl) as (rs' & -> & Hp).
    exists (x :: rs'). split; [reflexivity|by constructor].
  - cbn [mapM] in *. destruct (f j) as [y|]; [|discriminate Hrs]. cbn in *.
    destruct (f i) as [x|]; [|discriminate Hrs]. cbn in *.
    destruct (mapM f ind) as [rs0|]; [|discriminate Hrs]. cbn in *.
    injection Hrs as <-. exists (x :: y :: rs0). split; [reflexivity|constructor].
  - destruct (IH1 rs Hrs) as (rs1 & H1 & Hp1).
    destruct (IH2 rs1 H1) as (rs2 & H2 & Hp2).
    exists rs2. split; [exact H2|by etransitivity].
Qed.

Lemma take_rows_shuffled shuffled t :
  shuffled ≡ₚ seq 0 (len t) ->
  exists rs, take_rows shuffled t = Return (mkTable (domain t) rs) /\ rs ≡ₚ rows t.
Proof.
  intros Hp. unfold take_rows.
  destruct (mapM_Permutation (fun i => rows t !! i) _ _ (symmetry Hp) (rows t)
              (mapM_lookup_seq [] (rows t))) as (rs & -> & Hrs).
  exists rs. split; [reflexivity|by symmetry].
Qed.

Lemma one_hundred_percent : (inject_Z 100 / 100 == 1)%Q.
Proof. reflexivity. Qed.

Lemma random_p_everything rng stratified rs table :
  0 < len table ->
  SampleRandomP_call rng 1 stratified rs table
  = Return (Pair [] (shuffle rng rs (seq 0 (len table)))).
Proof.
  intros Hlen. unfold SampleRandomP_call. rewrite Qmult_1_r, Qceiling_Z.
  unfold SampleRandomN_call.
  destruct (Z.eqb_spec (Z.of_nat (len table)) 0) as [|_]; [lia|].
  by rewrite Z.eqb_refl.
Qed.

(** X4: a sample of 100 % is the whole table. For a non-empty table in
    memory, fixed proportion sampling at 100 % without stratification and
    no cached indices, with the sampler classes of the file: the commit
    shows no error, samples once, sends as data sample a table with the
    rows of the input rearranged and as remaining data a table with no
    rows, and counts accordingly. *)
Theorem full_proportion_samples_everything :
  forall rng lib w t,
    well_behaved rng ->
    data w = Some (InMemory t) ->
    0 < len t ->
    sampling_type w = FixedProportion ->
    sampleSizePercentage w = 100%Z ->
    stratify w = false ->
    indices w = None ->
    exists w' sample,
      commit (with_samplers rng lib) w
        = Return (w', [ClearMessage "Error"; ClearMessage "Warning"; Call "sample";
                       Send "data_sample" (PyTable sample);
                       Send "remaining_data" (PyTable (mkTable (domain t) []))]) /\
      domain sample = domain t /\
      rows sample ≡ₚ rows t /\
      sampled_instances w' = Some (len t) /\
      remaining_instances w' = Some 0.
Proof.
  intros rng lib w t Hrng Hdata Hlen Htype Hpct Hstrat Hind.
  pose proof (random_p_everything rng false
                (if use_seed w then Some RandomSeed else None) t Hlen) as Hp.
  set (shuffled := shuffle rng _ _) in Hp.
  assert (Hperm : shuffled ≡ₚ seq 0 (len t)) by apply Hrng.
  clearbody shuffled.
  destruct (take_rows_shuffled shuffled t Hperm) as (rs & Htake & Hrs).
  assert (Hse : size_and_errors (with_samplers rng lib) w t
                = Return (Some (Z.of_nat (len t)), false, [])).
  { unfold size_and_errors. rewrite Htype, Hpct, Hstrat.
    destruct (Z.eqb_spec (Z.of_nat (len t)) 0) as [|_]; [lia|].
    cbn [Z.eqb FixedProportion FixedSize].
    assert (Hc : Qceiling (inject_Z 100 / 100 * inject_Z (Z.of_nat (len t)))
                 = Z.of_nat (len t)).
    { rewrite one_hundred_percent, Qmult_1_l. apply Qceiling_Z. }
    rewrite Hc, Z.ltb_irrefl. cbn. by rewrite andb_false_r. }
  assert (Hsample : sample (with_samplers rng lib) w t (len t)
                      (Some (Z.of_nat (len t))) false
                    = Return (Pair [] shuffled)).
  { unfold sample. rewrite Htype, Hpct. cbn [Z.eqb FixedProportion FixedSize].
    cbn [with_samplers call_sampler call]. rewrite <- Hp.
    unfold SampleRandomP_call. by rewrite one_hundred_percent. }
  assert (Hupd : updateindices (with_samplers rng lib) w t
                 = Return (set_field_indices (Some (Pair [] shuffled)) w,
                           [ClearMessage "Error"; ClearMessage "Warning"; Call "sample"])).
  { unfold updateindices. rewrite Hse, Hstrat.
    cbn [length Nat.eqb negb andb]. rewrite Hsample.
    by rewrite andb_false_r. }
  unfold commit. rewrite Hdata, Hind, Hupd. cbn [indices set_field_indices].
  unfold send_sample, unpack_indices. cbn [sampling_type set_field_indices].
  rewrite Htype.
  cbn [Z.eqb FixedProportion orb getitem]. rewrite Htake. cbn.
  eexists _, _. split; [reflexivity|]. cbn. repeat split; [exact Hrs|].
  f_equal. unfold len. cbn. apply Permutation_length in Hrs. by rewrite Hrs.
Qed.

(** X4 at work: three rows, all of them sampled. *)
Lemma full_proportion_samples_everything_witness :
  exists w' sample,
    commit (with_samplers examples.counting_rng examples.sampler_lib)
           examples.whole_sampler
      = Return (w', [ClearMessage "Error"; ClearMessage "Warning"; Call "sample";
                     Send "data_sample" (PyTable sample);
                     Send "remaining_data"
                          (PyTable (mkTable (domain examples.data3) []))]) /\
    domain sample = domain examples.data3 /\
    rows sample ≡ₚ rows examples.data3 /\
    sampled_instances w' = Some 3 /\
    remaining_instances w' = Some 0.
Proof.
  apply (full_proportion_samples_everything examples.counting_rng examples.sampler_lib
           examples.whole_sampler examples.data3 counting_rng_well_behaved);
    try reflexivity.
  cbn. lia.
Defined.

End sampler_classes.

(** ** The data sampler widget *)

Section sampler_widget.
Import owdatasampler.

(** A proportion of at most 100 % never asks for more rows than there
    are. *)
Lemma proportion_within_data (pct n : Z) :
  (pct <= 100)%Z -> (0 <= n)%Z ->
  (Qceiling (inject_Z pct / 100 * inject_Z n) <= n)%Z.
Proof.
  intros Hpct Hn. rewrite <- (Qceiling_Z n) at 2. apply Qceiling_resp_le.
  rewrite <- (Qmult_1_l (inject_Z n)) at 2.
  apply Qmult_le_compat_r.
  - unfold Qle, Qdiv, Qmult, Qinv, inject_Z. cbn. lia.
  - unfold Qle, inject_Z. cbn. lia.
Qed.

(** An error of [updateindices] is one of the four situations. *)
Lemma size_and_errors_only_on_condition lib w t size repl errors :
  (sampleSizePercentage w <= 100)%Z ->
  size_and_errors lib w t = Return (size, repl, errors) ->
  errors <> [] ->
  error_condition lib w t.
Proof.
  intros Hpct. unfold size_and_errors, error_condition.
  destruct (Z.eqb_spec (Z.of_nat (len t)) 0) as [Hz|Hz].
  { intros _ _. left. lia. }
  assert (Hclasses : forall b,
             (Z.of_nat (len t) <=?
              match discrete_class_values lib t with
              | Some n => Z.of_nat n
              | None => 0
              end)%Z && b = true ->
             b = true /\ exists n, discrete_class_values lib t = Some n /\ len t <= n).
  { intros b Hb. apply andb_true_iff in Hb as [Hle ->]. split; [reflexivity|].
    apply Z.leb_le in Hle. destruct (discrete_class_values lib t) as [n|]; [|lia].
    exists n. split; [reflexivity|lia]. }
  destruct (Z.eqb_spec (sampling_type w) FixedSize) as [Hfs|Hfs].
  { destruct (replacement w) eqn:Hrepl; cbn [negb andb app].
    - intros H. injection H as _ _ <-. congruence.
    - destruct (Z.ltb_spec (Z.of_nat (len t)) (sampleSizeNumber w)) as [Hlt|_].
      + intros _ _. right. right. left. auto.
      + cbn [app]. intros H. injection H as _ _ <-.
        destruct (_ && stratify w) eqn:Hs; [|congruence].
        intros _. apply Hclasses in Hs as [Hs Hn]. right. right. right. auto. }
  destruct (Z.eqb_spec (sampling_type w) FixedProportion) as [Hfp|Hfp].
  { cbn [negb andb app].
    pose proof (proportion_within_data (sampleSizePercentage w) (Z.of_nat (len t))
                  Hpct ltac:(lia)) as Hc.
    destruct (Z.ltb_spec (Z.of_nat (len t))
                (Qceiling (inject_Z (sampleSizePercentage w) / 100
                           * inject_Z (Z.of_nat (len t))))) as [Hlt|_]; [lia|].
    cbn [app]. intros H. injection H as _ _ <-.
    destruct (_ && stratify w) eqn:Hs; [|congruence].
    intros _. apply Hclasses in Hs as [Hs Hn]. right. right. right. auto. }
  destruct (Z.eqb_spec (sampling_type w) CrossValidation) as [Hcv|Hcv].
  { cbn [negb andb app]. rewrite app_nil_r.
    destruct (Z.ltb_spec (Z.of_nat (len t)) (number_of_folds w)) as [Hlt|_].
    - intros _ _. right. left. auto.
    - intros H. injection H as _ _ <-. congruence. }
  destruct (Z.eqb_spec (sampling_type w) Bootstrap) as [Hb|Hb].
  { cbn. intros H. injection H as _ _ <-. congruence. }
  discriminate.
Qed.

Lemma update_sample_max_size_data w : data (_update_sample_max_size w) = data w.
Proof.
  unfold _update_sample_max_size, sampleSizeSpin_setMaximum.
  destruct (no_data w || replacement w).
  - by destruct (_ <? _)%Z.
  - destruct (data w) as [[t|t]|] eqn:Hd; [| |exact Hd];
      by destruct (_ <? _)%Z.
Qed.

(** X5: the errors of [updateindices] are exactly the four situations.
    For a sampling type among the four and a proportion of at most
    100 %, when [updateindices] returns, it has dropped the indices if
    and only if the table has no rows, or has fewer rows than folds, or
    fewer rows than the fixed size asked for without replacement, or no
    more rows than classes when sampling stratified without replacement;
    and it has called the sampler if and only if none of these holds. *)
Theorem updateindices_errors_exactly :
  forall lib w t w' es,
    (sampleSizePercentage w <= 100)%Z ->
    updateindices lib w t = Return (w', es) ->
    (indices w' = None <-> error_condition lib w t) /\
    (Call "sample" ∈ es <-> ~ error_condition lib w t).
Proof.
  intros lib w t w' es Hpct Hupd.
  destruct (updateindices_spec lib w t w' es Hupd)
    as [_ [(-> & Hcall & size & repl & errors & Hse & Herr)
          |(ind & -> & Hcall & size & repl & Hse)]].
  - pose proof (size_and_errors_only_on_condition lib w t size repl errors Hpct Hse Herr)
      as Hc.
    split; split; try tauto; reflexivity.
  - assert (Hno : ~ error_condition lib w t).
    { intros Hc.
      destruct (size_and_errors_of_condition lib w t Hc) as (s & r & e & Hse' & He).
      rewrite Hse in Hse'. injection Hse' as _ _ <-. congruence. }
    split; split; try tauto; discriminate.
Qed.

(** X5 at work: one row asked of three samples, ten rows asked does
    not. *)
Lemma updateindices_errors_exactly_witness :
  ~ error_condition examples.sampler_lib examples.modest_sampler examples.data3 /\
  error_condition examples.sampler_lib examples.greedy_sampler examples.data3.
Proof.
  split.
  - eapply (updateindices_errors_exactly examples.sampler_lib examples.modest_sampler
              examples.data3); [|reflexivity|]; [cbn; lia|].
    cbn. set_solver.
  - eapply (updateindices_errors_exactly examples.sampler_lib examples.greedy_sampler
              examples.data3); [|reflexivity|]; [cbn; lia|].
    reflexivity.
Defined.

(** X6: seeded sampling is repeatable. When a commit with the seed in use
    has sent a sample of a table in memory, its last two effects are the
    sends of sample and rest, and nothing was sent before them; a second
    commit sends the very same two values without calling the sampler or
    touching the messages, and leaves the widget as it is. After
    [settings_changed] a commit that samples calls the sampler again. *)
Theorem seeded_commit_repeats :
  forall lib w t w1 es,
    data w = Some (InMemory t) ->
    use_seed w = true ->
    commit lib w = Return (w1, es) ->
    indices w1 <> None ->
    exists before sample other,
      es = before ++ [Send "data_sample" sample; Send "remaining_data" other] /\
      sends_nothing before /\
      commit lib w1 = Return (w1, [Send "data_sample" sample;
                                   Send "remaining_data" other]) /\
      (forall w2 es2,
          commit lib (settings_changed w1) = Return (w2, es2) ->
          indices w2 <> None -> Call "sample" ∈ es2).
Proof.
  intros lib w t w1 es Hdata Hseed Hcommit Hind.
  destruct (commit_in_memory lib w t w1 es Hdata Hcommit)
    as [[Hnone _]|(ind & before & Hsend & Hquiet & _)]; [contradiction|].
  destruct (send_sample_spec lib _ t ind before w1 es Hsend)
    as (remaining & sample & s & o & Hunpack & Hs & Ho & -> & ->).
  exists before, s, o. split; [reflexivity|]. split; [exact Hquiet|].
  split.
  - unfold commit. cbn [data indices use_seed set_field_instances set_field_indices].
    rewrite Hdata, Hseed. unfold send_sample.
    change (unpack_indices (set_field_instances _ _ (set_field_indices (Some ind) w)) ind)
      with (unpack_indices (set_field_indices (Some ind) w) ind).
    rewrite Hunpack, Hs, Ho. reflexivity.
  - intros w2 es2 Hcommit2 Hind2.
    assert (Hdata2 : data (settings_changed
                             (set_field_instances (Some (py_len s)) (Some (py_len o))
                                (set_field_indices (Some ind) w)))
                     = Some (InMemory t)).
    { unfold settings_changed. cbn [data set_field_indices].
      rewrite update_sample_max_size_data. exact Hdata. }
    destruct (commit_in_memory lib _ t w2 es2 Hdata2 Hcommit2)
      as [[Hnone _]|(ind2 & before2 & Hsend2 & _ & [(_ & Hcached & _)|(Hupd & _)])];
      [contradiction|discriminate Hcached|].
    apply send_sample_spec in Hsend2 as (? & ? & ? & ? & _ & _ & _ & _ & ->).
    apply updateindices_spec in Hupd as [_ [(Hw & _)|(ind3 & _ & Hcall & _)]].
    + apply (f_equal indices) in Hw. discriminate Hw.
    + apply elem_of_app. by left.
Qed.

(** X6 at work: the commit of one row of three, repeated. *)
Lemma seeded_commit_repeats_witness :
  commit examples.sampler_lib
    (set_field_instances (Some 1) (Some 2)
       (set_field_indices (Some (Pair [1; 2] [0])) examples.modest_sampler))
  = Return (set_field_instances (Some 1) (Some 2)
              (set_field_indices (Some (Pair [1; 2] [0])) examples.modest_sampler),
            [Send "data_sample" (PyTable (mkTable (domain examples.data3) [[1; 2]]%Q));
             Send "remaining_data"
               (PyTable (mkTable (domain examples.data3) [[-3; 0]; [5; 5]]%Q))]).
Proof.
  set (w1 := set_field_instances (Some 1) (Some 2)
               (set_field_indices (Some (Pair [1; 2] [0])) examples.modest_sampler)).
  destruct (seeded_commit_repeats examples.sampler_lib examples.modest_sampler
              examples.data3 w1
              ([ClearMessage "Error"; ClearMessage "Warning"; Call "sample"] ++
               [Send "data_sample" (PyTable (mkTable (domain examples.data3) [[1; 2]]%Q));
                Send "remaining_data"
                  (PyTable (mkTable (domain examples.data3) [[-3; 0]; [5; 5]]%Q))])
              eq_refl eq_refl eq_refl ltac:(discriminate))
    as (before & sample & other & Hes & _ & Hcommit & _).
  apply app_inj_2 in Hes as [_ Hes]; [|reflexivity].
  injection Hes as <- <-. exact Hcommit.
Defined.

(** X7: compatibility mode swaps the two outputs of cross validation.
    With cached indices and the seed in use, if the commit of a widget
    out of compatibility mode sends [a] as the sample and [b] as the
    rest, the commit of the same widget in compatibility mode sends [b]
    as the sample and [a] as the rest, and the two counts change
    places. *)
Theorem compatibility_mode_swaps_folds :
  forall lib w t ind w1 a b,
    data w = Some (InMemory t) ->
    sampling_type w = CrossValidation ->
    use_seed w = true ->
    indices w = Some ind ->
    commit lib (set_field_compatibility_mode false w)
      = Return (w1, [Send "data_sample" a; Send "remaining_data" b]) ->
    exists w2,
      commit lib (set_field_compatibility_mode true w)
        = Return (w2, [Send "data_sample" b; Send "remaining_data" a]) /\
      sampled_instances w2 = remaining_instances w1 /\
      remaining_instances w2 = sampled_instances w1.
Proof.
  intros lib w t ind w1 a b Hdata Htype Hseed Hind.
  unfold commit. cbn [data indices use_seed set_field_compatibility_mode].
  rewrite Hdata, Hind, Hseed. unfold send_sample, unpack_indices.
  cbn [sampling_type selectedFold compatibility_mode set_field_compatibility_mode].
  rewrite Htype. cbn [Z.eqb CrossValidation FixedProportion FixedSize Bootstrap orb
                        Pos.eqb].
  destruct ind as [first second|folds].
  - destruct (py_index [first; second] (selectedFold w - 1)) as [[|x [|y [|]]]|];
      try discriminate.
    cbn [getitem].
    destruct (take_row x t) as [rx|]; [|discriminate].
    destruct (take_row y t) as [ry|]; [|discriminate].
    intros H. injection H as <- <- <-.
    eexists. split; [reflexivity|]. split; reflexivity.
  - destruct (py_index folds (selectedFold w - 1)) as [[x y]|]; [|discriminate].
    cbn [getitem].
    destruct (take_rows x t) as [tx|]; [|discriminate].
    destruct (take_rows y t) as [ty|]; [|discriminate].
    intros H. injection H as <- <- <-.
    eexists. split; [reflexivity|]. split; reflexivity.
Qed.

(** X7 at work: two folds of three rows. *)
Lemma compatibility_mode_swaps_folds_witness :
  exists w2,
    commit examples.sampler_lib
           (set_field_compatibility_mode true examples.folding_sampler)
      = Return (w2, [Send "data_sample"
                       (PyTable (mkTable (domain examples.data3) [[5; 5]]%Q));
                     Send "remaining_data"
                       (PyTable (mkTable (domain examples.data3) [[1; 2]; [-3; 0]]%Q))]) /\
    sampled_instances w2 = Some 1 /\
    remaining_instances w2 = Some 2.
Proof.
  destruct (compatibility_mode_swaps_folds examples.sampler_lib examples.folding_sampler
              examples.data3 (Folds [([0; 1], [2]); ([2], [0; 1])])
              (set_field_instances (Some 2) (Some 1)
                 (set_field_compatibility_mode false examples.folding_sampler))
              (PyTable (mkTable (domain examples.data3) [[1; 2]; [-3; 0]]%Q))
              (PyTable (mkTable (domain examples.data3) [[5; 5]]%Q))
              eq_refl eq_refl eq_refl eq_refl eq_refl) as (w2 & Hcommit & Hs & Hr).
  exists w2. split; [exact Hcommit|]. split; [exact Hs|exact Hr].
Defined.

(** X8: migrating the sampler's settings. The call changes at most the
    key compatibility_mode, which it can only set to True; it raises, and
    then only KeyError, exactly when the version is a non-zero number
    below 2 and the settings have no sampling_type, and it then changes
    nothing. Settings without a version or with version 0 are always put
    into compatibility mode, whatever their sampling type; settings of
    version 2 and later are never changed. *)
Theorem sampler_migrate_settings_compatibility :
  forall settings version,
    let after := (migrate_settings settings version).1 in
    let result := (migrate_settings settings version).2 in
    (forall k, k <> "compatibility_mode" -> after !! k = settings !! k) /\
    (after = settings \/ after = <["compatibility_mode" := PyBool true]> settings) /\
    (result = Return tt \/ result = Raise KeyError /\ after = settings) /\
    (result = Raise KeyError <->
       exists v, version = Some v /\ v <> 0%Z /\ (v < 2)%Z /\
                 settings !! "sampling_type" = None) /\
    (version = None \/ version = Some 0%Z ->
       after = <["compatibility_mode" := PyBool true]> settings) /\
    (forall v, version = Some v -> (2 <= v)%Z -> after = settings).
Proof.
  intros settings version. unfold migrate_settings.
  destruct version as [v|]; cbn zeta.
  - destruct (Z.eqb_spec v 0) as [->|Hv].
    + cbn. repeat split; auto.
      * intros k Hk. by rewrite lookup_insert_ne.
      * discriminate.
      * intros (v & [= <-] & Hv & _). by destruct Hv.
      * intros v [= <-]. lia.
    + destruct (Z.ltb_spec v 2) as [Hlt|Hge].
      * destruct (settings !! "sampling_type") as [st|] eqn:Hst.
        -- destruct (py_eq_int st CrossValidation); cbn;
             (split; [intros k Hk; by rewrite ?lookup_insert_ne|]);
             (split; [auto|]); (split; [auto|]);
             (split; [split; [discriminate|intros (? & _ & _ & _ & ?); discriminate]|]);
             (split; [intros [|[= ->]]; [discriminate|by destruct Hv]|]);
             intros v' [= <-]; lia.
        -- cbn. split; [reflexivity|]. split; [auto|]. split; [auto|].
           split; [split; [intros _; by exists v|reflexivity]|].
           split; [intros [|[= ->]]; [discriminate|by destruct Hv]|].
           reflexivity.
      * cbn. split; [reflexivity|]. split; [auto|]. split; [auto|].
        split; [split; [discriminate|intros (v' & [= <-] & _ & ? & _); lia]|].
        split; [intros [|[= ->]]; [discriminate|by destruct Hv]|].
        reflexivity.
  - cbn. split; [intros k Hk; by rewrite lookup_insert_ne|].
    split; [auto|]. split; [auto|].
    split; [split; [discriminate|intros (v & ? & _); discriminate]|].
    split; [reflexivity|]. discriminate.
Qed.

(** X9: the two outputs go together. When [commit] returns: without data
    it has sent None on both channels and cleared the two counts; for an
    SQL table it has sent a table as the sample and None as the rest and
    left the widget, counts included, as it was; for a table in memory it
    has either sent nothing, the indices being None, or sent last a
    sample and a rest whose lengths are the two counts, and nothing
    before them. Sample and rest are then two tables, over the domain
    of the data when the indices have the shape of the sampling type,
    or, when a pair of index arrays is unpacked under cross validation,
    two rows of the data as row instances. *)
Theorem commit_sends_both_or_none :
  forall lib w w' es,
    commit lib w = Return (w', es) ->
    match data w with
    | None =>
        es = [Send "data_sample" PyNone; Send "remaining_data" PyNone] /\
        sampled_instances w' = None /\ remaining_instances w' = None
    | Some (SqlTable _) =>
        w' = w /\
        exists s, es = [Send "data_sample" (PyTable s); Send "remaining_data" PyNone]
    | Some (InMemory t) =>
        (indices w' = None /\ sends_nothing es)
        \/
        (exists ind before sample other,
            indices w' = Some ind /\
            es = before ++ [Send "data_sample" sample; Send "remaining_data" other] /\
            sends_nothing before /\
            sampled_instances w' = Some (py_len sample) /\
            remaining_instances w' = Some (py_len other) /\
            ((exists s o,
                 sample = PyTable s /\ other = PyTable o /\
                 (matching_indices w ind -> domain s = domain t /\ domain o = domain t))
             \/
             (sampling_type w = CrossValidation /\ (exists a b, ind = Pair a b) /\
              exists r r',
                sample = PyInstance (domain t) r /\ other = PyInstance (domain t) r' /\
                r ∈ rows t /\ r' ∈ rows t)))
    end.
Proof.
  intros lib w w' es Hcommit.
  destruct (data w) as [[t|t]|] eqn:Hdata.
  - destruct (commit_in_memory lib w t w' es Hdata Hcommit)
      as [Hnone|(ind & before & Hsend & Hquiet & _)]; [by left|right].
    destruct (send_sample_spec lib _ t ind before w' es Hsend)
      as (remaining & sample & s & o & Hunpack & Hs & Ho & -> & ->).
    exists ind, before, s, o. split; [reflexivity|]. split; [reflexivity|].
    split; [exact Hquiet|]. split; [reflexivity|]. split; [reflexivity|].
    pose proof (getitem_value _ _ _ _ Hs) as Hsv.
    pose proof (getitem_value _ _ _ _ Ho) as Hov.
    destruct (unpack_indices_shapes _ _ _ _ Hunpack)
      as [(a & b & -> & ->)|[(a & b & c & d & -> & ->)|(Hcv & Hpair & i & j & -> & ->)]].
    + destruct Hsv as (s' & -> & Hs'), Hov as (o' & -> & Ho'). left.
      exists s', o'. split; [reflexivity|]. split; [reflexivity|]. intros _.
      split; [exact (take_rows_domain _ _ _ Hs')|exact (take_rows_domain _ _ _ Ho')].
    + destruct Hsv as (s' & ->), Hov as (o' & ->). left.
      exists s', o'. split; [reflexivity|]. split; [reflexivity|]. intros Hm.
      destruct (unpack_matching_indices _ _ _ _ Hm Hunpack) as (? & ? & Hrows & _).
      discriminate Hrows.
    + destruct Hsv as (r & -> & Hr), Hov as (r' & -> & Hr'). right.
      split; [exact Hcv|]. split; [exact Hpair|].
      exists r, r'. split; [reflexivity|]. split; [reflexivity|].
      split; eapply list_elem_of_lookup_2; eassumption.
  - revert Hcommit. unfold commit. rewrite Hdata.
    intros H. injection H as <- <-. split; [reflexivity|]. by eexists.
  - revert Hcommit. unfold commit. rewrite Hdata.
    intros H. injection H as <- <-. by repeat split.
Qed.

(** X9 at work: one row of three sampled. *)
Lemma commit_sends_both_or_none_witness :
  exists before s o,
    [ClearMessage "Error"; ClearMessage "Warning"; Call "sample";
     Send "data_sample" (PyTable (mkTable (domain examples.data3) [[1; 2]]%Q));
     Send "remaining_data"
       (PyTable (mkTable (domain examples.data3) [[-3; 0]; [5; 5]]%Q))]
    = before ++ [Send "data_sample" (PyTable s); Send "remaining_data" (PyTable o)] /\
    @sends_nothing task before /\
    domain s = domain examples.data3 /\ domain o = domain examples.data3.
Proof.
  pose proof (commit_sends_both_or_none examples.sampler_lib examples.modest_sampler
                _ _ eq_refl) as H.
  cbn [data examples.modest_sampler] in H.
  destruct H as [[H _]|(ind & before & sample & other & Hind & Hes & Hq & _ & _ & Hkind)];
    [discriminate H|].
  injection Hind as <-.
  destruct Hkind as [(s & o & -> & -> & Hdom)|(Hcv & _)]; [|discriminate Hcv].
  destruct Hdom as [Hs Ho]; [cbn; discriminate|].
  exists before, s, o. repeat split; assumption.
Defined.

End sampler_widget.

(** ** The outliers widget *)

Section outliers_widget.
Import owoutliers.

(** Two lists of one length are indexed at the same position. *)
Lemma py_index_same_position {A B} (l : list A) (l' : list B) i x :
  length l = length l' ->
  py_index l i = Return x ->
  exists k y, l !! k = Some x /\ l' !! k = Some y /\ py_index l' i = Return y.
Proof.
  intros Hlen. unfold py_index. rewrite <- Hlen.
  destruct (_ <? 0)%Z; [discriminate|].
  match goal with |- context [l !! ?n] => set (k := n) end.
  destruct (l !! k) as [x'|] eqn:Hk; [|discriminate].
  intros H. injection H as ->.
  destruct (l' !! k) as [y|] eqn:Hk'.
  - by exists k, y.
  - apply lookup_ge_None in Hk'. apply lookup_lt_Some in Hk. lia.
Qed.

Lemma get_parameters_of_editor w k :
  k < 4 -> current_editor w = Z.of_nat k ->
  get_parameters w = editor_parameters k w.
Proof.
  intros Hk He. unfold get_parameters. rewrite He.
  destruct k as [|[|[|[|k]]]]; try reflexivity. lia.
Qed.

(** A commit of a widget in step starts a paired task and stays in
    step. *)
Lemma commit_in_step w w' es :
  in_step w -> commit w = Return (w', es) ->
  in_step w' /\ Forall (paired w') (started es).
Proof.
  unfold in_step, commit. intros Hstep.
  cbn [outlier_method set_field_counts].
  destruct (py_index_same_position [0; 1; 2; 3]%Z METHODS _ _ eq_refl Hstep)
    as (k & cls & Hk & Hcls & ->).
  destruct (get_parameters _) as [kw|] eqn:Hkw; [|discriminate].
  intros H. injection H as <- <-. split; [exact Hstep|].
  cbn [started]. constructor; [|constructor].
  exists k. split; [exact Hcls|]. cbn [kwargs].
  rewrite <- Hkw. symmetry. apply get_parameters_of_editor.
  - apply lookup_lt_Some in Hk. exact Hk.
  - cbn [current_editor set_field_counts].
    destruct k as [|[|[|[|k]]]]; cbn in Hk; try discriminate Hk;
      injection Hk as <-; reflexivity.
Qed.

Lemma do_commit_in_step w w' es :
  in_step w ->
  gui.do_commit set_field_commit_dirty commit w = Return (w', es) ->
  in_step w' /\ Forall (paired w') (started es).
Proof.
  intros Hstep. unfold gui.do_commit.
  destruct (commit w) as [[w1 es1]|] eqn:Hc; [|discriminate].
  intros H. injection H as <- <-.
  exact (commit_in_step w w1 es1 Hstep Hc).
Qed.

Lemma commit_deferred_in_step w w' es :
  in_step w -> commit_deferred w = Return (w', es) ->
  in_step w' /\ Forall (paired w') (started es).
Proof.
  intros Hstep. unfold commit_deferred, gui.deferred.
  destruct (auto_commit w).
  - by apply do_commit_in_step.
  - intros H. injection H as <- <-. split; [exact Hstep|constructor].
Qed.

Lemma set_current_editor_in_step w w' :
  set_current_editor w = Return w' ->
  in_step w' /\ outlier_method w' = outlier_method w /\ data w' = data w.
Proof.
  unfold set_current_editor, in_step.
  destruct (py_index _ (outlier_method w)) as [e|] eqn:He; [|discriminate].
  intros H. injection H as <-. by repeat split.
Qed.

Lemma enable_controls_in_step w w' msgs :
  in_step w -> enable_controls w = Return (w', msgs) ->
  in_step w' /\ started msgs = [].
Proof.
  intros Hstep. unfold enable_controls.
  destruct (data w) as [d|].
  - destruct (_ && _).
    + destruct (set_current_editor _) as [w1|] eqn:Hs; [|discriminate].
      intros H. injection H as <- <-. split; [|reflexivity].
      by apply set_current_editor_in_step in Hs as [Hs _].
    + intros H. by injection H as <- <-.
  - intros H. by injection H as <- <-.
Qed.

(** X10: the learner is built from its own editor's parameters. Every
    handler of the widget that returns leaves the editor shown in step
    with the method selected, and every task it starts pairs the learner
    class of a method with the parameters of that method's editor; for a
    change of the method this needs nothing of the widget before, for
    new data, a changed parameter and the apply button it needs the
    widget to be in step before. *)
Theorem learner_and_parameters_in_step :
  forall (h : OWOutliers -> outcome (OWOutliers * list (effect task))) w w' es,
    h = __method_changed
    \/ in_step w /\ (h = param_changed \/ h = apply_clicked \/ exists d, h = set_data d) ->
    h w = Return (w', es) ->
    in_step w' /\ Forall (paired w') (started es).
Proof.
  intros h w w' es [->|[Hstep [->|[->|[d ->]]]]].
  - unfold __method_changed.
    destruct (set_current_editor w) as [w1|] eqn:Hs; [|discriminate].
    apply set_current_editor_in_step in Hs as [Hs _].
    by apply commit_deferred_in_step.
  - by apply commit_deferred_in_step.
  - by apply do_commit_in_step.
  - unfold set_data, check_sql_input.
    destruct (enable_controls _) as [[w1 msgs]|] eqn:He; [|discriminate].
    apply enable_controls_in_step in He as [Hs Hmsgs]; [|exact Hstep].
    change (commit_now w1) with (gui.do_commit set_field_commit_dirty commit w1).
    destruct (gui.do_commit _ _ w1) as [[w2 es2]|] eqn:Hc; [|discriminate].
    intros H. injection H as <- <-.
    destruct (do_commit_in_step w1 w2 es2 Hs Hc) as [Hs2 Hp]. split; [exact Hs2|].
    cbn [started]. by rewrite started_app, Hmsgs.
Qed.

(** X10 at work: the method changed to the isolation forest. *)
Lemma learner_and_parameters_in_step_witness :
  started (match __method_changed
                   (set_field_outlier_method IsolationForest examples.outliers_widget)
           with Return (_, es) => es | Raise _ => [] end)
  = [mkTask (Some examples.data3) "IsolationForestLearner"
       (<["contamination" := PyFloat (percent 10)]>
          (<["random_state" := PyNone]> ∅))] /\
  Forall (paired (set_field_current_editor IsolationForest
                    (set_field_outlier_method IsolationForest examples.outliers_widget)))
    [mkTask (Some examples.data3) "IsolationForestLearner"
       (<["contamination" := PyFloat (percent 10)]>
          (<["random_state" := PyNone]> ∅))].
Proof.
  split; [reflexivity|].
  destruct (learner_and_parameters_in_step __method_changed
              (set_field_outlier_method IsolationForest examples.outliers_widget)
              _ _ (or_introl eq_refl) eq_refl) as [_ Hp].
  exact Hp.
Defined.

(** X11: too many features force the local outlier factor. When
    [set_data] returns for a non-empty table with more than 1500
    features, the method and the editor are those of the local outlier
    factor whatever was selected, the warning is shown, and the one task
    started fits that learner with the parameters of its editor on the
    new data. For a table that is empty or has at most 1500 features the
    method stays and no warning is shown. *)
Theorem too_many_features_forces_lof :
  forall d w w' es,
    set_data (Some d) w = Return (w', es) ->
    (0 < len d -> MAX_FEATURES < length (attributes (domain d)) ->
       outlier_method w' = LOF /\ current_editor w' = LOF /\
       Message "disabled_cov" ∈ es /\
       exists kw,
         LocalOutlierFactorEditor_get_parameters (lof_editor w) = Return kw /\
         started es = [mkTask (Some d) "LocalOutlierFactorLearner" kw]) /\
    (len d = 0 \/ length (attributes (domain d)) <= MAX_FEATURES ->
       outlier_method w' = outlier_method w /\ Message "disabled_cov" ∉ es).
Proof.
  intros d w w' es. unfold set_data, check_sql_input, enable_controls.
  cbn [data set_field_data truthy].
  destruct (Nat.eqb_spec (len d) 0) as [Hz|Hz]; cbn [negb andb].
  - unfold commit_now, gui.now, gui.do_commit.
    destruct (commit _) as [[w2 es2]|] eqn:Hc; [|discriminate].
    intros H. injection H as <- <-. split; [lia|]. intros _.
    revert Hc. unfold commit.
    destruct (py_index METHODS _); [|discriminate].
    destruct (get_parameters _); [|discriminate].
    intros H. injection H as <- <-. split; [reflexivity|].
    intros Hin. repeat (apply elem_of_cons in Hin as [Hin|Hin]; [discriminate Hin|]).
    inversion Hin.
  - destruct (Nat.ltb_spec MAX_FEATURES (length (attributes (domain d)))) as [Hlt|Hle].
    + unfold commit_now, gui.now, gui.do_commit, commit.
      set (w1 := set_field_current_editor LOF
                   (set_field_outlier_method LOF (set_field_data (Some d) w))).
      assert (H1 : set_current_editor
                     (set_field_outlier_method LOF (set_field_data (Some d) w))
                   = Return w1) by reflexivity.
      assert (H2 : py_index METHODS (outlier_method (set_field_counts None None w1))
                   = Return "LocalOutlierFactorLearner") by reflexivity.
      assert (H3 : get_parameters (set_field_counts None None w1)
                   = LocalOutlierFactorEditor_get_parameters (lof_editor w))
        by reflexivity.
      rewrite H1. cbv beta iota zeta. rewrite H2, H3.
      destruct (LocalOutlierFactorEditor_get_parameters (lof_editor w)) as [kw|];
        [|discriminate].
      intros H. injection H as <- <-. split; [|lia]. intros _ _.
      split; [reflexivity|]. split; [reflexivity|]. split; [set_solver|].
      by exists kw.
    + unfold commit_now, gui.now, gui.do_commit.
      destruct (commit _) as [[w2 es2]|] eqn:Hc; [|discriminate].
      intros H. injection H as <- <-. split; [lia|]. intros _.
      revert Hc. unfold commit.
      destruct (py_index METHODS _); [|discriminate].
      destruct (get_parameters _); [|discriminate].
      intros H. injection H as <- <-. split; [reflexivity|].
    intros Hin. repeat (apply elem_of_cons in Hin as [Hin|Hin]; [discriminate Hin|]).
    inversion Hin.
Qed.

(** X11 at work: 1501 features given to a widget set to the covariance
    estimator. *)
Lemma too_many_features_forces_lof_witness :
  exists w' es,
    set_data (Some examples.wide_table)
      (set_field_current_editor Covariance
         (set_field_outlier_method Covariance examples.outliers_widget))
      = Return (w', es) /\
    outlier_method w' = LOF /\
    exists kw, started es = [mkTask (Some examples.wide_table)
                                    "LocalOutlierFactorLearner" kw].
Proof.
  destruct (set_data (Some examples.wide_table)
              (set_field_current_editor Covariance
                 (set_field_outlier_method Covariance examples.outliers_widget)))
    as [[w' es]|] eqn:Hset; [|discriminate Hset].
  exists w', es. split; [reflexivity|].
  destruct (too_many_features_forces_lof _ _ _ _ Hset) as [Hwide _].
  destruct Hwide as (Hm & _ & _ & kw & _ & Hstarted).
  - cbn. lia.
  - apply Nat.ltb_lt. vm_compute. reflexivity.
  - split; [exact Hm|]. by exists kw.
Defined.

(** X12: what the report needs. With data on the input, after [on_done]
    the report is empty, without even the detection parameters, as soon
    as the result has no inliers or no outliers (the table missing or
    without rows); when both tables have rows, a report that is made
    starts with the number of input rows and the sizes of the two tables
    and ends with the parameters of the editor. After a commit and until
    its task is done the report is empty as well. *)
Theorem report_needs_both_parts :
  forall result w d,
    data w = Some d ->
    (truthy (inliers result) = false \/ truthy (outliers result) = false ->
       send_report (on_done result w).1 = Return []) /\
    (forall inl outl r,
        inliers result = Some inl -> outliers result = Some outl ->
        0 < len inl -> 0 < len outl ->
        send_report (on_done result w).1 = Return r ->
        exists ps,
          get_report_parameters w = Return ps /\
          r = [("数据", [("输入实例", PyInt (Z.of_nat (len d)));
                         ("内层", PyInt (Z.of_nat (len inl)));
                         ("异常值", PyInt (Z.of_nat (len outl)))]);
               ("检测", ps)]) /\
    (forall w2 es, commit w = Return (w2, es) -> send_report w2 = Return []).
Proof.
  intros result w d Hdata. split; [|split].
  - unfold send_report, on_done. cbn [fst data set_field_counts n_outliers n_inliers].
    rewrite Hdata. intros [->| ->]; [|reflexivity].
    by destruct (if truthy (outliers result) then _ else _).
  - intros inl outl r Hin Hout Hlin Hlout.
    unfold send_report, on_done. cbn [fst data set_field_counts n_outliers n_inliers].
    rewrite Hdata, Hin, Hout. cbn [truthy fmap option_fmap option_map].
    destruct (Nat.eqb_spec (len inl) 0) as [|_]; [lia|].
    destruct (Nat.eqb_spec (len outl) 0) as [|_]; [lia|].
    cbn [negb].
    change (get_report_parameters (set_field_counts _ _ w))
      with (get_report_parameters w).
    destruct (get_report_parameters w) as [ps|]; [|discriminate].
    intros H. injection H as <-. by exists ps.
  - intros w2 es. unfold commit.
    destruct (py_index METHODS _); [|discriminate].
    destruct (get_parameters _); [|discriminate].
    intros H. injection H as <- _. unfold send_report.
    cbn [data set_field_counts n_outliers n_inliers]. by rewrite Hdata.
Qed.

(** X12 at work: a run that found no outlier leaves no report. *)
Lemma report_needs_both_parts_witness :
  send_report
    (on_done (mkResults (Some examples.data3) (Some examples.empty_table)
                        (Some examples.data3)) examples.outliers_widget).1
  = Return [].
Proof.
  destruct (report_needs_both_parts
              (mkResults (Some examples.data3) (Some examples.empty_table)
                         (Some examples.data3))
              examples.outliers_widget examples.data3 eq_refl) as [Hempty _].
  apply Hempty. right. reflexivity.
Defined.

(** X13: migrating the outliers' settings. Settings of version 2 and
    later are left alone. For older ones, and for settings without a
    version, the call sets the two keys svm_editor and cov_editor and
    keeps every other key, the old flat ones included; the new
    dictionaries hold the old values, or 50, 0.01, 10, False and 1 where
    there was none; and migrating again changes nothing more. *)
Theorem outliers_migrate_settings_keeps_and_repeats :
  forall settings version,
    (forall v, version = Some v -> (2 <= v)%Z ->
       migrate_settings settings version = settings) /\
    (forall k, k <> "svm_editor" -> k <> "cov_editor" ->
       migrate_settings settings version !! k = settings !! k) /\
    (older_than version 2 = true ->
       migrate_settings settings version !! "svm_editor"
       = Some (PyDict (<["nu" := get_default "nu" (PyInt 50) settings]>
                         (<["gamma" := get_default "gamma" (PyFloat (1 # 100)) settings]>
                            ∅))) /\
       migrate_settings settings version !! "cov_editor"
       = Some (PyDict
                 (<["cont" := get_default "cont" (PyInt 10) settings]>
                    (<["empirical_covariance" :=
                         get_default "empirical_covariance" (PyBool false) settings]>
                       (<["support_fraction" :=
                            get_default "support_fraction" (PyInt 1) settings]> ∅))))) /\
    migrate_settings (migrate_settings settings version) version
    = migrate_settings settings version.
Proof.
  intros settings version. unfold migrate_settings.
  destruct (older_than version 2) eqn:Hold.
  - assert (Hget : forall k dflt (s : gmap string pyval) k' v,
               k <> k' -> get_default k dflt (<[k' := v]> s) = get_default k dflt s).
    { intros k dflt s k' v Hk. unfold get_default. by rewrite lookup_insert_ne. }
    split; [|split; [|split]].
    + intros v -> Hv. cbn in Hold. apply Z.ltb_lt in Hold. lia.
    + intros k Hs Hc. by rewrite !lookup_insert_ne.
    + intros _. split.
      * rewrite lookup_insert_ne by discriminate. by rewrite lookup_insert.
      * rewrite lookup_insert. by rewrite !Hget.
    + rewrite !Hget by discriminate.
      apply map_eq. intros k.
      destruct (decide (k = "cov_editor")) as [->|Hc].
      { by rewrite !lookup_insert. }
      destruct (decide (k = "svm_editor")) as [->|Hs].
      { rewrite !(lookup_insert_ne _ "cov_editor") by done. by rewrite !lookup_insert. }
      by rewrite !lookup_insert_ne.
  - split; [|split; [|split]]; try reflexivity. discriminate.
Qed.

End outliers_widget.

(** ** The distances widget *)

Section distances_widget.
Import owdistances.

Lemma py_index_elem {A} (l : list A) i x : py_index l i = Return x -> x ∈ l.
Proof.
  unfold py_index. destruct (_ <? 0)%Z; [discriminate|].
  destruct (l !! _) as [y|] eqn:Hy; [|discriminate].
  intros H. injection H as <-. by eapply list_elem_of_lookup_2.
Qed.

(** Every metric the old index stood for is one the widget knows, and so
    is its normalized variant. *)
Lemma old_metrics_known id :
  id ∈ metric_id_of_idx ->
  is_Some (assoc id MetricDefs) /\ is_Some (assoc (normalized_variant id) MetricDefs).
Proof.
  intros Hin.
  assert (H : Forall (fun id => is_Some (assoc id MetricDefs) /\
                                is_Some (assoc (normalized_variant id) MetricDefs))
                     metric_id_of_idx).
  { repeat constructor; by eexists. }
  rewrite Forall_forall in H. by apply H.
Qed.

Lemma migrate_normalized_dist_frame settings version k :
  k <> "normalized_dist" ->
  migrate_normalized_dist settings version !! k = settings !! k.
Proof.
  intros Hk. unfold migrate_normalized_dist.
  destruct (match version with None => _ | Some _ => _ end);
    [by rewrite lookup_insert_ne|reflexivity].
Qed.

Lemma migrate_mahalanobis_frame settings version s' r k :
  migrate_mahalanobis settings version = (s', r) ->
  k <> "metric_idx" -> s' !! k = settings !! k.
Proof.
  unfold migrate_mahalanobis. intros H Hk.
  destruct (older_than version 3); [|by injection H as <- _].
  destruct (settings !! "metric_idx") as [idx|]; [|by injection H as <- _].
  destruct (as_int idx) as [z|]; [|by injection H as <- _].
  destruct (z =? 2)%Z; [injection H as <- _; by rewrite lookup_insert_ne|].
  destruct (_ && _); injection H as <- _; [by rewrite lookup_insert_ne|reflexivity].
Qed.

(** X14: a migration that succeeds lands on a metric the widget knows.
    When [migrate_settings] returns for settings of a version below 4,
    the settings hold under metric_id the id of one of the twelve
    metrics, the keys metric_idx and normalized_dist are gone, and every
    other key is as it was; a widget with that metric id commits without
    an exception. Settings of version 4 and later are returned as they
    are. *)
Theorem distances_migration_lands_on_known_metric :
  forall settings v,
    ((v < 4)%Z ->
     forall s',
       migrate_settings settings (Some v) = (s', Return tt) ->
       exists id,
         s' !! "metric_id" = Some (PyInt id) /\
         is_Some (assoc id MetricDefs) /\
         s' !! "metric_idx" = None /\
         s' !! "normalized_dist" = None /\
         (forall k, ~ migrated_key k -> s' !! k = settings !! k) /\
         (forall lib tab w, metric_id w = id ->
                            exists es, commit lib tab w = Return (w, es))) /\
    ((4 <= v)%Z -> migrate_settings settings (Some v) = (settings, Return tt)).
Proof.
  intros settings v. split.
  - intros Hv s'. unfold migrate_settings.
    pose proof (migrate_normalized_dist_frame settings (Some v)) as Hframe1.
    set (s1 := migrate_normalized_dist settings (Some v)) in *.
    destruct (migrate_mahalanobis s1 (Some v)) as [s2 [[]|ex]] eqn:Hm; [|discriminate].
    pose proof (fun k => migrate_mahalanobis_frame s1 (Some v) s2 _ k Hm) as Hframe2.
    unfold migrate_metric_id.
    destruct (Z.ltb_spec v 4) as [_|]; [|lia].
    destruct (s2 !! "metric_idx") as [idx|]; [|discriminate].
    destruct (as_int idx) as [z|]; [|discriminate].
    destruct (py_index metric_id_of_idx z) as [id0|] eqn:Hid; [|discriminate].
    apply py_index_elem, old_metrics_known in Hid as [Hknown Hknown'].
    intros H. injection H as <-.
    match goal with |- context [PyInt ?i] => set (id := i) end.
    assert (Hid : is_Some (assoc id MetricDefs)).
    { subst id. by destruct (py_truth _). }
    exists id. split; [by rewrite lookup_insert|]. split; [exact Hid|].
    split; [|split; [|split]].
    + rewrite lookup_insert_ne by discriminate.
      rewrite lookup_delete_ne by discriminate. by rewrite lookup_delete.
    + rewrite lookup_insert_ne by discriminate. by rewrite lookup_delete.
    + intros k Hk. unfold migrated_key in Hk.
      rewrite lookup_insert_ne by (intros <-; tauto).
      rewrite !lookup_delete_ne by (intros <-; tauto).
      rewrite Hframe2 by (intros ->; tauto).
      apply Hframe1. intros ->. tauto.
    + intros lib tab w Hw. unfold commit, compute_distances. rewrite Hw.
      destruct Hid as [m ->].
      destruct (data w) as [d|]; [|by eexists].
      destruct (run_checks _ d) as [msgs data']. by eexists.
  - intros Hv. unfold migrate_settings, migrate_normalized_dist, migrate_mahalanobis,
      migrate_metric_id, older_than.
    destruct (Z.ltb_spec v 2) as [|_]; [lia|].
    destruct (Z.ltb_spec v 3) as [|_]; [lia|].
    destruct (Z.ltb_spec v 4) as [|_]; [lia|].
    reflexivity.
Qed.

(** X14 at work: normalized Euclidean distances saved under version 3. *)
Lemma distances_migration_lands_on_known_metric_witness :
  exists id,
    (<["metric_id" := PyInt EuclideanNormalized]> (<["axis" := PyInt 1]> ∅)
       : gmap string pyval) !! "metric_id" = Some (PyInt id) /\
    is_Some (assoc id MetricDefs).
Proof.
  destruct (proj1 (distances_migration_lands_on_known_metric
                     (<["metric_idx" := PyInt 0]>
                        (<["normalized_dist" := PyBool true]>
                           (<["axis" := PyInt 1]> ∅))) 3)
              ltac:(lia)
              (<["metric_id" := PyInt EuclideanNormalized]> (<["axis" := PyInt 1]> ∅)))
    as (id & Hid & Hknown & _).
  - vm_compute. reflexivity.
  - exists id. split; [exact Hid|exact Hknown].
Defined.

(** X15: Mahalanobis distances of too large data are not computed. For
    data the metric can take as to sparsity, with more than 1000 rows
    when distances are between rows, or more than 1000 features
    otherwise, [commit] shows the error and starts the task on no data;
    the task then returns None without touching its state, and
    [on_done] sends None. *)
Theorem mahalanobis_too_large_computes_nothing :
  forall lib tab w d,
    data w = Some d ->
    metric_id w = Mahalanobis ->
    issparse tab d && negb (supports_sparse lib distance.Mahalanobis) = false ->
    (axis w = 0%Z /\ 1000 < len d) \/
    (axis w <> 0%Z /\ 1000 < length (attributes (domain d))) ->
    commit lib tab w
      = Return (w, [ClearMessages; Message "data_too_large_for_mahalanobis";
                    Start (mkTask None distance.Mahalanobis false (axis w))]) /\
    (forall st : TaskState unit,
        DistanceRunner.run lib None distance.Mahalanobis false (axis w) st
        = (st, Return PyNone)) /\
    on_done PyNone = Return [Send "distances" PyNone].
Proof.
  intros lib tab w d Hdata Hmetric Hsparse Hlarge.
  split; [|split; reflexivity].
  unfold commit, compute_distances. rewrite Hmetric, Hdata.
  cbn [assoc MetricDefs map Z.eqb Mahalanobis EuclideanNormalized Euclidean
       ManhattanNormalized Manhattan id Pos.eqb].
  cbn [run_checks]. unfold _check_sparse at 1. cbn [metric]. rewrite Hsparse.
  unfold _check_tractability at 1. cbn [metric].
  rewrite bool_decide_true by reflexivity.
  destruct Hlarge as [[-> Hrows]|[Haxis Hcols]].
  - cbn [Z.eqb]. apply Nat.ltb_lt in Hrows. rewrite Hrows. reflexivity.
  - destruct (Z.eqb_spec (axis w) 0) as [|_]; [contradiction|].
    apply Nat.ltb_lt in Hcols. rewrite Hcols. reflexivity.
Qed.

(** X15 at work: 1001 rows. *)
Lemma mahalanobis_too_large_computes_nothing_witness :
  commit examples.dist_lib examples.table_lib
    (mkOWDistances (Some examples.long_table) 0 Mahalanobis true false)
  = Return (mkOWDistances (Some examples.long_table) 0 Mahalanobis true false,
            [ClearMessages; Message "data_too_large_for_mahalanobis";
             Start (mkTask None distance.Mahalanobis false 0)]).
Proof.
  refine (proj1 (mahalanobis_too_large_computes_nothing examples.dist_lib
                   examples.table_lib
                   (mkOWDistances (Some examples.long_table) 0 Mahalanobis true false)
                   examples.long_table eq_refl eq_refl eq_refl _)).
  left. split; [reflexivity|]. apply Nat.ltb_lt. vm_compute. reflexivity.
Defined.

Lemma DistanceRunner_callback_quiet i (st : TaskState unit) :
  quiet st ->
  DistanceRunner.callback i st
  = (mkTaskState (interruption st) (S (polls st))
       (trace st ++ [SetProgressValue i; PollInterruption false]), Return tt).
Proof.
  intros Hq. unfold DistanceRunner.callback, bind, set_progress_value, emit,
    is_interruption_requested. cbn. rewrite Hq. cbn. by rewrite <- app_assoc.
Qed.

Lemma distance_script_quiet script : forall st : TaskState unit,
  quiet st ->
  exists st',
    run_script (fun i _ => DistanceRunner.callback i) script st = (st', Return tt) /\
    trace st' = trace st ++ script_events script /\
    interruption st' = interruption st.
Proof.
  unfold run_script.
  induction script as [|a script IH]; intros st Hq; cbn [for_each script_events flat_map].
  - exists st. by rewrite app_nil_r.
  - unfold bind at 1. destruct a as [i s|callee].
    + rewrite (DistanceRunner_callback_quiet i st Hq).
      destruct (IH (mkTaskState (interruption st) (S (polls st))
                      (trace st ++ [SetProgressValue i; PollInterruption false])))
        as (st' & -> & Ht & Hi); [exact Hq|].
      exists st'. split; [reflexivity|]. split; [|exact Hi].
      rewrite Ht. cbn. by rewrite <- app_assoc.
    + cbn.
      destruct (IH (mkTaskState (interruption st) (polls st) (trace st ++ [Step callee])))
        as (st' & -> & Ht & Hi); [exact Hq|].
      exists st'. split; [reflexivity|]. split; [|exact Hi].
      rewrite Ht. cbn. by rewrite <- app_assoc.
Qed.

(** X16: a distance computation nobody interrupts. On data, [run] sets
    the status, lets the distance report its progress, each report
    followed by one poll, and returns or raises what the distance does
    when called with axis [1 - axis] and imputation on; normalization is
    asked for only if the metric supports it and the metric chosen is a
    normalized one. *)
Theorem distances_run_uninterrupted :
  forall lib d metric normalized_dist axis (st : TaskState unit),
    quiet st ->
    exists st' kwargs,
      DistanceRunner.run lib (Some d) metric normalized_dist axis st
        = (st', metric_call lib metric d kwargs) /\
      trace st' = trace st ++ SetStatus "计算中..."
                            :: script_events (metric_script lib metric d) /\
      kwargs !! "axis" = Some (PyInt (1 - axis)) /\
      kwargs !! "impute" = Some (PyBool true) /\
      kwargs !! "normalize"
        = (if supports_normalization lib metric && normalized_dist
           then Some (PyBool true) else None).
Proof.
  intros lib d metric nd axis st Hq. unfold DistanceRunner.run.
  unfold bind at 1. unfold set_status, emit.
  destruct (distance_script_quiet (metric_script lib metric d)
              (mkTaskState (interruption st) (polls st)
                 (trace st ++ [SetStatus "计算中..."])))
    as (st' & Hrun & Ht & _); [exact Hq|].
  unfold bind. rewrite Hrun. unfold lift.
  eexists st', _. split; [reflexivity|]. split.
  { rewrite Ht. cbn. by rewrite <- app_assoc. }
  destruct (supports_normalization lib metric && nd); by repeat split.
Qed.

(** X16 at work: the normalized Euclidean distance on three rows. *)
Lemma distances_run_uninterrupted_witness :
  exists st',
    DistanceRunner.run examples.dist_lib (Some examples.data3) distance.Euclidean true 0
      (fresh never)
    = (st', Return (PyDistMatrix (mkDistMatrix 1 [[0; 0; 0]; [0; 0; 0]; [0; 0; 0]]%Q))) /\
    trace st' = [SetStatus "计算中..."; SetProgressValue 0; PollInterruption false;
                 Step "distance"; SetProgressValue 100; PollInterruption false].
Proof.
  destruct (distances_run_uninterrupted examples.dist_lib examples.data3
              distance.Euclidean true 0 (fresh never))
    as (st' & kwargs & Hrun & Ht & _).
  { intros k. reflexivity. }
  exists st'. split; [exact Hrun|exact Ht].
Defined.

Lemma DistanceRunner_callback_step i (st : TaskState unit) :
  DistanceRunner.callback i st
  = (mkTaskState (interruption st) (S (polls st))
       (trace st ++ [SetProgressValue i; PollInterruption (interruption st (polls st))]),
     if interruption st (polls st) then Raise InterruptException else Return tt).
Proof.
  unfold DistanceRunner.callback, bind, set_progress_value, emit,
    is_interruption_requested. cbn.
  destruct (interruption st (polls st)); cbn; by rewrite <- app_assoc.
Qed.

(** The progress reports of a distance either all pass or end at a poll
    that finds interruption requested. *)
Lemma distance_script_outcome script : forall st : TaskState unit,
  (exists st', run_script (fun i _ => DistanceRunner.callback i) script st
               = (st', Return tt)) \/
  (exists st' pre,
      run_script (fun i _ => DistanceRunner.callback i) script st
      = (st', Raise InterruptException) /\
      trace st' = trace st ++ pre ++ [PollInterruption true]).
Proof.
  unfold run_script.
  induction script as [|a script IH]; intros st; cbn [for_each].
  - left. by exists st.
  - unfold bind at 1 2. destruct a as [i s|callee].
    + rewrite DistanceRunner_callback_step.
      destruct (interruption st (polls st)).
      * right. eexists _, [SetProgressValue i]. split; [reflexivity|]. reflexivity.
      * match goal with |- context [for_each _ script ?s] =>
          destruct (IH s) as [(st' & ->)|(st' & pre & -> & Ht)] end.
        -- left. by exists st'.
        -- right. exists st', (SetProgressValue i :: PollInterruption false :: pre).
           split; [reflexivity|]. rewrite Ht. cbn. by rewrite <- !app_assoc.
    + cbn.
      match goal with |- context [for_each _ script ?s] =>
        destruct (IH s) as [(st' & ->)|(st' & pre & -> & Ht)] end.
      * left. by exists st'.
      * right. exists st', (Step callee :: pre).
        split; [reflexivity|]. rewrite Ht. cbn. by rewrite <- !app_assoc.
Qed.

(** X22: a distance computation fails only as the distance does or by
    interruption. When [run] raises, either the exception is
    InterruptException, raised right after a poll that found
    interruption requested, and [on_exception] shows and sends nothing
    for it; or it is the exception the distance itself raised when
    called. Whatever exception [on_exception] handles, it sends
    nothing. *)
Theorem distance_failures_are_interruption_or_the_metric_s :
  forall lib d metric normalized_dist axis (st : TaskState unit) ex,
    (DistanceRunner.run lib (Some d) metric normalized_dist axis st).2 = Raise ex ->
    ((ex = InterruptException /\
      (exists pre,
          trace (DistanceRunner.run lib (Some d) metric normalized_dist axis st).1
          = trace st ++ pre ++ [PollInterruption true]) /\
      on_exception ex = Return [])
     \/
     (exists kwargs, metric_call lib metric d kwargs = Raise ex)) /\
    (forall es, on_exception ex = Return es -> sends_nothing es).
Proof.
  intros lib d metric nd axis st ex Hraise. split.
  - revert Hraise. unfold DistanceRunner.run.
    unfold bind at 1 2. unfold set_status, emit.
    unfold bind.
    match goal with |- context [run_script _ _ ?s] =>
      destruct (distance_script_outcome (metric_script lib metric d) s)
        as [(st' & ->)|(st' & pre & -> & Ht)] end.
    + unfold lift. cbn [snd]. intros H. right. by eexists.
    + cbn [fst snd]. intros H. injection H as <-. left. split; [reflexivity|].
      split; [|reflexivity]. exists (SetStatus "计算中..." :: pre).
      rewrite Ht. cbn. by rewrite <- !app_assoc.
  - intros es. destruct ex; try discriminate; intros H; injection H as <-;
      repeat constructor.
Qed.

(** X22 at work: interruption requested at the second poll. *)
Lemma distance_failures_are_interruption_or_the_metric_s_witness :
  (DistanceRunner.run examples.dist_lib (Some examples.data3) distance.Euclidean true 0
     (fresh (from_poll 1))).2 = Raise InterruptException /\
  on_exception InterruptException = Return [].
Proof.
  split; [reflexivity|].
  destruct (distance_failures_are_interruption_or_the_metric_s examples.dist_lib
              examples.data3 distance.Euclidean true 0 (fresh (from_poll 1))
              InterruptException eq_refl) as [[(_ & _ & Hsilent)|(kwargs & Hmetric)] _].
  - exact Hsilent.
  - discriminate Hmetric.
Defined.

Lemma shows_error_app (a b : list (effect task)) :
  shows_error (a ++ b) <-> shows_error a \/ shows_error b.
Proof.
  unfold shows_error. split.
  - intros (m & Hm & Hin). apply elem_of_app in Hin as [Hin|Hin]; eauto.
  - intros [(m & Hm & Hin)|(m & Hm & Hin)]; exists m; rewrite elem_of_app; auto.
Qed.

Lemma shows_no_error_nil : ~ shows_error [].
Proof. intros (m & _ & Hin). by apply elem_of_nil in Hin. Qed.

Lemma run_checks_checked checks :
  Forall checked checks ->
  forall d,
    match run_checks checks d with
    | (msgs, None) =>
        exists pre m, msgs = pre ++ [Message m] /\ m ∈ distance_errors /\
                      ~ shows_error pre
    | (msgs, Some _) => ~ shows_error msgs
    end.
Proof.
  induction 1 as [|check checks Hcheck _ IH]; intros d; cbn [run_checks].
  - apply shows_no_error_nil.
  - specialize (Hcheck d). destruct (check d) as [msgs [d'|]].
    + specialize (IH d'). destruct (run_checks checks d') as [msgs' [d''|]].
      * rewrite shows_error_app. tauto.
      * destruct IH as (pre & m & -> & Hm & Hpre).
        exists (msgs ++ pre), m. rewrite app_assoc. split; [reflexivity|].
        split; [exact Hm|]. rewrite shows_error_app. tauto.
    + destruct Hcheck as (m & -> & Hm). exists [], m.
      split; [reflexivity|]. split; [exact Hm|apply shows_no_error_nil].
Qed.

Lemma the_checks_checked lib tab self metric_def :
  Forall checked
    [ _check_sparse lib tab metric_def;
      _check_tractability self metric_def;
      _fix_discrete lib tab self metric_def;
      _fix_missing lib tab metric_def;
      _fix_nonbinary lib tab metric_def ].
Proof.
  assert (Hin : forall m, m ∈ distance_errors <->
                          m = "dense_metric_sparse_data" \/
                          m = "data_too_large_for_mahalanobis" \/
                          m = "no_continuous_features" \/ m = "no_binary_features").
  { intros m. unfold distance_errors. rewrite !elem_of_cons, elem_of_nil. tauto. }
  repeat constructor; intros d;
    unfold _check_sparse, _check_tractability, _fix_discrete, _fix_missing,
      _fix_nonbinary;
    repeat match goal with |- context [if ?b then _ else _] => destruct b end;
    first [ solve [eexists; split; [reflexivity|]; apply Hin; auto]
          | intros (m & Hm & He); apply Hin in Hm;
            repeat (apply elem_of_cons in He as [He|He];
                    [try discriminate He; injection He as ->;
                     destruct Hm as [|[|[|]]]; discriminate|]);
            by apply elem_of_nil in He ].
Qed.

(** X23: the computation is skipped exactly when an error is shown. When
    [commit] returns for a widget with data, it has started one task,
    and that task has no data if and only if one of the four errors of
    the checks is shown; the error is then the last message before the
    start, and no check after the failed one has run or shown
    anything. *)
Theorem skipped_exactly_on_error :
  forall lib tab w w' es d,
    data w = Some d ->
    commit lib tab w = Return (w', es) ->
    exists t,
      started es = [t] /\
      (task_data t = None <-> shows_error es) /\
      (shows_error es ->
       exists pre m, es = pre ++ [Message m; Start t] /\
                     m ∈ distance_errors /\ ~ shows_error pre).
Proof.
  intros lib tab w w' es d Hdata. unfold commit, compute_distances. rewrite Hdata.
  destruct (assoc _ _) as [metric_def|]; [|discriminate].
  pose proof (run_checks_checked _ (the_checks_checked lib tab w metric_def) d) as Hchecks.
  pose proof (compute_distances_checks lib tab w metric_def d) as Hmsgs.
  destruct (run_checks _ d) as [msgs data']. cbn [fst] in Hmsgs.
  intros H. injection H as _ <-.
  eexists. split.
  { cbn [started]. rewrite started_app.
    destruct (messages_and_calls_quiet _ msgs Hmsgs) as [-> _]. reflexivity. }
  cbn [task_data].
  assert (Hsplit : forall pre : list (effect task),
             shows_error (ClearMessages :: pre ++
                          [Start (mkTask data' (metric metric_def)
                                    (normalize metric_def) (axis w))])
             <-> shows_error pre).
  { intros pre. unfold shows_error. split; intros (m & Hm & Hin); exists m;
      (split; [exact Hm|]).
    - apply elem_of_cons in Hin as [|Hin]; [discriminate|].
      apply elem_of_app in Hin as [Hin|Hin]; [exact Hin|].
      apply list_elem_of_singleton in Hin. discriminate.
    - apply elem_of_cons. right. apply elem_of_app. by left. }
  rewrite Hsplit.
  destruct data' as [d'|].
  - split; [split; [discriminate|tauto]|tauto].
  - destruct Hchecks as (pre & m & -> & Hm & Hpre).
    assert (Hshown : shows_error (pre ++ [Message m])).
    { exists m. split; [exact Hm|]. apply elem_of_app. right. by left. }
    split; [tauto|]. intros _.
    exists (ClearMessages :: pre), m. rewrite <- app_assoc.
    split; [reflexivity|]. split; [exact Hm|].
    intros (m' & Hm' & Hin). apply elem_of_cons in Hin as [|Hin]; [discriminate|].
    apply Hpre. by exists m'.
Qed.

(** X23 at work: three rows pass every check. *)
Lemma skipped_exactly_on_error_witness :
  exists t,
    started (match commit examples.dist_lib examples.table_lib examples.distances_widget
             with Return (_, es) => es | Raise _ => [] end) = [t] /\
    task_data t = Some examples.data3.
Proof.
  destruct (skipped_exactly_on_error examples.dist_lib examples.table_lib
              examples.distances_widget _ _ examples.data3 eq_refl eq_refl)
    as (t & Hstarted & _).
  exists t. split; [exact Hstarted|].
  cbn in Hstarted. by injection Hstarted as <-.
Defined.

End distances_widget.

(** ** The FreeViz optimization *)

Section freeviz_run.
Import owfreeviz.

(** A number is close to itself, and so are anchors. *)
Lemma isclose_refl a : isclose rtol atol a a = true.
Proof.
  unfold isclose. apply Qle_bool_iff.
  assert (H0 : (a - a == 0)%Q) by ring.
  rewrite H0. change (Qabs 0) with 0%Q.
  pose proof (Qabs_nonneg a) as Ha.
  assert (Hr : (0 <= rtol * Qabs a)%Q).
  { apply Qmult_le_0_compat; [discriminate|exact Ha]. }
  assert (Hatol : (0 <= atol)%Q) by discriminate.
  rewrite <- (Qplus_0_r 0).
  by apply Qplus_le_compat.
Qed.

Lemma np_allclose_refl a : np_allclose a a rtol atol = true.
Proof.
  unfold np_allclose. rewrite Nat.eqb_refl. cbn [andb].
  induction a as [|[x y] a IH]; [reflexivity|].
  cbn [zip zip_with forallb fst snd]. by rewrite !isclose_refl, IH.
Qed.

(** X17: a projector that leaves the anchors where they are ends the
    optimization at once. If the first call returns a projector with the
    same components, then for any fuel and whatever the interruption
    requests, [run_freeviz] returns the result of that call after one
    projector call and one delivery, without reporting progress and
    without polling. *)
Theorem unmoved_anchors_stop_at_once :
  forall call fuel data p p' m (st : TaskState Result),
    call data p = Return (p', m) ->
    components_T p' = components_T p ->
    run_freeviz call (S fuel) data p st
    = (mkTaskState (interruption st) (polls st)
         (trace st ++ [SetStatus "计算中..."; Step "projector";
                       SetPartialResult (delivered_result 0 (p', m))]),
       Return (Some (delivered_result 0 (p', m)))).
Proof.
  intros call fuel data p p' m st Hcall Hsame.
  rewrite run_freeviz_unfold, loop_unfold. cbn [projector].
  rewrite Hcall. cbn [fst snd]. rewrite Hsame, np_allclose_refl.
  unfold logged. cbn. by rewrite <- !app_assoc.
Qed.

(** X17 at work: a projector that returns what it is given. *)
Lemma unmoved_anchors_stop_at_once_witness :
  (run_freeviz (fun _ p => Return (p, mkFreeVizModel (Ext 0) (components_T p)))
     1000 examples.data3 examples.circle2 (fresh (from_poll 0))).2
  = Return (Some (mkResult examples.circle2
                    (Some (mkFreeVizModel (Copy 0) [(1, 0); (0, 1)]%Q)))).
Proof.
  exact (f_equal snd
           (unmoved_anchors_stop_at_once
              (fun _ p => Return (p, mkFreeVizModel (Ext 0) (components_T p)))
              999 examples.data3 examples.circle2 examples.circle2
              (mkFreeVizModel (Ext 0) [(1, 0); (0, 1)]%Q)
              (fresh (from_poll 0)) eq_refl eq_refl)).
Defined.

(** X18: an interruption requested before the start costs one iteration.
    The loop polls only at the end of an iteration: when the projector
    returns and the first poll finds interruption requested,
    [run_freeviz] has called the projector once and delivered and
    returned the result of that call, whatever the fuel. *)
Theorem interruption_costs_one_iteration :
  forall call fuel data p pm (st : TaskState Result),
    call data p = Return pm ->
    interruption st (polls st) = true ->
    exists st',
      run_freeviz call (S fuel) data p st
        = (st', Return (Some (delivered_result 0 pm))) /\
      trace st'
        = trace st ++ [SetStatus "计算中..."; Step "projector";
                       SetPartialResult (delivered_result 0 pm)]
                   ++ (if np_allclose (components_T p) (components_T pm.1) rtol atol
                       then []
                       else [SetProgressValue (progress_of 1 MAX_ITERATIONS);
                             PollInterruption true]).
Proof.
  intros call fuel data p pm st Hcall Hint.
  rewrite run_freeviz_unfold, loop_unfold. cbn [projector].
  rewrite Hcall. cbn zeta.
  destruct (np_allclose (components_T p) (components_T pm.1) rtol atol).
  - eexists. split; [reflexivity|]. unfold logged. cbn. by rewrite <- !app_assoc.
  - unfold polled, logged. cbn [interruption polls trace]. rewrite Hint.
    eexists. split; [reflexivity|]. cbn. by rewrite <- !app_assoc.
Qed.

(** X18 at work: the oscillating projector, interrupted from the
    start. *)
Lemma interruption_costs_one_iteration_witness :
  exists st',
    run_freeviz examples.oscillating_call 1000 examples.data3 examples.circle2
      (fresh (from_poll 0))
    = (st', Return (Some (delivered_result 0
                            (mkFreeViz [(-1, -0); (-0, -1)]%Q [(1, 0); (0, 1)]%Q None,
                             mkFreeVizModel (Ext 0) [(-1, -0); (-0, -1)]%Q)))) /\
    count_steps "projector" (trace st') = 1.
Proof.
  destruct (interruption_costs_one_iteration examples.oscillating_call 999
              examples.data3 examples.circle2
              (mkFreeViz [(-1, -0); (-0, -1)]%Q [(1, 0); (0, 1)]%Q None,
               mkFreeVizModel (Ext 0) [(-1, -0); (-0, -1)]%Q)
              (fresh (from_poll 0)) eq_refl eq_refl) as (st' & Hrun & Ht).
  exists st'. split; [exact Hrun|]. rewrite Ht. reflexivity.
Defined.

End freeviz_run.

(** ** Migrating the settings of the manifold learning widget *)

Section manifold_migration.
Import owmanifoldlearning.

Lemma py_index_past_the_end {A} (l : list A) z :
  (Z.of_nat (length l) <= z)%Z -> py_index l z = Raise IndexError.
Proof.
  intros Hz. unfold py_index.
  destruct (Z.ltb_spec z 0) as [|_]; [lia|].
  destruct (Z.ltb_spec z 0) as [|_]; [lia|].
  destruct (l !! Z.to_nat z) eqn:Hl; [|reflexivity].
  apply lookup_lt_Some in Hl. lia.
Qed.

Lemma py_index_raises {A} (l : list A) z e :
  py_index l z = Raise e -> e = IndexError.
Proof.
  unfold py_index. destruct (_ <? 0)%Z; [congruence|].
  destruct (l !! _); congruence.
Qed.

(** X19: the migration clamps the t-SNE indices one past the end. For
    settings older than version 2 whose t-SNE editor holds the integers
    [z] as metric index and [y] as initialization index under its old
    name, the call returns with the metric index [min z 4] and the
    initialization index [min y 2] under the new name and the old name
    removed, every other key as it was. The editor built from the
    migrated indices does what it would have done with the old ones: an
    index past the end is still past the end and raises IndexError. *)
Theorem manifold_migration_clamps_past_the_end :
  forall settings tsne v z y,
    (v < 2)%Z ->
    settings !! "tsne_editor" = Some (PyDict tsne) ->
    tsne !! "metric_index" = Some (PyInt z) ->
    tsne !! "init_index" = Some (PyInt y) ->
    exists tsne',
      migrate_settings settings (Some v)
        = (<["tsne_editor" := PyDict tsne']> settings, Return tt) /\
      tsne' !! "metric_index" = Some (PyInt (Z.min z 4)) /\
      tsne' !! "initialization_index" = Some (PyInt (Z.min y 2)) /\
      tsne' !! "init_index" = None /\
      (forall k, k <> "metric_index" -> k <> "initialization_index" ->
                 k <> "init_index" -> tsne' !! k = tsne !! k) /\
      TSNEParametersEditor.init (PyInt (Z.min z 4)) (PyInt (Z.min y 2))
        = TSNEParametersEditor.init (PyInt z) (PyInt y) /\
      ((4 <= z)%Z \/ (2 <= y)%Z ->
       TSNEParametersEditor.init (PyInt (Z.min z 4)) (PyInt (Z.min y 2))
         = Raise IndexError).
Proof.
  intros settings tsne v z y Hv Hs Hz Hy.
  assert (Hmin : forall n x, (if (n <? x)%Z then PyInt n else PyInt x) = PyInt (Z.min x n)).
  { intros n x. destruct (Z.ltb_spec n x); f_equal; lia. }
  exists (<["metric_index" := PyInt (Z.min z 4)]>
            (<["initialization_index" := PyInt (Z.min y 2)]> (delete "init_index" tsne))).
  split; [|split; [|split; [|split; [|split; [|split]]]]].
  - unfold migrate_settings. destruct (Z.ltb_spec v 2) as [_|]; [|lia].
    rewrite Hs. unfold migrate_init_index. rewrite Hy. unfold py_min at 1.
    cbn [as_int length TSNEParametersEditor.initialization_values].
    unfold migrate_metric_index.
    rewrite lookup_insert_ne by discriminate.
    rewrite lookup_delete_ne by discriminate. rewrite Hz. unfold py_min.
    cbn [as_int length TSNEParametersEditor.metric_values].
    change (Z.of_nat 2) with 2%Z. change (Z.of_nat 4) with 4%Z.
    by rewrite !Hmin.
  - by rewrite lookup_insert.
  - rewrite lookup_insert_ne by discriminate. by rewrite lookup_insert.
  - rewrite !lookup_insert_ne by discriminate. by rewrite lookup_delete.
  - intros k H1 H2 H3. by rewrite !lookup_insert_ne, lookup_delete_ne.
  - unfold TSNEParametersEditor.init, TSNEParametersEditor.parameter_update.
    cbn [as_int].
    destruct (Z.le_gt_cases 4 z) as [Hbig|Hsmall].
    + rewrite Z.min_r by exact Hbig.
      rewrite !(py_index_past_the_end TSNEParametersEditor.metric_values)
        by (cbn; lia).
      reflexivity.
    + rewrite (Z.min_l z 4) by lia.
      destruct (py_index TSNEParametersEditor.metric_values z); [|reflexivity].
      destruct (Z.le_gt_cases 2 y) as [Hbig|Hsmall'].
      * rewrite Z.min_r by exact Hbig.
        rewrite !(py_index_past_the_end TSNEParametersEditor.initialization_values)
          by (cbn; lia).
        reflexivity.
      * by rewrite (Z.min_l y 2) by lia.
  - unfold TSNEParametersEditor.init, TSNEParametersEditor.parameter_update.
    cbn [as_int]. intros Hbig.
    destruct (Z.le_gt_cases 4 z) as [Hz4|Hz4].
    + rewrite Z.min_r by exact Hz4.
      by rewrite (py_index_past_the_end TSNEParametersEditor.metric_values)
        by (cbn; lia).
    + destruct Hbig as [|Hy2]; [lia|]. rewrite (Z.min_r y 2) by exact Hy2.
      destruct (py_index TSNEParametersEditor.metric_values _) as [m|e] eqn:Hm.
      * by rewrite (py_index_past_the_end TSNEParametersEditor.initialization_values)
          by (cbn; lia).
      * by rewrite (py_index_raises _ _ _ Hm).
Qed.

(** X19 at work: the metric index 7 and the initialization index 5. *)
Lemma manifold_migration_clamps_past_the_end_witness :
  TSNEParametersEditor.init (PyInt (Z.min 7 4)) (PyInt (Z.min 5 2)) = Raise IndexError /\
  TSNEParametersEditor.init (PyInt 7) (PyInt 5) = Raise IndexError.
Proof.
  destruct (manifold_migration_clamps_past_the_end
              (<["tsne_editor" :=
                   PyDict (<["metric_index" := PyInt 7]>
                             (<["init_index" := PyInt 5]> ∅))]> ∅)
              (<["metric_index" := PyInt 7]> (<["init_index" := PyInt 5]> ∅))
              1 7 5)
    as (tsne' & _ & _ & _ & _ & _ & Hsame & Hraise);
    [lia|vm_compute; reflexivity..|].
  split.
  - apply Hraise. left. lia.
  - rewrite <- Hsame. apply Hraise. left. lia.
Defined.

End manifold_migration.

(** ** How often new data is sampled *)

Section sampler_set_data.
Import owdatasampler.

Lemma count_calls_app {T} callee (a b : list (effect T)) :
  count_calls callee (a ++ b) = count_calls callee a + count_calls callee b.
Proof.
  induction a as [|e a IH]; [reflexivity|].
  destruct e; cbn [app count_calls]; rewrite IH; lia.
Qed.

Lemma count_calls_elem {T} callee (es : list (effect T)) :
  Call callee ∈ es -> 0 < count_calls callee es.
Proof.
  induction es as [|e es IH]; intros Hin.
  - by apply elem_of_nil in Hin.
  - apply elem_of_cons in Hin as [<-|Hin].
    + cbn. rewrite String.eqb_refl. lia.
    + specialize (IH Hin). destruct e; cbn; lia.
Qed.

Lemma update_sample_max_size_use_seed w :
  use_seed (_update_sample_max_size w) = use_seed w.
Proof.
  unfold _update_sample_max_size, sampleSizeSpin_setMaximum.
  destruct (no_data w || replacement w).
  - by destruct (_ <? _)%Z.
  - destruct (data w) as [[t|t]|]; [| |reflexivity]; by destruct (_ <? _)%Z.
Qed.

(** X20: new data is sampled twice unless the seed is in use. [set_data]
    lowers the sample size to the number of rows, calls [updateindices]
    and then [commit], which calls it again when sampling is not
    seeded: when a table in memory has been sampled and sent, the
    sampler has been called as often as one [updateindices] calls it if
    the seed is in use, and twice as often if not. *)
Theorem set_data_samples_twice_unseeded :
  forall lib w t w' es,
    set_data lib (Some (InMemory t)) w = Return (w', es) ->
    indices w' <> None ->
    exists w1 es1,
      updateindices lib
        (_update_sample_max_size (set_field_data (Some (InMemory t)) w)) t
        = Return (w1, es1) /\
      0 < count_calls "sample" es1 /\
      count_calls "sample" es
      = (if use_seed w then 1 else 2) * count_calls "sample" es1.
Proof.
  intros lib w t w' es. unfold set_data.
  set (w0 := _update_sample_max_size (set_field_data (Some (InMemory t)) w)).
  assert (Hdata0 : data w0 = Some (InMemory t)).
  { unfold w0. by rewrite update_sample_max_size_data. }
  assert (Hseed0 : use_seed w0 = use_seed w).
  { unfold w0. by rewrite update_sample_max_size_use_seed. }
  destruct (updateindices lib w0 t) as [[w1 es1]|] eqn:Hupd; [|discriminate].
  destruct (updateindices_spec lib w0 t w1 es1 Hupd)
    as [_ [(-> & _)|(ind & -> & Hcall & _)]].
  - unfold commit. cbn [data indices set_field_indices]. rewrite Hdata0.
    change (updateindices lib (set_field_indices None w0) t)
      with (updateindices lib w0 t).
    rewrite Hupd. cbn [indices set_field_indices].
    intros H. injection H as <- _. intros Hn. exfalso. by apply Hn.
  - intros Hcommit _. exists (set_field_indices (Some ind) w0), es1.
    split; [reflexivity|]. split; [by apply count_calls_elem|].
    revert Hcommit. unfold commit.
    cbn [data indices use_seed set_field_indices]. rewrite Hdata0, Hseed0.
    change (updateindices lib (set_field_indices (Some ind) w0) t)
      with (updateindices lib w0 t).
    rewrite Hupd. cbn [indices set_field_indices].
    destruct (use_seed w);
      (destruct (send_sample _ _ t ind _) as [[w2 es2]|] eqn:Hsend; [|discriminate]);
      apply send_sample_spec in Hsend as (? & ? & ? & ? & _ & _ & _ & _ & ->);
      intros H; injection H as _ <-; rewrite !count_calls_app; cbn; lia.
Qed.

(** X20 at work: three rows given to a widget that is not seeded. *)
Lemma set_data_samples_twice_unseeded_witness :
  exists w' es,
    set_data examples.sampler_lib (Some (InMemory examples.data3))
      examples.unseeded_sampler = Return (w', es) /\
    count_calls "sample" es = 2.
Proof.
  destruct (set_data examples.sampler_lib (Some (InMemory examples.data3))
              examples.unseeded_sampler) as [[w' es]|] eqn:Hset; [|discriminate Hset].
  exists w', es. split; [reflexivity|].
  destruct (set_data_samples_twice_unseeded _ _ _ _ _ Hset) as (w1 & es1 & Hupd & _ & ->).
  - vm_compute in Hset. injection Hset as <- _. discriminate.
  - vm_compute in Hupd. injection Hupd as _ <-. reflexivity.
Defined.

End sampler_set_data.

(** ** The progress the outliers' run reports *)

Section outliers_progress.
Import owoutliers.
Context {R : Type}.

Lemma emits_ret {A} (P : event R -> Prop) (a : A) : emits P (ret a : M R A).
Proof. intros st. exists []. cbn. by rewrite app_nil_r. Qed.

Lemma emits_lift {A} (P : event R -> Prop) (o : outcome A) : emits P (lift o : M R A).
Proof. intros st. exists []. cbn. by rewrite app_nil_r. Qed.

Lemma emits_raise {A} (P : event R -> Prop) e : emits P (raise e : M R A).
Proof. intros st. exists []. cbn. by rewrite app_nil_r. Qed.

Lemma emits_emit (P : event R -> Prop) (e : event R) : P e -> emits P (emit e).
Proof. intros He st. exists [e]. cbn. split; [reflexivity|by constructor]. Qed.

Lemma emits_poll (P : event R -> Prop) :
  (forall b, P (PollInterruption b)) -> emits P (@is_interruption_requested R).
Proof. intros Hb st. eexists [_]. cbn. split; [reflexivity|by constructor]. Qed.

Lemma emits_bind {A B} (P : event R -> Prop) (c : M R A) (f : A -> M R B) :
  emits P c -> (forall a, emits P (f a)) -> emits P (bind c f).
Proof.
  intros Hc Hf st. unfold bind. destruct (Hc st) as (evs1 & Ht1 & H1).
  destruct (c st) as [st1 [a|e]]; cbn in Ht1.
  - destruct (Hf a st1) as (evs2 & Ht2 & H2). exists (evs1 ++ evs2).
    rewrite Ht2, Ht1, app_assoc. split; [reflexivity|by apply Forall_app_2].
  - by exists evs1.
Qed.

(** The same, the continuation needed only at the values [c] returns. *)
Lemma emits_bind_returned {A B} (P : event R -> Prop) (c : M R A) (f : A -> M R B) :
  emits P c ->
  (forall a st st', c st = (st', Return a) -> emits P (f a)) ->
  emits P (bind c f).
Proof.
  intros Hc Hf st. unfold bind. destruct (Hc st) as (evs1 & Ht1 & H1).
  destruct (c st) as [st1 [a|e]] eqn:Hcst; cbn in Ht1.
  - destruct (Hf a st st1 Hcst st1) as (evs2 & Ht2 & H2). exists (evs1 ++ evs2).
    rewrite Ht2, Ht1, app_assoc. split; [reflexivity|by apply Forall_app_2].
  - by exists evs1.
Qed.

Lemma emits_for_each {A} (P : event R -> Prop) (body : A -> M R unit) xs :
  Forall (fun x => emits P (body x)) xs -> emits P (for_each body xs).
Proof.
  induction 1 as [|x xs Hx _ IH]; cbn [for_each]; [apply emits_ret|].
  apply emits_bind; [exact Hx|intros _; exact IH].
Qed.

End outliers_progress.

Section outliers_progress_run.
Import owoutliers.

Lemma callback_within i status :
  (0 <= i <= 1)%Q -> emits (progress_between 0 100) (callback i status).
Proof.
  intros Hi. unfold callback.
  apply emits_bind; [|intros _; apply emits_bind; [|intros _; apply emits_bind]].
  - apply emits_emit. cbn. lra.
  - destruct (String.eqb status ""); [apply emits_ret|by apply emits_emit].
  - by apply emits_poll.
  - intros []; [apply emits_raise|apply emits_ret].
Qed.

Lemma script_within (start end_ : Q) script :
  (0 <= start)%Q -> (start <= end_)%Q -> (end_ <= 1)%Q ->
  Forall unit_report script ->
  emits (progress_between 0 100) (run_script (wrap_callback callback start end_) script).
Proof.
  intros H0 Hse H1 Hscript. unfold run_script. apply emits_for_each.
  eapply Forall_impl; [exact Hscript|]. intros [i s|callee] Ha; cbn in Ha.
  - unfold wrap_callback. apply callback_within. nra.
  - by apply emits_emit.
Qed.

(** X21: the outliers' progress stays between 0 and 100. If the learner
    and the models it fits report their progress as shares between 0 and
    1, every progress value [run] sets lies between 0 and 100, whether
    the run returns, is interrupted or fails. *)
Theorem outliers_progress_within_bounds :
  forall data learner (st : TaskState unit),
    Forall unit_report (fit_script learner) ->
    (forall d model, fit learner d = Return model ->
                     Forall unit_report (predict_script model)) ->
    exists evs,
      trace (run data learner st).1 = trace st ++ evs /\
      Forall (progress_between 0 100) evs.
Proof.
  intros data learner st Hfit Hpredict. revert st.
  change (emits (progress_between 0 100) (run data learner)).
  unfold run. destruct data as [d|]; [|apply emits_ret].
  destruct (len d =? 0); [apply emits_ret|].
  apply emits_bind; [apply callback_within; lra|intros _].
  apply emits_bind_returned.
  { unfold call_learner. apply emits_bind; [|intros _; apply emits_lift].
    apply script_within; try lra. exact Hfit. }
  intros model st0 st1 Hmodel.
  assert (Hfitted : fit learner d = Return model).
  { revert Hmodel. unfold call_learner, bind, lift.
    destruct (run_script _ _ st0) as [st2 [[]|e]]; [|discriminate].
    intros H. by injection H as _ ->. }
  apply emits_bind.
  { unfold call_model. apply emits_bind; [|intros _; apply emits_lift].
    apply script_within; try lra. exact (Hpredict d model Hfitted). }
  intros pred.
  apply emits_bind; [apply emits_lift|intros col].
  apply emits_bind; [apply emits_lift|intros inl].
  apply emits_bind; [apply emits_lift|intros outl].
  apply emits_bind; [apply callback_within; lra|intros _].
  apply emits_ret.
Qed.

(** X21 at work: a run on three rows, interrupted at its third poll. *)
Lemma outliers_progress_within_bounds_witness :
  exists evs,
    trace (run (Some examples.data3) examples.sign_learner (fresh (from_poll 2))).1 = evs /\
    Forall (progress_between 0 100) evs /\
    SetProgressValue (((6 # 10) + (1 # 2) * ((99 # 100) - (6 # 10))) * 100) ∈ evs.
Proof.
  destruct (outliers_progress_within_bounds (Some examples.data3) examples.sign_learner
              (fresh (from_poll 2))) as (evs & Ht & Hevs).
  - repeat constructor; cbn; lra.
  - intros d model Hfit. injection Hfit as <-. repeat constructor; cbn; lra.
  - exists evs. split; [exact Ht|]. split; [exact Hevs|].
    cbn in Ht. rewrite <- Ht. set_solver.
Defined.

End outliers_progress_run.
